(** * The universal event tracker (event_tracker.js), embedded in Rocq

    The tracker is a browser script: it registers one listener per event
    category on [document] / [window], and every listener assembles a
    record and prints it on the developer console.  The embedding follows
    the script function by function.

    - JavaScript values that reach the console are terms of [JsValue].
    - The page (DOM tree, window metrics) is a [Page]; elements are
      referred to by their position in the tree, so that a listener that
      fires later (a debounced callback) reads the element as it is then.
    - The host state (clock, console, registered listeners, pending
      timers, the closure variables of the listeners, storage, network)
      is a [World]; script code runs in the state-and-exception monad [M].

    Idealisations, stated once:
    - a string is kept as its UTF-8 encoding; [trim], [split] and
      [substring] work on its UTF-16 code units, as in JavaScript;
      [toLowerCase] folds ASCII letters only (no non-ASCII character
      lower-cases to a letter of "password");
    - pixel offsets and coordinates are integers; the scroll percentage
      is computed in double precision (IEEE 754 binary64), as in
      JavaScript;
    - [new Date().toISOString()] at instant [t] is the value [JIsoTime t]. *)

From stdpp Require Import base strings gmap list pretty.
From Stdlib Require Import ZArith NArith Lia Ascii.
From Stdlib Require SpecFloat.

Set Warnings "-register-all".
Local Open Scope Z_scope.

(** ** Strings *)

Module Str.

Definition dquote : string := String "034"%char EmptyString.

Definition lower_ascii (c : Ascii.ascii) : Ascii.ascii :=
  let n := Ascii.N_of_ascii c in
  if ((65 <=? n) && (n <=? 90))%N then Ascii.ascii_of_N (n + 32) else c.

(** [s.toLowerCase()] *)
Fixpoint toLowerCase (s : string) : string :=
  match s with
  | EmptyString => EmptyString
  | String c s' => String (lower_ascii c) (toLowerCase s')
  end.

(** [s.includes(needle)] *)
Fixpoint includes (needle s : string) : bool :=
  String.prefix needle s ||
  match s with
  | EmptyString => false
  | String _ s' => includes needle s'
  end.

(** *** Characters

    A JavaScript string is a sequence of UTF-16 code units.  The
    embedding keeps a string as its UTF-8 encoding (a surrogate without
    its partner as the three bytes of its own value), and the functions
    that look at single characters, [trim], [split] and [substring],
    work on the code units. *)

Definition code (c : Ascii.ascii) : N := Ascii.N_of_ascii c.
Definition byte (n : N) : Ascii.ascii := Ascii.ascii_of_N n.

(** The six low bits of a continuation byte. *)
Definition low6 (c : Ascii.ascii) : N := (code c mod 64)%N.

(** The code units of a string.  The first byte of a character tells
    its length; a character of four bytes is a surrogate pair.  Bytes that
    are no encoding are read leniently: no JavaScript string has them. *)
Fixpoint utf16 (s : string) : list N :=
  match s with
  | EmptyString => []
  | String a r1 =>
      let x := code a in
      if (x <? 192)%N then x :: utf16 r1
      else
        match r1 with
        | EmptyString => [x]
        | String b r2 =>
            if (x <? 224)%N then ((x - 192) * 64 + low6 b)%N :: utf16 r2
            else
              match r2 with
              | EmptyString => [x]
              | String c r3 =>
                  if (x <? 240)%N
                  then ((x - 224) * 4096 + low6 b * 64 + low6 c)%N :: utf16 r3
                  else
                    match r3 with
                    | EmptyString => [x]
                    | String d r4 =>
                        let p := ((x - 240) * 262144 + low6 b * 4096
                                  + low6 c * 64 + low6 d)%N in
                        (55296 + (p - 65536) / 1024)%N
                          :: (56320 + (p - 65536) mod 1024)%N :: utf16 r4
                    end
              end
        end
  end.

Definition is_high (u : N) : bool := ((55296 <=? u) && (u <? 56320))%N.
Definition is_low (u : N) : bool := ((56320 <=? u) && (u <? 57344))%N.

(** The bytes of a code unit that is not part of a pair. *)
Definition encode_unit (u : N) : string :=
  if (u <? 128)%N then String (byte u) EmptyString
  else if (u <? 2048)%N
  then String (byte (192 + u / 64)) (String (byte (128 + u mod 64)) EmptyString)
  else String (byte (224 + u / 4096))
         (String (byte (128 + (u / 64) mod 64))
            (String (byte (128 + u mod 64)) EmptyString)).

(** The bytes of a surrogate pair. *)
Definition encode_pair (h l : N) : string :=
  let p := (65536 + (h - 55296) * 1024 + (l - 56320))%N in
  String (byte (240 + p / 262144))
    (String (byte (128 + (p / 4096) mod 64))
       (String (byte (128 + (p / 64) mod 64))
          (String (byte (128 + p mod 64)) EmptyString))).

(** The string with the code units [us]. *)
Fixpoint utf8 (us : list N) : string :=
  match us with
  | [] => EmptyString
  | u :: rest =>
      match rest with
      | v :: rest' =>
          if is_high u && is_low v then encode_pair u v +:+ utf8 rest'
          else encode_unit u +:+ utf8 rest
      | [] => encode_unit u
      end
  end.

(** White space and line terminators, the characters that [trim] strips
    and that [\s] matches: U+0009 to U+000D, U+0020, U+00A0, U+1680,
    U+2000 to U+200A, U+2028, U+2029, U+202F, U+205F, U+3000, U+FEFF. *)
Definition is_white (u : N) : bool :=
  (((9 <=? u) && (u <=? 13)) || (u =? 32) || (u =? 160) || (u =? 5760)
   || ((8192 <=? u) && (u <=? 8202)) || (u =? 8232) || (u =? 8233)
   || (u =? 8239) || (u =? 8287) || (u =? 12288) || (u =? 65279))%N.

Fixpoint trimStart (us : list N) : list N :=
  match us with
  | [] => []
  | u :: rest => if is_white u then trimStart rest else us
  end.

(** [s.trim()] *)
Definition trim (s : string) : string :=
  utf8 (rev (trimStart (rev (trimStart (utf16 s))))).

(** [s.split(/\s+/)]: [cur] is the piece being read, [gap] tells that
    the previous character was white space. *)
Fixpoint split_ws_from (us cur : list N) (gap : bool) : list (list N) :=
  match us with
  | [] => [cur]
  | u :: rest =>
      if is_white u
      then (if gap then split_ws_from rest cur true
            else cur :: split_ws_from rest [] true)
      else split_ws_from rest (cur ++ [u]) false
  end.

Definition split_ws (s : string) : list string :=
  utf8 <$> split_ws_from (utf16 s) [] false.

(** [s.substring(from, to)]: the code units from the smaller index up to
    the larger one, both cut to the length of the string. *)
Definition substring (from to : nat) (s : string) : string :=
  utf8 (take (Nat.max from to - Nat.min from to)
          (drop (Nat.min from to) (utf16 s))).

(** [pieces.join(sep)] *)
Fixpoint join (sep : string) (pieces : list string) : string :=
  match pieces with
  | [] => ""
  | [p] => p
  | p :: rest => p +:+ sep +:+ join sep rest
  end.

(** truthiness of a string *)
Definition truthy (s : string) : bool :=
  match s with EmptyString => false | _ => true end.

End Str.

(** ** Numbers that can be non-finite

    Only the scroll percentage can be [NaN] or infinite (a page whose
    scrollable height is zero); every other number of the script is a
    finite integer, kept in [Z].  The percentage is the result of
    [Math.round], an integer or a non-finite value; the quotient it is
    rounded from is a double. *)

Inductive jsnum := Fin (z : Z) | PInf | NInf | NaN.

Module Num.

(** Double precision: 53 bits of mantissa, exponents below 1024. *)
Definition prec : Z := 53.
Definition emax : Z := 1024.

Definition double : Type := SpecFloat.spec_float.

(** The double nearest to an integer. *)
Definition of_Z (z : Z) : double := SpecFloat.binary_normalize prec emax z 0 false.

(** [x / y] and [x * y] on doubles, rounded to nearest, ties to even. *)
Definition div (x y : double) : double := SpecFloat.SFdiv prec emax x y.
Definition mul (x y : double) : double := SpecFloat.SFmul prec emax x y.

(** [Math.round(x)]: the integer nearest to [x], the larger one of two
    that are equally near. *)
Definition round (x : double) : jsnum :=
  match x with
  | SpecFloat.S754_zero _ => Fin 0
  | SpecFloat.S754_infinity false => PInf
  | SpecFloat.S754_infinity true => NInf
  | SpecFloat.S754_nan => NaN
  | SpecFloat.S754_finite s m e =>
      let n := if s then Z.neg m else Z.pos m in
      if 0 <=? e then Fin (n * 2 ^ e)
      else Fin ((2 * n + 2 ^ (- e)) `div` (2 * 2 ^ (- e)))
  end.

Definition sub (a b : jsnum) : jsnum :=
  match a, b with
  | NaN, _ | _, NaN => NaN
  | Fin x, Fin y => Fin (x - y)
  | PInf, PInf | NInf, NInf => NaN
  | PInf, _ | _, NInf => PInf
  | NInf, _ | _, PInf => NInf
  end.

(** [Math.abs] *)
Definition abs (a : jsnum) : jsnum :=
  match a with
  | Fin x => Fin (Z.abs x)
  | PInf | NInf => PInf
  | NaN => NaN
  end.

(** [a > b] *)
Definition gt (a b : jsnum) : bool :=
  match a, b with
  | NaN, _ | _, NaN => false
  | Fin x, Fin y => y <? x
  | PInf, PInf | NInf, NInf => false
  | PInf, _ | _, NInf => true
  | NInf, _ | _, PInf => false
  end.

(** [Math.round((p / h) * 100)] for integers [p] and [h]: the quotient
    and the product are rounded to doubles before [Math.round]. *)
Definition percentage (p h : Z) : jsnum :=
  round (mul (div (of_Z p) (of_Z h)) (of_Z 100)).

(** [Math.round(d / 1000)] *)
Definition round_div_1000 (d : Z) : Z := (2 * d + 1000) `div` 2000.

(** [n + ''] *)
Definition to_string (a : jsnum) : string :=
  match a with
  | Fin x => pretty x
  | PInf => "Infinity"
  | NInf => "-Infinity"
  | NaN => "NaN"
  end.

End Num.

(** ** Values *)

(** A node of the page is named by its position: the child indices from
    the node up to its root, nearest first.  [[2; 0; 1; 0]] is the third
    child of the first child of the second child of root 0.  The parent
    of [i :: up] is [up]; a root [[i]] has no parent ([parentNode] is
    [null]), and a reference that names no node stands for [null]. *)
Definition ref := list nat.

Inductive JsValue :=
| JUndefined
| JNull
| JBool (b : bool)
| JInt (z : Z)
| JStr (s : string)
| JIsoTime (t : Z)                       (* new Date(t).toISOString()    *)
| JLocaleTime (t : Z)                    (* new Date(t).toLocaleString() *)
| JObj (props : list (string * JsValue)) (* object literal, in source order *)
| JDict (own : gmap string JsValue)      (* object filled by [o[k] = v]  *)
| JNode (r : ref)                        (* a DOM node, by reference     *)
| JFile (fname : string)                 (* a File of a file input       *)
| JFunction (fname : string).            (* a function of the script     *)

(** [a || b] on strings, as a value *)
Definition str_or (s dflt : string) : JsValue :=
  if Str.truthy s then JStr s else JStr dflt.

Definition js_truthy (v : JsValue) : bool :=
  match v with
  | JUndefined | JNull => false
  | JBool b => b
  | JInt z => negb (z =? 0)
  | JStr s => Str.truthy s
  | _ => true
  end.

Definition js_or (v dflt : JsValue) : JsValue :=
  if js_truthy v then v else dflt.

(** [o[key] = v] on an object created by [{}].  The key ["__proto__"]
    reaches the accessor inherited from [Object.prototype] and creates no
    own property. *)
Definition dict_set (key : string) (v : JsValue) (own : gmap string JsValue)
  : gmap string JsValue :=
  if decide (key = "__proto__") then own else <[key := v]> own.

Inductive JsError := TypeError (msg : string).

Inductive Completion (A : Type) :=
| Normal (a : A)
| Throw (e : JsError).
Arguments Normal {A} a.
Arguments Throw {A} e.

(** ** The page *)

(** The properties of a node that the script reads.  A property that is
    [undefined] on a node (for instance [value] on a [div]) is the empty
    string: the script only tests such properties for truthiness or
    compares them with a non-empty literal.  [tagName] is [None] on nodes
    that are not elements; [className] is a value because an SVG element
    has an object there. *)
Record Node := mkNode {
  nodeType : nat;
  nodeName : string;
  tagName : option string;
  id : string;
  className : JsValue;
  textContent : string;
  value : string;
  type : string;
  name : string;
  action : string;
  method : string;
  formEntries : list (string * JsValue);  (* [new FormData(form).entries()] *)
  computedStyle : gmap string string      (* [window.getComputedStyle(node)] *)
}.

Definition ELEMENT_NODE : nat := 1.

Inductive tree := Tree (node : Node) (childNodes : list tree).

Definition tree_node (t : tree) : Node := let 'Tree n _ := t in n.
Definition tree_children (t : tree) : list tree := let 'Tree _ c := t in c.

(** Walk down from a forest along a root-first path. *)
Fixpoint subtree (ts : list tree) (path : list nat) : option tree :=
  match path with
  | [] => None
  | i :: rest =>
      match ts !! i with
      | None => None
      | Some t =>
          match rest with
          | [] => Some t
          | _ => subtree (tree_children t) rest
          end
      end
  end.

(** Apply [f] to the node at a root-first path. *)
Fixpoint alter_node (f : Node -> Node) (ts : list tree) (path : list nat)
  : list tree :=
  match path with
  | [] => ts
  | i :: rest =>
      alter (fun t =>
               match rest with
               | [] => Tree (f (tree_node t)) (tree_children t)
               | _ => Tree (tree_node t) (alter_node f (tree_children t) rest)
               end) i ts
  end.

Record Page := mkPage {
  roots : list tree;        (* root 0 is the document node; others are detached *)
  body : ref;               (* document.body *)
  readyState : string;
  hidden : bool;
  href : string;
  pathname : string;
  title : string;
  referrer : string;
  userAgent : string;
  innerWidth : Z;
  innerHeight : Z;
  screenWidth : Z;
  screenHeight : Z;
  pageYOffset : Z;
  docScrollTop : Z;         (* document.documentElement.scrollTop *)
  docScrollHeight : Z;      (* document.documentElement.scrollHeight *)
  navigationStart : Z       (* performance.timing.navigationStart *)
}.

Definition tree_at (pg : Page) (r : ref) : option tree :=
  subtree (roots pg) (rev r).

Definition node_at (pg : Page) (r : ref) : option Node :=
  tree_node <$> tree_at pg r.

Definition with_roots (ts : list tree) (pg : Page) : Page :=
  mkPage ts (body pg) (readyState pg) (hidden pg) (href pg) (pathname pg)
    (title pg) (referrer pg) (userAgent pg) (innerWidth pg) (innerHeight pg)
    (screenWidth pg) (screenHeight pg) (pageYOffset pg) (docScrollTop pg)
    (docScrollHeight pg) (navigationStart pg).

Definition with_scroll (top : Z) (pg : Page) : Page :=
  mkPage (roots pg) (body pg) (readyState pg) (hidden pg) (href pg)
    (pathname pg) (title pg) (referrer pg) (userAgent pg) (innerWidth pg)
    (innerHeight pg) (screenWidth pg) (screenHeight pg) top top
    (docScrollHeight pg) (navigationStart pg).

Definition with_hidden (h : bool) (pg : Page) : Page :=
  mkPage (roots pg) (body pg) (readyState pg) h (href pg) (pathname pg)
    (title pg) (referrer pg) (userAgent pg) (innerWidth pg) (innerHeight pg)
    (screenWidth pg) (screenHeight pg) (pageYOffset pg) (docScrollTop pg)
    (docScrollHeight pg) (navigationStart pg).

Definition set_value (v : string) (n : Node) : Node :=
  mkNode (nodeType n) (nodeName n) (tagName n) (id n) (className n)
    (textContent n) v (type n) (name n) (action n) (method n)
    (formEntries n) (computedStyle n).

Definition set_className (c : JsValue) (n : Node) : Node :=
  mkNode (nodeType n) (nodeName n) (tagName n) (id n) c
    (textContent n) (value n) (type n) (name n) (action n) (method n)
    (formEntries n) (computedStyle n).

Definition alter_at (f : Node -> Node) (r : ref) (pg : Page) : Page :=
  with_roots (alter_node f (roots pg) (rev r)) pg.

(** ** Events, listeners, timers *)

(** An event object, with the properties the listeners read. *)
Record Event := mkEvent {
  ev_type : string;
  target : ref;
  clientX : Z;
  clientY : Z;
  pageX : Z;
  pageY : Z;
  key : string;
  code : string;
  ctrlKey : bool;
  shiftKey : bool;
  altKey : bool
}.

Inductive EventTarget := Document | Window.

(** The functions the script passes to [addEventListener]. *)
Inductive Handler :=
| InitializeTracker
| ClickListener
| SubmitListener
| InputListener
| ScrollListener
| MouseMoveListener
| KeyDownListener
| VisibilityListener
| BeforeUnloadListener.

Record Registration := mkRegistration {
  reg_target : EventTarget;
  reg_type : string;
  reg_handler : Handler;
  reg_capture : bool
}.

(** The closures the script passes to [setTimeout]; the input and the
    mouse callback capture the event of the listener call that made them. *)
Inductive Callback :=
| InputCallback (event : Event)
| ScrollCallback
| MouseCallback (event : Event).

Record Timer := mkTimer {
  timer_id : nat;
  due : Z;
  callback : Callback
}.

Inductive ConsoleCall :=
| ConsoleLog (args : list JsValue)
| ConsoleTable (data : JsValue).

(** ** The host state *)

Record World := mkWorld {
  now : Z;                           (* Date.now() *)
  page : Page;
  console : list ConsoleCall;        (* the sink, oldest call first *)
  listeners : list Registration;
  timers : list Timer;               (* pending, in the order they were set *)
  nextTimerId : nat;
  uncaught : list JsError;           (* exceptions reported by the event loop *)
  (* closure variables of the listeners *)
  inputTimeout : option nat;
  scrollTimeout : option nat;
  lastScrollPosition : jsnum;
  mouseTimeout : option nat;
  lastMousePosition : Z * Z;
  (* the rest of the host *)
  globals : gmap string JsValue;     (* properties set on [window] *)
  localStorage : gmap string string;
  network : list string              (* requests sent, by URL *)
}.

(** Field updates. *)
Definition set_now (x : Z) (w : World) : World :=
  mkWorld x (page w) (console w) (listeners w) (timers w) (nextTimerId w)
    (uncaught w) (inputTimeout w) (scrollTimeout w) (lastScrollPosition w)
    (mouseTimeout w) (lastMousePosition w) (globals w) (localStorage w)
    (network w).
Definition set_page (x : Page) (w : World) : World :=
  mkWorld (now w) x (console w) (listeners w) (timers w) (nextTimerId w)
    (uncaught w) (inputTimeout w) (scrollTimeout w) (lastScrollPosition w)
    (mouseTimeout w) (lastMousePosition w) (globals w) (localStorage w)
    (network w).
Definition set_console (x : list ConsoleCall) (w : World) : World :=
  mkWorld (now w) (page w) x (listeners w) (timers w) (nextTimerId w)
    (uncaught w) (inputTimeout w) (scrollTimeout w) (lastScrollPosition w)
    (mouseTimeout w) (lastMousePosition w) (globals w) (localStorage w)
    (network w).
Definition set_listeners (x : list Registration) (w : World) : World :=
  mkWorld (now w) (page w) (console w) x (timers w) (nextTimerId w)
    (uncaught w) (inputTimeout w) (scrollTimeout w) (lastScrollPosition w)
    (mouseTimeout w) (lastMousePosition w) (globals w) (localStorage w)
    (network w).
Definition set_timers (x : list Timer) (w : World) : World :=
  mkWorld (now w) (page w) (console w) (listeners w) x (nextTimerId w)
    (uncaught w) (inputTimeout w) (scrollTimeout w) (lastScrollPosition w)
    (mouseTimeout w) (lastMousePosition w) (globals w) (localStorage w)
    (network w).
Definition set_nextTimerId (x : nat) (w : World) : World :=
  mkWorld (now w) (page w) (console w) (listeners w) (timers w) x (uncaught
    w) (inputTimeout w) (scrollTimeout w) (lastScrollPosition w) (mouseTimeout
    w) (lastMousePosition w) (globals w) (localStorage w) (network w).
Definition set_uncaught (x : list JsError) (w : World) : World :=
  mkWorld (now w) (page w) (console w) (listeners w) (timers w) (nextTimerId
    w) x (inputTimeout w) (scrollTimeout w) (lastScrollPosition w)
    (mouseTimeout w) (lastMousePosition w) (globals w) (localStorage w)
    (network w).
Definition set_inputTimeout (x : option nat) (w : World) : World :=
  mkWorld (now w) (page w) (console w) (listeners w) (timers w) (nextTimerId
    w) (uncaught w) x (scrollTimeout w) (lastScrollPosition w) (mouseTimeout
    w) (lastMousePosition w) (globals w) (localStorage w) (network w).
Definition set_scrollTimeout (x : option nat) (w : World) : World :=
  mkWorld (now w) (page w) (console w) (listeners w) (timers w) (nextTimerId
    w) (uncaught w) (inputTimeout w) x (lastScrollPosition w) (mouseTimeout w)
    (lastMousePosition w) (globals w) (localStorage w) (network w).
Definition set_lastScrollPosition (x : jsnum) (w : World) : World :=
  mkWorld (now w) (page w) (console w) (listeners w) (timers w) (nextTimerId
    w) (uncaught w) (inputTimeout w) (scrollTimeout w) x (mouseTimeout w)
    (lastMousePosition w) (globals w) (localStorage w) (network w).
Definition set_mouseTimeout (x : option nat) (w : World) : World :=
  mkWorld (now w) (page w) (console w) (listeners w) (timers w) (nextTimerId
    w) (uncaught w) (inputTimeout w) (scrollTimeout w) (lastScrollPosition w)
    x (lastMousePosition w) (globals w) (localStorage w) (network w).
Definition set_lastMousePosition (x : Z * Z) (w : World) : World :=
  mkWorld (now w) (page w) (console w) (listeners w) (timers w) (nextTimerId
    w) (uncaught w) (inputTimeout w) (scrollTimeout w) (lastScrollPosition w)
    (mouseTimeout w) x (globals w) (localStorage w) (network w).
Definition set_globals (x : gmap string JsValue) (w : World) : World :=
  mkWorld (now w) (page w) (console w) (listeners w) (timers w) (nextTimerId
    w) (uncaught w) (inputTimeout w) (scrollTimeout w) (lastScrollPosition w)
    (mouseTimeout w) (lastMousePosition w) x (localStorage w) (network w).
Definition set_localStorage (x : gmap string string) (w : World) : World :=
  mkWorld (now w) (page w) (console w) (listeners w) (timers w) (nextTimerId
    w) (uncaught w) (inputTimeout w) (scrollTimeout w) (lastScrollPosition w)
    (mouseTimeout w) (lastMousePosition w) (globals w) x (network w).
Definition set_network (x : list string) (w : World) : World :=
  mkWorld (now w) (page w) (console w) (listeners w) (timers w) (nextTimerId
    w) (uncaught w) (inputTimeout w) (scrollTimeout w) (lastScrollPosition w)
    (mouseTimeout w) (lastMousePosition w) (globals w) (localStorage w) x.

(** ** Script code: state and exceptions *)

Definition M (A : Type) : Type := World -> Completion A * World.

Definition ret {A} (a : A) : M A := fun w => (Normal a, w).

Definition bind {A B} (m : M A) (k : A -> M B) : M B :=
  fun w =>
    match m w with
    | (Normal a, w') => k a w'
    | (Throw e, w') => (Throw e, w')
    end.

Definition throw {A} (e : JsError) : M A := fun w => (Throw e, w).

Definition gets {A} (f : World -> A) : M A := fun w => (Normal (f w), w).

Definition modify (f : World -> World) : M unit := fun w => (Normal tt, f w).

(** A pure computation that may throw. *)
Definition lift {A} (c : Completion A) : M A := fun w => (c, w).

Notation "x <- m ;; k" := (bind m (fun x => k))
  (at level 100, m at next level, right associativity).
Notation "m ;;; k" := (bind m (fun _ => k))
  (at level 100, right associativity).

(** The world a computation leaves behind, whether it returned or threw. *)
Definition exec {A} (m : M A) (w : World) : World := snd (m w).
Definition result {A} (m : M A) (w : World) : Completion A := fst (m w).

(** ** The host interface *)

Module Host.

Definition consoleLog (args : list JsValue) : M unit :=
  modify (fun w => set_console (console w ++ [ConsoleLog args]) w).

Definition consoleTable (data : JsValue) : M unit :=
  modify (fun w => set_console (console w ++ [ConsoleTable data]) w).

Definition dateNow : M Z := gets now.

Definition getPage : M Page := gets page.

(** Reading a property of [r]: a reference that names no node stands for
    [null], and reading a property of [null] throws. *)
Definition getNode (r : ref) : M Node :=
  pg <- getPage ;;
  match node_at pg r with
  | Some n => ret n
  | None => throw (TypeError "Cannot read properties of null")
  end.

Definition addEventListener (tg : EventTarget) (ty : string) (h : Handler)
    (capture : bool) : M unit :=
  modify (fun w =>
    set_listeners (listeners w ++ [mkRegistration tg ty h capture]) w).

Definition setTimeout (cb : Callback) (ms : Z) : M nat :=
  fun w =>
    let i := nextTimerId w in
    (Normal i,
     set_nextTimerId (S i) (set_timers (timers w ++ [mkTimer i (now w + ms) cb]) w)).

(** [clearTimeout(undefined)] and clearing a timer that has fired do nothing. *)
Definition clearTimeout (i : option nat) : M unit :=
  match i with
  | None => ret tt
  | Some i =>
      modify (fun w =>
        set_timers (filter (fun t => timer_id t ≠ i) (timers w)) w)
  end.

Definition setGlobal (k : string) (v : JsValue) : M unit :=
  modify (fun w => set_globals (<[k := v]> (globals w)) w).

Definition localStorageGetItem (k : string) : M (option string) :=
  gets (fun w => localStorage w !! k).

Definition localStorageSetItem (k v : string) : M unit :=
  modify (fun w => set_localStorage (<[k := v]> (localStorage w)) w).

(** [fetch(url)], [navigator.sendBeacon(url)] and the like. *)
Definition sendRequest (url : string) : M unit :=
  modify (fun w => set_network (network w ++ [url]) w).

(** A write to a property of the node [r]. *)
Definition alterNode (f : Node -> Node) (r : ref) : M unit :=
  modify (fun w => set_page (alter_at f r (page w)) w).

End Host.

(** ** The tracker script *)

Module Tracker.
Import Host.

Definition MASK : string := "***MASKED***".

Definition BADGE_TAIL : string :=
  "; color: white; padding: 5px 10px; border-radius: 3px; font-weight: bold;".

(** The first two arguments of a category's opening [console.log]. *)
Definition badge (label colour : string) : list JsValue :=
  [JStr label; JStr ("background: " +:+ colour +:+ BADGE_TAIL)].

Definition tag_value (n : Node) : JsValue :=
  match tagName n with
  | Some s => JStr s
  | None => JUndefined
  end.

(** *** Page view *)

Definition trackPageView : M unit :=
  t <- dateNow ;;
  pg <- getPage ;;
  let pageViewData :=
    JObj [("event", JStr "PAGE_VIEW");
          ("timestamp", JIsoTime t);
          ("url", JStr (href pg));
          ("path", JStr (pathname pg));
          ("title", JStr (title pg));
          ("referrer", str_or (referrer pg) "Direct");
          ("viewport", JObj [("width", JInt (innerWidth pg));
                             ("height", JInt (innerHeight pg))]);
          ("screen", JObj [("width", JInt (screenWidth pg));
                           ("height", JInt (screenHeight pg))])] in
  consoleLog (badge "%c📄 PAGE VIEW" "#4CAF50") ;;;
  consoleTable pageViewData ;;;
  consoleLog [JStr ""].

(** *** Structural locators *)

(** One step of the selector: the lower-cased node name, followed by the
    classes when [className] is a non-empty string. *)
Definition selectorOf (n : Node) : string :=
  let selector := Str.toLowerCase (nodeName n) in
  match className n with
  | JStr c =>
      if Str.truthy c
      then selector +:+ "." +:+ Str.join "." (Str.split_ws (Str.trim c))
      else selector
  | _ => selector
  end.

(** The [while] loop of [getCSSSelector]; [path] is the array built so
    far.  The loop walks up the parent chain, so it is a recursion on the
    reference. *)
Fixpoint selectorPath (pg : Page) (element : ref) (path : list string)
  : list string :=
  match node_at pg element with
  | None => path
  | Some n =>
      if negb (nodeType n =? ELEMENT_NODE)%nat then path
      else
        let path := selectorOf n :: path in
        match element with
        | [] => path
        | _ :: up =>
            match node_at pg up with
            | None => path                          (* parentNode is null *)
            | Some p =>
                if negb (nodeType p =? ELEMENT_NODE)%nat then path
                else selectorPath pg up path
            end
        end
  end.

Definition getCSSSelector (pg : Page) (element : ref) : Completion string :=
  match node_at pg element with
  | None => Throw (TypeError "Cannot read properties of null (reading 'id')")
  | Some n =>
      if Str.truthy (id n) then Normal ("#" +:+ id n)
      else Normal (Str.join " > " (selectorPath pg element []))
  end.

(** The [for] loop of [getXPath] over [element.parentNode.childNodes]:
    [i] is the loop counter, [pos] the position of [element] among its
    siblings ([sibling === element] holds at that position only), [index]
    the number of earlier element siblings with the same tag.  [None] is
    the loop running off the end, where the function returns [undefined]. *)
Fixpoint siblingIndex (siblings : list tree) (i pos : nat)
    (tag : option string) (index : nat) : option nat :=
  match siblings with
  | [] => None
  | sibling :: rest =>
      if (i =? pos)%nat then Some index
      else
        let s := tree_node sibling in
        if (nodeType s =? 1)%nat && bool_decide (tagName s = tag)
        then siblingIndex rest (S i) pos tag (S index)
        else siblingIndex rest (S i) pos tag index
  end.

(** String concatenation with the result of the recursive call. *)
Definition xpath_to_string (v : option string) : string :=
  match v with
  | Some s => s
  | None => "undefined"
  end.

(** [getXPath] returns a string, or [undefined] ([None]), or throws. *)
Fixpoint getXPath (pg : Page) (element : ref) : Completion (option string) :=
  match node_at pg element with
  | None => Throw (TypeError "Cannot read properties of null (reading 'id')")
  | Some n =>
      if Str.truthy (id n)
      then Normal (Some ("//*[@id=" +:+ Str.dquote +:+ id n +:+ Str.dquote +:+ "]"))
      else if bool_decide (element = body pg) then Normal (Some "/html/body")
      else
        match element with
        | [] => Throw (TypeError "Cannot read properties of null (reading 'childNodes')")
        | pos :: up =>
            match tree_at pg up with
            | None =>
                Throw (TypeError "Cannot read properties of null (reading 'childNodes')")
            | Some parent =>
                match siblingIndex (tree_children parent) 0 pos (tagName n) 0 with
                | None => Normal None
                | Some index =>
                    match getXPath pg up with
                    | Throw e => Throw e
                    | Normal above =>
                        match tagName n with
                        | None =>
                            Throw (TypeError "Cannot read properties of undefined (reading 'toLowerCase')")
                        | Some tag =>
                            Normal (Some (xpath_to_string above +:+ "/"
                                          +:+ Str.toLowerCase tag +:+ "["
                                          +:+ pretty (index + 1)%nat +:+ "]"))
                        end
                    end
                end
            end
        end
  end.

Definition style_of (n : Node) (prop : string) : JsValue :=
  JStr (default "" (computedStyle n !! prop)).

(** [window.getComputedStyle] accepts elements only. *)
Definition getRelevantStyles (pg : Page) (element : ref) : Completion JsValue :=
  match node_at pg element with
  | None => Throw (TypeError "getComputedStyle: parameter 1 is not of type 'Element'")
  | Some n =>
      if negb (nodeType n =? ELEMENT_NODE)%nat
      then Throw (TypeError "getComputedStyle: parameter 1 is not of type 'Element'")
      else
        Normal (JObj [("display", style_of n "display");
                      ("position", style_of n "position");
                      ("backgroundColor", style_of n "backgroundColor");
                      ("color", style_of n "color");
                      ("fontSize", style_of n "fontSize");
                      ("fontWeight", style_of n "fontWeight");
                      ("border", style_of n "border");
                      ("padding", style_of n "padding");
                      ("margin", style_of n "margin");
                      ("width", style_of n "width");
                      ("height", style_of n "height")])
  end.

Definition opt_string_value (v : option string) : JsValue :=
  match v with
  | Some s => JStr s
  | None => JUndefined
  end.

(** *** Clicks *)

Definition clickListener (event : Event) : M unit :=
  let element := target event in
  t <- dateNow ;;
  n <- getNode element ;;
  pg <- getPage ;;
  let elementData :=
    JObj [("tagName", tag_value n);
          ("id", str_or (id n) "N/A");
          ("className", js_or (className n) (JStr "N/A"));
          ("textContent",
            if Str.truthy (textContent n)
            then JStr (Str.substring 0 50 (textContent n) +:+ "...")
            else JStr "N/A");
          ("value", str_or (value n) "N/A");
          ("type", str_or (type n) "N/A");
          ("name", str_or (name n) "N/A")] in
  let position :=
    JObj [("x", JInt (clientX event)); ("y", JInt (clientY event));
          ("pageX", JInt (pageX event)); ("pageY", JInt (pageY event))] in
  cssSelector <- lift (getCSSSelector pg element) ;;
  computedStyles <- lift (getRelevantStyles pg element) ;;
  xpath <- lift (getXPath pg element) ;;
  let clickData :=
    JObj [("event", JStr "CLICK");
          ("timestamp", JIsoTime t);
          ("element", elementData);
          ("position", position);
          ("cssSelector", JStr cssSelector);
          ("computedStyles", computedStyles);
          ("xpath", opt_string_value xpath)] in
  consoleLog (badge "%c👆 CLICK EVENT" "#2196F3") ;;;
  consoleLog [JStr "Element:"; JNode element] ;;;
  consoleTable elementData ;;;
  consoleLog [JStr "Position:"; position] ;;;
  consoleLog [JStr "CSS Selector:"; JStr cssSelector] ;;;
  consoleLog [JStr "XPath:"; opt_string_value xpath] ;;;
  consoleLog [JStr "Computed Styles:"; computedStyles] ;;;
  consoleLog [JStr "Full Data:"; clickData] ;;;
  consoleLog [JStr ""].

Definition setupClickTracking : M unit :=
  addEventListener Document "click" ClickListener true.

(** *** Form submissions *)

Definition isPasswordName (key : string) : bool :=
  Str.includes "password" (Str.toLowerCase key).

(** The loop over [formData.entries()]. *)
Definition collectFields (entries : list (string * JsValue))
  : gmap string JsValue :=
  foldl (fun formValues '(key, value) =>
           if isPasswordName key
           then dict_set key (JStr MASK) formValues
           else dict_set key value formValues)
        ∅ entries.

(** [new FormData(form)] throws unless [form] is a form element. *)
Definition newFormData (n : Node) : Completion (list (string * JsValue)) :=
  if bool_decide (tagName n = Some "FORM") then Normal (formEntries n)
  else Throw (TypeError "Failed to construct 'FormData': parameter 1 is not of type 'HTMLFormElement'").

Definition submitListener (event : Event) : M unit :=
  let form := target event in
  n <- getNode form ;;
  formData <- lift (newFormData n) ;;
  let formValues := JDict (collectFields formData) in
  t <- dateNow ;;
  let formInfo :=
    JObj [("id", str_or (id n) "N/A");
          ("name", str_or (name n) "N/A");
          ("action", str_or (action n) "N/A");
          ("method", str_or (method n) "GET")] in
  let submitData :=
    JObj [("event", JStr "FORM_SUBMIT");
          ("timestamp", JIsoTime t);
          ("form", formInfo);
          ("fields", formValues)] in
  consoleLog (badge "%c📝 FORM SUBMIT" "#FF9800") ;;;
  consoleLog [JStr "Form Element:"; JNode form] ;;;
  consoleTable formInfo ;;;
  consoleLog [JStr "Form Data:"; formValues] ;;;
  consoleLog [JStr ""].

Definition setupFormTracking : M unit :=
  addEventListener Document "submit" SubmitListener true.

(** *** Input changes *)

Definition isFormControl (n : Node) : bool :=
  bool_decide (tagName n = Some "INPUT")
  || bool_decide (tagName n = Some "TEXTAREA")
  || bool_decide (tagName n = Some "SELECT").

(** What the callback tables for the element [n]. *)
Definition inputElementData (n : Node) : JsValue :=
  JObj [("tagName", tag_value n);
        ("type", str_or (type n) "N/A");
        ("id", str_or (id n) "N/A");
        ("name", str_or (name n) "N/A");
        ("value", if bool_decide (type n = "password")
                  then JStr MASK else JStr (value n))].

(** The function handed to [setTimeout] by the input listener. *)
Definition inputCallback (event : Event) : M unit :=
  let element := target event in
  n <- getNode element ;;
  if isFormControl n then
    t <- dateNow ;;
    let inputData :=
      JObj [("event", JStr "INPUT_CHANGE");
            ("timestamp", JIsoTime t);
            ("element", inputElementData n)] in
    consoleLog (badge "%c⌨️  INPUT CHANGE" "#9C27B0") ;;;
    consoleTable (inputElementData n) ;;;
    consoleLog [JStr ""]
  else ret tt.

Definition inputListener (event : Event) : M unit :=
  old <- gets inputTimeout ;;
  clearTimeout old ;;;
  i <- setTimeout (InputCallback event) 500 ;;
  modify (set_inputTimeout (Some i)).

Definition setupInputTracking : M unit :=
  modify (set_inputTimeout None) ;;;
  addEventListener Document "input" InputListener true.

(** *** Scrolling *)

(** [window.pageYOffset || document.documentElement.scrollTop] *)
Definition scrollTopOf (pg : Page) : Z :=
  if negb (pageYOffset pg =? 0) then pageYOffset pg else docScrollTop pg.

(** [Math.round((scrollTop / scrollHeight) * 100)], with
    [scrollHeight = document.documentElement.scrollHeight - window.innerHeight] *)
Definition scrollPercentageOf (pg : Page) : jsnum :=
  Num.percentage (scrollTopOf pg) (docScrollHeight pg - innerHeight pg).

(** [Math.abs(a - b) > 10] *)
Definition changedSignificantly (a b : jsnum) : bool :=
  Num.gt (Num.abs (Num.sub a b)) (Fin 10).

(** The object the scroll callback tables; [last] is the value of
    [lastScrollPosition] when the [direction] property is evaluated. *)
Definition scrollData (t scrollTop : Z) (scrollPercentage last : jsnum) : JsValue :=
  JObj [("event", JStr "SCROLL");
        ("timestamp", JIsoTime t);
        ("position", JInt scrollTop);
        ("percentage", JStr (Num.to_string scrollPercentage +:+ "%"));
        ("direction",
          if Num.gt (Fin scrollTop) last then JStr "down" else JStr "up")].

Definition scrollCallback : M unit :=
  pg <- getPage ;;
  let scrollTop := scrollTopOf pg in
  let scrollPercentage := scrollPercentageOf pg in
  last <- gets lastScrollPosition ;;
  if changedSignificantly scrollPercentage last then
    modify (set_lastScrollPosition scrollPercentage) ;;;
    t <- dateNow ;;
    last <- gets lastScrollPosition ;;
    let scrollData := scrollData t scrollTop scrollPercentage last in
    consoleLog (badge "%c📜 SCROLL EVENT" "#00BCD4") ;;;
    consoleTable scrollData ;;;
    consoleLog [JStr ""]
  else ret tt.

Definition scrollListener (event : Event) : M unit :=
  old <- gets scrollTimeout ;;
  clearTimeout old ;;;
  i <- setTimeout ScrollCallback 200 ;;
  modify (set_scrollTimeout (Some i)).

Definition setupScrollTracking : M unit :=
  modify (set_scrollTimeout None) ;;;
  modify (set_lastScrollPosition (Fin 0)) ;;;
  addEventListener Window "scroll" ScrollListener false.

(** *** Mouse movement *)

(** [Math.sqrt(dx*dx + dy*dy) > 100] on integers. *)
Definition farther_than_100 (dx dy : Z) : bool := 10000 <? dx * dx + dy * dy.

Definition mouseCallback (event : Event) : M unit :=
  last <- gets lastMousePosition ;;
  if farther_than_100 (clientX event - last.1) (clientY event - last.2) then
    modify (set_lastMousePosition (clientX event, clientY event)) ;;;
    t <- dateNow ;;
    n <- getNode (target event) ;;
    let mouseData :=
      JObj [("event", JStr "MOUSE_MOVE");
            ("timestamp", JIsoTime t);
            ("position", JObj [("x", JInt (clientX event));
                               ("y", JInt (clientY event))]);
            ("elementUnderCursor", tag_value n)] in
    consoleLog (badge "%c🖱️  MOUSE MOVE" "#607D8B") ;;;
    consoleTable mouseData ;;;
    consoleLog [JStr ""]
  else ret tt.

Definition mouseMoveListener (event : Event) : M unit :=
  old <- gets mouseTimeout ;;
  clearTimeout old ;;;
  i <- setTimeout (MouseCallback event) 1000 ;;
  modify (set_mouseTimeout (Some i)).

Definition setupMouseTracking : M unit :=
  modify (set_mouseTimeout None) ;;;
  modify (set_lastMousePosition (0, 0)) ;;;
  addEventListener Document "mousemove" MouseMoveListener false.

(** *** Key presses *)

(** The object the keydown listener tables. *)
Definition keyData (t : Z) (event : Event) (n : Node) : JsValue :=
  JObj [("event", JStr "KEYPRESS");
        ("timestamp", JIsoTime t);
        ("key", JStr (key event));
        ("code", JStr (code event));
        ("ctrlKey", JBool (ctrlKey event));
        ("shiftKey", JBool (shiftKey event));
        ("altKey", JBool (altKey event));
        ("targetElement", tag_value n)].

Definition keyDownListener (event : Event) : M unit :=
  n <- getNode (target event) ;;
  if bool_decide (type n = "password") then ret tt
  else
    t <- dateNow ;;
    consoleLog (badge "%c⌨️  KEYPRESS" "#795548") ;;;
    consoleTable (keyData t event n) ;;;
    consoleLog [JStr ""].

Definition setupKeyboardTracking : M unit :=
  addEventListener Document "keydown" KeyDownListener false.

(** *** Visibility and navigation *)

Definition visibilityListener (event : Event) : M unit :=
  t <- dateNow ;;
  pg <- getPage ;;
  let visibilityData :=
    JObj [("event", JStr "VISIBILITY_CHANGE");
          ("timestamp", JIsoTime t);
          ("state", if hidden pg then JStr "hidden" else JStr "visible")] in
  consoleLog (badge "%c👁️  VISIBILITY CHANGE" "#E91E63") ;;;
  consoleTable visibilityData ;;;
  consoleLog [JStr ""].

Definition setupVisibilityTracking : M unit :=
  addEventListener Document "visibilitychange" VisibilityListener false.

Definition beforeUnloadListener (event : Event) : M unit :=
  t <- dateNow ;;
  pg <- getPage ;;
  let navigationData :=
    JObj [("event", JStr "PAGE_EXIT");
          ("timestamp", JIsoTime t);
          ("timeOnPage",
            JStr (pretty (Num.round_div_1000 (t - navigationStart pg))
                  +:+ " seconds"));
          ("url", JStr (href pg))] in
  consoleLog (badge "%c🚪 PAGE EXIT" "#F44336") ;;;
  consoleTable navigationData ;;;
  consoleLog [JStr ""].

Definition setupNavigationTracking : M unit :=
  addEventListener Window "beforeunload" BeforeUnloadListener false.

(** *** Initialisation *)

Definition initializeTracker : M unit :=
  t <- dateNow ;;
  pg <- getPage ;;
  consoleLog [JStr "%c========================================"; JStr "color: #667eea; font-weight: bold;"] ;;;
  consoleLog [JStr "%c🎯 UNIVERSAL EVENT TRACKER INITIALIZED"; JStr "color: #667eea; font-weight: bold; font-size: 16px;"] ;;;
  consoleLog [JStr "%c========================================"; JStr "color: #667eea; font-weight: bold;"] ;;;
  consoleLog [JStr "📊 Tracking started at:"; JLocaleTime t] ;;;
  consoleLog [JStr "🌐 Page URL:"; JStr (href pg)] ;;;
  consoleLog [JStr "📱 User Agent:"; JStr (userAgent pg)] ;;;
  consoleLog [JStr "🖥️  Screen Resolution:";
              JStr (pretty (screenWidth pg) +:+ "x" +:+ pretty (screenHeight pg))] ;;;
  consoleLog [JStr "📏 Viewport Size:";
              JStr (pretty (innerWidth pg) +:+ "x" +:+ pretty (innerHeight pg))] ;;;
  consoleLog [JStr ""] ;;;
  trackPageView ;;;
  setupClickTracking ;;;
  setupFormTracking ;;;
  setupInputTracking ;;;
  setupScrollTracking ;;;
  setupMouseTracking ;;;
  setupKeyboardTracking ;;;
  setupVisibilityTracking ;;;
  setupNavigationTracking.

(** [EventTracker.trackCustomEvent(eventName, eventData)]; the function
    has no [return], so the call evaluates to [undefined] ([tt]). *)
Definition trackCustomEvent (eventName : string) (eventData : JsValue) : M unit :=
  consoleLog (badge ("%c🎯 CUSTOM EVENT: " +:+ eventName) "#673AB7") ;;;
  consoleLog [JStr "Event Data:"; eventData] ;;;
  t <- dateNow ;;
  consoleLog [JStr "Timestamp:"; JIsoTime t] ;;;
  consoleLog [JStr ""].

(** The body of the script, run once when the page loads it. *)
Definition script : M unit :=
  pg <- getPage ;;
  (if bool_decide (readyState pg = "loading")
   then addEventListener Document "DOMContentLoaded" InitializeTracker false
   else initializeTracker) ;;;
  setGlobal "EventTracker"
    (JObj [("version", JStr "1.0.0");
           ("initialized", JBool true);
           ("trackCustomEvent", JFunction "trackCustomEvent")]) ;;;
  consoleLog [JStr "%c✅ Event Tracker Ready!"; JStr "color: #4CAF50; font-weight: bold; font-size: 14px;"] ;;;
  consoleLog [JStr "Use EventTracker.trackCustomEvent(name, data) to track custom events"] ;;;
  consoleLog [JStr ""].

(** The listener behind each handler name. *)
Definition handle (h : Handler) (event : Event) : M unit :=
  match h with
  | InitializeTracker => initializeTracker
  | ClickListener => clickListener event
  | SubmitListener => submitListener event
  | InputListener => inputListener event
  | ScrollListener => scrollListener event
  | MouseMoveListener => mouseMoveListener event
  | KeyDownListener => keyDownListener event
  | VisibilityListener => visibilityListener event
  | BeforeUnloadListener => beforeUnloadListener event
  end.

(** The closure behind each pending timer. *)
Definition fire (cb : Callback) : M unit :=
  match cb with
  | InputCallback event => inputCallback event
  | ScrollCallback => scrollCallback
  | MouseCallback event => mouseCallback event
  end.

End Tracker.

(** ** The event loop *)

Module Loop.

(** The host runs a listener or a timer callback; an exception that
    escapes is reported and the loop goes on. *)
Definition report (m : M unit) (w : World) : World :=
  match m w with
  | (Normal _, w') => w'
  | (Throw e, w') => set_uncaught (uncaught w' ++ [e]) w'
  end.

(** Dispatching an event runs, in registration order, the listeners that
    were registered for its type when the dispatch began. *)
Definition dispatch (event : Event) (w : World) : World :=
  foldl (fun w reg =>
           if bool_decide (reg_type reg = ev_type event)
           then report (Tracker.handle (reg_handler reg) event) w
           else w)
        w (listeners w).

(** A burst of events with no timer running in between. *)
Definition dispatch_all (events : list Event) (w : World) : World :=
  foldl (fun w e => dispatch e w) w events.

(** The registrations [initializeTracker] makes, in order. *)
Definition installed : list Registration :=
  [mkRegistration Document "click" ClickListener true;
   mkRegistration Document "submit" SubmitListener true;
   mkRegistration Document "input" InputListener true;
   mkRegistration Window "scroll" ScrollListener false;
   mkRegistration Document "mousemove" MouseMoveListener false;
   mkRegistration Document "keydown" KeyDownListener false;
   mkRegistration Document "visibilitychange" VisibilityListener false;
   mkRegistration Window "beforeunload" BeforeUnloadListener false].

(** Of two timers the one due first; on a tie, the one set first. *)
Definition earlier (a b : Timer) : Timer :=
  if due b <? due a then b else a.

(** The next timer to run among those due at [limit] or before. *)
Fixpoint next_due (limit : Z) (ts : list Timer) : option Timer :=
  match ts with
  | [] => None
  | t :: rest =>
      let r := next_due limit rest in
      if due t <=? limit
      then Some (match r with Some t' => earlier t t' | None => t end)
      else r
  end.

Definition fire_timer (t : Timer) (w : World) : World :=
  report (Tracker.fire (callback t))
    (set_now (Z.max (now w) (due t))
       (set_timers (filter (fun t' => timer_id t' ≠ timer_id t) (timers w)) w)).

(** Run at most [n] timers due at [limit] or before. *)
Fixpoint run_timers (n : nat) (limit : Z) (w : World) : World :=
  match n with
  | O => w
  | S n' =>
      match next_due limit (timers w) with
      | None => w
      | Some t => run_timers n' limit (fire_timer t w)
      end
  end.

(** Let the time pass until [limit].  No callback of the script sets a
    timer, so the timers pending at the start bound the number of runs
    (lemma [advance_settles]). *)
Definition advance (limit : Z) (w : World) : World :=
  let w' := run_timers (length (timers w)) limit w in
  set_now (Z.max (now w') limit) w'.

(** What the user (or the browser) did to the page just before an event. *)
Inductive Change :=
| Unchanged
| SetValue (r : ref) (v : string)    (* typing into, or choosing in, a control *)
| ScrollTo (top : Z)
| SetHidden (h : bool).

Definition apply_change (c : Change) (pg : Page) : Page :=
  match c with
  | Unchanged => pg
  | SetValue r v => alter_at (set_value v) r pg
  | ScrollTo top => with_scroll top pg
  | SetHidden h => with_hidden h pg
  end.

Record Step := mkStep {
  at_time : Z;
  change : Change;
  event : Event
}.

Definition step (s : Step) (w : World) : World :=
  let w1 := advance (at_time s) w in
  dispatch (event s) (set_page (apply_change (change s) (page w1)) w1).

Definition run (steps : list Step) (w : World) : World :=
  foldl (fun w s => step s w) w steps.

(** The events of the categories. *)
Definition plainEvent (ty : string) (tg : ref) : Event :=
  mkEvent ty tg 0 0 0 0 "" "" false false false.

Definition clickEvent (tg : ref) (cx cy px py : Z) : Event :=
  mkEvent "click" tg cx cy px py "" "" false false false.

Definition keyDownEvent (tg : ref) (k c : string) (ctrl shift alt : bool) : Event :=
  mkEvent "keydown" tg 0 0 0 0 k c ctrl shift alt.

(** The user sets the control [r] to [v] at time [t]. *)
Definition typing (t : Z) (r : ref) (v : string) : Step :=
  mkStep t (SetValue r v) (plainEvent "input" r).

(** A burst of edits: at time [t] the control [r] is set to [v]. *)
Definition edits (es : list (Z * ref * string)) : list Step :=
  map (fun '(t, r, v) => typing t r v) es.

(** The page after the edits. *)
Definition edited (pg : Page) (es : list (Z * ref * string)) : Page :=
  foldl (fun pg '(_, r, v) => alter_at (set_value v) r pg) pg es.

(** Each edit of [es] comes less than [gap] after the one before it; the
    first one comes less than [gap] after [t0]. *)
Fixpoint spaced (gap t0 : Z) (es : list (Z * ref * string)) : Prop :=
  match es with
  | [] => True
  | (t, _, _) :: rest => (t0 <= t < t0 + gap) /\ spaced gap t rest
  end.

(** Nothing is pending at time [t], or only an input timer due later. *)
Definition quiet (w : World) (t : Z) : Prop :=
  listeners w = installed
  /\ now w <= t
  /\ (timers w = []
      \/ exists i d cb,
           timers w = [mkTimer i d cb] /\ inputTimeout w = Some i /\ t < d).

(** The input timer is the only pending timer; it is due at [d] and will
    run the callback made for [e]. *)
Definition pending (w : World) (d : Z) (e : Event) : Prop :=
  exists i, timers w = [mkTimer i d (InputCallback e)] /\ inputTimeout w = Some i.

(** The edits [more], all made to the control [field]. *)
Definition on_field (field : ref) (more : list (Z * string))
  : list (Z * ref * string) :=
  map (fun '(t, v) => (t, field, v)) more.

(** The user scrolls to offset [top] at time [t]; the event's target is
    the document. *)
Definition scrolling (t : Z) (top : Z) : Step :=
  mkStep t (ScrollTo top) (plainEvent "scroll" [0%nat]).

End Loop.

(** ** The decorative script: the dark-mode toggle

    The second script of the page is not part of the tracker.  Its toggle
    listener is embedded for comparison: it writes to the page and to the
    storage, which the tracker never does. *)

Module Decor.
Import Host.

(** [classList.toggle(token)] on a class string. *)
Definition toggleClass (token : string) (c : JsValue) : JsValue :=
  let tokens :=
    match c with
    | JStr s => filter (fun x => x ≠ "") (Str.split_ws (Str.trim s))
    | _ => []
    end in
  if bool_decide (token ∈ tokens)
  then JStr (Str.join " " (filter (fun x => x ≠ token) tokens))
  else JStr (Str.join " " (tokens ++ [token])).

Definition hasClass (token : string) (c : JsValue) : bool :=
  match c with
  | JStr s => bool_decide (token ∈ Str.split_ws (Str.trim s))
  | _ => false
  end.

Definition themeToggleListener : M unit :=
  pg <- getPage ;;
  alterNode (fun n => set_className (toggleClass "dark-mode" (className n)) n)
    (body pg) ;;;
  b <- getNode (body pg) ;;
  localStorageSetItem "theme"
    (if hasClass "dark-mode" (className b) then "dark" else "light").

End Decor.

(** ** A sample page

    A small document used to run the script on concrete inputs:

    - document
      - html
        - head
        - body
          - form#login: input[name=username], input[type=password][name=password]
          - div.card.main: text, p, p
          - textarea (no id)
          - input[type=text] (no id)
    - div.orphan: span  (a detached subtree, not under the document) *)

Module Sample.

Definition element (tag ident cls : string) : Node :=
  mkNode 1 tag (Some tag) ident (JStr cls) "" "" "" "" "" "" [] ∅.

Definition control (tag ty nm v : string) : Node :=
  mkNode 1 tag (Some tag) "" (JStr "") "" v ty nm "" "" [] ∅.

Definition text (s : string) : Node :=
  mkNode 3 "#text" None "" JUndefined s "" "" "" "" "" [] ∅.

Definition documentNode : Node :=
  mkNode 9 "#document" None "" JUndefined "" "" "" "" "" "" [] ∅.

Definition loginForm : Node :=
  mkNode 1 "FORM" (Some "FORM") "login" (JStr "") "" "" "" "login"
    "https://example.org/login" "post"
    [("username", JStr "alice"); ("password", JStr "secret")] ∅.

Definition dom : list tree :=
  [Tree documentNode
     [Tree (element "HTML" "" "")
        [Tree (element "HEAD" "" "") [];
         Tree (element "BODY" "" "")
           [Tree loginForm
              [Tree (control "INPUT" "text" "username" "alice") [];
               Tree (control "INPUT" "password" "password" "secret") []];
            Tree (element "DIV" "" "card  main")
              [Tree (text "hello") [];
               Tree (element "P" "" "") [];
               Tree (element "P" "" "") []];
            Tree (control "TEXTAREA" "textarea" "notes" "") [];
            Tree (control "INPUT" "text" "city" "") []]]];
   Tree (element "DIV" "" "orphan") [Tree (element "SPAN" "" "") []]].

Definition documentRef : ref := [0%nat].
Definition htmlRef : ref := [0; 0]%nat.
Definition bodyRef : ref := [1; 0; 0]%nat.
Definition formRef : ref := [0; 1; 0; 0]%nat.
Definition userRef : ref := [0; 0; 1; 0; 0]%nat.
Definition passRef : ref := [1; 0; 1; 0; 0]%nat.
Definition divRef : ref := [1; 1; 0; 0]%nat.
Definition secondParRef : ref := [2; 1; 1; 0; 0]%nat.
Definition notesRef : ref := [2; 1; 0; 0]%nat.
Definition cityRef : ref := [3; 1; 0; 0]%nat.
Definition orphanRef : ref := [1%nat].
Definition orphanSpanRef : ref := [0; 1]%nat.

(** A form with two checked boxes of the same name. *)
Definition tagsForm : Node :=
  mkNode 1 "FORM" (Some "FORM") "" (JStr "") "" "" "" "" "" ""
    [("tag", JStr "a"); ("tag", JStr "b")] ∅.

Definition tagsDom : list tree :=
  [Tree documentNode
     [Tree (element "HTML" "" "")
        [Tree (element "HEAD" "" "") [];
         Tree (element "BODY" "" "") [Tree tagsForm []]]]].

Definition tagsFormRef : ref := [0; 1; 0; 0]%nat.

(** A page 600 pixels high in a document of 1600: 1000 pixels to scroll. *)
Definition pg : Page :=
  mkPage dom bodyRef "complete" false "https://example.org/" "/" "Example"
    "" "UA" 800 600 1920 1080 0 0 1600 0.

(** The host before the script runs, at time [t]. *)
Definition fresh (t : Z) (p : Page) : World :=
  mkWorld t p [] [] [] 0 [] None None (Fin 0) None (0, 0) ∅ ∅ [].

(** The host right after the script has run on a loaded page. *)
Definition started (t : Z) (p : Page) : World :=
  exec Tracker.script (fresh t p).

(** Five key presses in the user-name field. *)
Definition fiveKeys : list Event :=
  [Loop.keyDownEvent userRef "h" "KeyH" false false false;
   Loop.keyDownEvent userRef "E" "KeyE" false true false;
   Loop.keyDownEvent userRef "l" "KeyL" false false false;
   Loop.keyDownEvent userRef "l" "KeyL" false false false;
   Loop.keyDownEvent userRef "o" "KeyO" true false true].

Definition tagsPage : Page :=
  mkPage tagsDom bodyRef "complete" false "https://example.org/tags" "/tags"
    "Tags" "" "UA" 800 600 1920 1080 0 0 1600 0.

End Sample.

(** * The vocabulary of the properties

    What a record looks like on the console, written out as in the
    source, and the predicates the properties are stated with. *)

Module Output.
Import Tracker.

Definition blank : ConsoleCall := ConsoleLog [JStr ""].

(** The opening line of a record: the label, and the style with the
    colour of the category. *)
Definition heading (label colour : string) : ConsoleCall :=
  ConsoleLog
    [JStr label;
     JStr ("background: " +:+ colour
           +:+ "; color: white; padding: 5px 10px; border-radius: 3px; font-weight: bold;")].

(** [s || 'N/A'] *)
Definition or_na (s : string) : JsValue :=
  JStr (if decide (s = "") then "N/A" else s).

(** [element.tagName] *)
Definition tag_of (n : Node) : JsValue :=
  match tagName n with
  | Some s => JStr s
  | None => JUndefined
  end.

(** The table of an INPUT CHANGE record of the control [n]: the value of
    a control of type password is replaced by the mask. *)
Definition inputTable (n : Node) : ConsoleCall :=
  ConsoleTable
    (JObj [("tagName", tag_of n);
           ("type", or_na (type n));
           ("id", or_na (id n));
           ("name", or_na (name n));
           ("value", JStr (if decide (type n = "password")
                           then "***MASKED***" else value n))]).

(** The INPUT CHANGE record of the control [n]. *)
Definition inputChange (n : Node) : list ConsoleCall :=
  [heading "%c⌨️  INPUT CHANGE" "#9C27B0"; inputTable n; blank].

(** The KEYPRESS record of the event [event] on the element [n]. *)
Definition keyPress (t : Z) (event : Event) (n : Node) : list ConsoleCall :=
  [heading "%c⌨️  KEYPRESS" "#795548";
   ConsoleTable
     (JObj [("event", JStr "KEYPRESS");
            ("timestamp", JIsoTime t);
            ("key", JStr (key event));
            ("code", JStr (code event));
            ("ctrlKey", JBool (ctrlKey event));
            ("shiftKey", JBool (shiftKey event));
            ("altKey", JBool (altKey event));
            ("targetElement", tag_of n)]);
   blank].

(** The SCROLL record; [last] is what the offset is compared with for
    the direction. *)
Definition scroll (t scrollTop : Z) (pct last : jsnum) : list ConsoleCall :=
  [heading "%c📜 SCROLL EVENT" "#00BCD4";
   ConsoleTable
     (JObj [("event", JStr "SCROLL");
            ("timestamp", JIsoTime t);
            ("position", JInt scrollTop);
            ("percentage", JStr (Num.to_string pct +:+ "%"));
            ("direction",
              if Num.gt (Fin scrollTop) last then JStr "down" else JStr "up")]);
   blank].

Definition formSubmit (form : ref) (n : Node) (fields : gmap string JsValue)
  : list ConsoleCall :=
  [heading "%c📝 FORM SUBMIT" "#FF9800";
   ConsoleLog [JStr "Form Element:"; JNode form];
   ConsoleTable (JObj [("id", str_or (id n) "N/A");
                       ("name", str_or (name n) "N/A");
                       ("action", str_or (action n) "N/A");
                       ("method", str_or (method n) "GET")]);
   ConsoleLog [JStr "Form Data:"; JDict fields];
   blank].

(** The four console calls of a custom event. *)
Definition custom (t : Z) (eventName : string) (eventData : JsValue)
  : list ConsoleCall :=
  [ConsoleLog
     [JStr ("%c🎯 CUSTOM EVENT: " +:+ eventName);
      JStr "background: #673AB7; color: white; padding: 5px 10px; border-radius: 3px; font-weight: bold;"];
   ConsoleLog [JStr "Event Data:"; eventData];
   ConsoleLog [JStr "Timestamp:"; JIsoTime t];
   blank].


(** What the input callback prints for the node [n]. *)
Definition inputFired (n : option Node) : list ConsoleCall :=
  match n with
  | Some n => if isFormControl n then inputChange n else []
  | None => []
  end.

(** What one keydown event adds to the console, on page [pg] at time [t]. *)
Definition keyDown (pg : Page) (t : Z) (e : Event) : list ConsoleCall :=
  match node_at pg (target e) with
  | Some n =>
      if bool_decide (type n = "password") then []
      else keyPress t e n
  | None => []
  end.

(** The scroll callback produces a record when it runs in world [w]. *)
Definition scrollRecorded (w : World) : Prop :=
  console (exec scrollCallback w) ≠ console w.

(** [lastEntry key entries]: the value of the last entry named [key]. *)
Fixpoint lastEntry (key : string) (entries : list (string * JsValue))
  : option JsValue :=
  match entries with
  | [] => None
  | (k, v) :: rest =>
      match lastEntry key rest with
      | Some v' => Some v'
      | None => if decide (k = key) then Some v else None
      end
  end.

(** The value the fields map holds for a field named [key] whose value
    is [v]: the mask for password names, the value itself otherwise. *)
Definition shown (key : string) (v : JsValue) : JsValue :=
  if isPasswordName key then JStr MASK else v.

(** What the tracker leaves alone: between [w] and [w'] the page, the
    storage, the network log and every global other than [EventTracker]
    are the same, and the console has only grown. *)
Definition untouched (w w' : World) : Prop :=
  page w' = page w
  /\ localStorage w' = localStorage w
  /\ network w' = network w
  /\ (forall k, k ≠ "EventTracker" -> globals w' !! k = globals w !! k)
  /\ console w `prefix_of` console w'.

(** A computation that, from any world and whether it returns or throws,
    leaves all of that alone. *)
Definition sink_only {A} (m : M A) : Prop :=
  forall w, untouched w (exec m w).

End Output.

(** * More vocabulary

    Notions used by the properties of the functions beyond the tracked
    categories' main laws. *)

Module More.
Import Tracker.

(** Every node from [steps ++ anchor] up to, and not including, [anchor]
    is there and has a tag name (is an element). *)
Fixpoint element_chain (pg : Page) (steps : list nat) (anchor : ref) : Prop :=
  match steps with
  | [] => True
  | pos :: rest =>
      (exists n, node_at pg (pos :: rest ++ anchor) = Some n
                 /\ is_Some (tagName n))
      /\ element_chain pg rest anchor
  end.

(** An element sibling with the tag name [tag]. *)
Definition same_tag (tag : option string) (t : tree) : bool :=
  (nodeType (tree_node t) =? 1)%nat && bool_decide (tagName (tree_node t) = tag).

(** The number of element siblings with tag name [tag] before position
    [pos]. *)
Definition earlier_same_tag (tag : option string) (pos : nat)
    (siblings : list tree) : nat :=
  length (filter (fun t => same_tag tag t = true) (take pos siblings)).


(** The id of the node at [r]; empty when there is no node. *)
Definition id_at (pg : Page) (r : ref) : string :=
  match node_at pg r with
  | Some n => id n
  | None => ""
  end.

(** The ids of the nodes from [steps ++ anchor] up to [anchor], nearest
    first. *)
Fixpoint chain_ids (pg : Page) (steps : list nat) (anchor : ref) : list string :=
  match steps with
  | [] => [id_at pg anchor]
  | pos :: rest => id_at pg (pos :: rest ++ anchor) :: chain_ids pg rest anchor
  end.

(** The id of the nearest node of the chain that has one. *)
Definition nearest_id (pg : Page) (steps : list nat) (anchor : ref)
  : option string :=
  head (filter (fun i => i ≠ "") (chain_ids pg steps anchor)).

(** Where the XPath of a node of the chain starts. *)
Definition xpath_start (pg : Page) (steps : list nat) (anchor : ref) : string :=
  match nearest_id pg steps anchor with
  | Some i => "//*[@id=" +:+ Str.dquote +:+ i +:+ Str.dquote +:+ "]"
  | None => "/html/body"
  end.

(** An ASCII white-space character: tab, line feed, vertical tab, form
    feed, carriage return or space. *)
Definition ascii_space (c : Ascii.ascii) : bool :=
  let n := Ascii.N_of_ascii c in
  ((n =? 32) || ((9 <=? n) && (n <=? 13)))%N.

(** ASCII white space only. *)
Fixpoint all_space (s : string) : bool :=
  match s with
  | EmptyString => true
  | String c s' => ascii_space c && all_space s'
  end.

(** The white-space characters of JavaScript, as code units. *)
Definition white_space : list N :=
  [9; 10; 11; 12; 13; 32; 160; 5760;
   8192; 8193; 8194; 8195; 8196; 8197; 8198; 8199; 8200; 8201; 8202;
   8232; 8233; 8239; 8287; 12288; 65279]%N.

(** Code units. *)
Definition units (us : list N) : Prop := Forall (fun u => (u < 65536)%N) us.

(** White space only. *)
Definition white (us : list N) : Prop := Forall (fun u => u ∈ white_space) us.

(** A class name: not empty, no white space. *)
Definition word (w : list N) : Prop :=
  w ≠ [] /\ units w /\ Forall (fun u => u ∉ white_space) w.

(** A run of white space between two class names. *)
Definition gap (g : list N) : Prop := g ≠ [] /\ white g.

(** [w g1 w1 g2 w2 ...]: class names with the white space between them. *)
Fixpoint spread (w : list N) (rest : list (list N * list N)) : list N :=
  match rest with
  | [] => w
  | (g, w') :: rest' => w ++ g ++ spread w' rest'
  end.

(** The object the click listener tables for the element [n]. *)
Definition clickElementData (n : Node) : JsValue :=
  JObj [("tagName", tag_value n);
        ("id", str_or (id n) "N/A");
        ("className", js_or (className n) (JStr "N/A"));
        ("textContent",
          if Str.truthy (textContent n)
          then JStr (Str.substring 0 50 (textContent n) +:+ "...")
          else JStr "N/A");
        ("value", str_or (value n) "N/A");
        ("type", str_or (type n) "N/A");
        ("name", str_or (name n) "N/A")].

Definition clickPosition (event : Event) : JsValue :=
  JObj [("x", JInt (clientX event)); ("y", JInt (clientY event));
        ("pageX", JInt (pageX event)); ("pageY", JInt (pageY event))].

(** The nine console calls of one click record. *)
Definition clickRecord (t : Z) (event : Event) (n : Node)
    (cssSelector : string) (computedStyles : JsValue) (xpath : option string)
  : list ConsoleCall :=
  [Output.heading "%c👆 CLICK EVENT" "#2196F3";
   ConsoleLog [JStr "Element:"; JNode (target event)];
   ConsoleTable (clickElementData n);
   ConsoleLog [JStr "Position:"; clickPosition event];
   ConsoleLog [JStr "CSS Selector:"; JStr cssSelector];
   ConsoleLog [JStr "XPath:"; opt_string_value xpath];
   ConsoleLog [JStr "Computed Styles:"; computedStyles];
   ConsoleLog [JStr "Full Data:";
               JObj [("event", JStr "CLICK");
                     ("timestamp", JIsoTime t);
                     ("element", clickElementData n);
                     ("position", clickPosition event);
                     ("cssSelector", JStr cssSelector);
                     ("computedStyles", computedStyles);
                     ("xpath", opt_string_value xpath)]];
   ConsoleLog [JStr ""]].

(** What a click on the element [n] of page [pg] prints: the whole
    record when the three locators are computed, nothing when one of them
    throws. *)
Definition clickOutput (pg : Page) (t : Z) (event : Event) (n : Node)
  : list ConsoleCall :=
  match getCSSSelector pg (target event),
        getRelevantStyles pg (target event),
        getXPath pg (target event) with
  | Normal css, Normal styles, Normal xpath => clickRecord t event n css styles xpath
  | _, _, _ => []
  end.

(** The nine console calls that open [initializeTracker]. *)
Definition greeting (t : Z) (pg : Page) : list ConsoleCall :=
  [ConsoleLog [JStr "%c========================================";
               JStr "color: #667eea; font-weight: bold;"];
   ConsoleLog [JStr "%c🎯 UNIVERSAL EVENT TRACKER INITIALIZED";
               JStr "color: #667eea; font-weight: bold; font-size: 16px;"];
   ConsoleLog [JStr "%c========================================";
               JStr "color: #667eea; font-weight: bold;"];
   ConsoleLog [JStr "📊 Tracking started at:"; JLocaleTime t];
   ConsoleLog [JStr "🌐 Page URL:"; JStr (href pg)];
   ConsoleLog [JStr "📱 User Agent:"; JStr (userAgent pg)];
   ConsoleLog [JStr "🖥️  Screen Resolution:";
               JStr (pretty (screenWidth pg) +:+ "x" +:+ pretty (screenHeight pg))];
   ConsoleLog [JStr "📏 Viewport Size:";
               JStr (pretty (innerWidth pg) +:+ "x" +:+ pretty (innerHeight pg))];
   ConsoleLog [JStr ""]].

(** The page-view record. *)
Definition pageView (t : Z) (pg : Page) : list ConsoleCall :=
  [Output.heading "%c📄 PAGE VIEW" "#4CAF50";
   ConsoleTable
     (JObj [("event", JStr "PAGE_VIEW");
            ("timestamp", JIsoTime t);
            ("url", JStr (href pg));
            ("path", JStr (pathname pg));
            ("title", JStr (title pg));
            ("referrer", str_or (referrer pg) "Direct");
            ("viewport", JObj [("width", JInt (innerWidth pg));
                               ("height", JInt (innerHeight pg))]);
            ("screen", JObj [("width", JInt (screenWidth pg));
                             ("height", JInt (screenHeight pg))])]);
   ConsoleLog [JStr ""]].

(** The three console calls that close the script. *)
Definition readyNote : list ConsoleCall :=
  [ConsoleLog [JStr "%c✅ Event Tracker Ready!";
               JStr "color: #4CAF50; font-weight: bold; font-size: 14px;"];
   ConsoleLog [JStr "Use EventTracker.trackCustomEvent(name, data) to track custom events"];
   ConsoleLog [JStr ""]].

(** The object the script stores in [window.EventTracker]. *)
Definition exportedTracker : JsValue :=
  JObj [("version", JStr "1.0.0");
        ("initialized", JBool true);
        ("trackCustomEvent", JFunction "trackCustomEvent")].

(** The registration the script makes while the document is loading. *)
Definition whenReady : Registration :=
  mkRegistration Document "DOMContentLoaded" InitializeTracker false.

(** The name of a form entry occurs among the entries. *)
Definition names (entries : list (string * JsValue)) : list string :=
  fst <$> entries.


(** The three console calls of a page-exit record. *)
Definition pageExit (t : Z) (seconds : Z) (pg : Page) : list ConsoleCall :=
  [Output.heading "%c🚪 PAGE EXIT" "#F44336";
   ConsoleTable
     (JObj [("event", JStr "PAGE_EXIT");
            ("timestamp", JIsoTime t);
            ("timeOnPage", JStr (pretty seconds +:+ " seconds"));
            ("url", JStr (href pg))]);
   ConsoleLog [JStr ""]].

(** The three console calls of a mouse-move record. *)
Definition mouseMove (t : Z) (event : Event) (n : Node) : list ConsoleCall :=
  [Output.heading "%c🖱️  MOUSE MOVE" "#607D8B";
   ConsoleTable
     (JObj [("event", JStr "MOUSE_MOVE");
            ("timestamp", JIsoTime t);
            ("position", JObj [("x", JInt (clientX event));
                               ("y", JInt (clientY event))]);
            ("elementUnderCursor", tag_value n)]);
   ConsoleLog [JStr ""]].

(** The mouse callback of [event] produces a record when it runs in [w]. *)
Definition mouseRecorded (event : Event) (w : World) : Prop :=
  console (exec (mouseCallback event) w) ≠ console w.

(** The square of the distance between two positions. *)
Definition dist2 (p q : Z * Z) : Z :=
  (p.1 - q.1) * (p.1 - q.1) + (p.2 - q.2) * (p.2 - q.2).

(** Edits of one control in two runs: the time of each edit, the value
    typed in the first run and the value typed in the second. *)
Definition first_run (field : ref) (m : list (Z * string * string))
  : list (Z * ref * string) :=
  (fun e => (e.1.1, field, e.1.2)) <$> m.

Definition second_run (field : ref) (m : list (Z * string * string))
  : list (Z * ref * string) :=
  (fun e => (e.1.1, field, e.2)) <$> m.

(** The event type whose listener makes the callback [cb]. *)
Definition category (cb : Callback) : string :=
  match cb with
  | InputCallback _ => "input"
  | ScrollCallback => "scroll"
  | MouseCallback _ => "mousemove"
  end.

(** The closure variable that holds the timer of the callback's
    category. *)
Definition slot_of (cb : Callback) (w : World) : option nat :=
  match cb with
  | InputCallback _ => inputTimeout w
  | ScrollCallback => scrollTimeout w
  | MouseCallback _ => mouseTimeout w
  end.

(** The timers are in order: the eight listeners are installed; every
    pending timer is the one its category's variable names; no two
    pending timers have the same id; the variables hold ids that have
    been given out, and different categories hold different ids. *)
Definition tidy (w : World) : Prop :=
  listeners w = Loop.installed
  /\ (forall t, t ∈ timers w -> slot_of (callback t) w = Some (timer_id t))
  /\ NoDup (timer_id <$> timers w)
  /\ (forall cb i, slot_of cb w = Some i -> (i < nextTimerId w)%nat)
  /\ (forall cb1 cb2 i,
        slot_of cb1 w = Some i -> slot_of cb2 w = Some i ->
        category cb1 = category cb2).

(** Listeners and timers are the same in [w] and [w']. *)
Definition same_schedule (w w' : World) : Prop :=
  listeners w' = listeners w
  /\ timers w' = timers w
  /\ nextTimerId w' = nextTimerId w
  /\ inputTimeout w' = inputTimeout w
  /\ scrollTimeout w' = scrollTimeout w
  /\ mouseTimeout w' = mouseTimeout w.

Definition keeps_schedule {A} (m : M A) : Prop :=
  forall w, same_schedule w (exec m w).

(** The listener that [initializeTracker] registers for an event type. *)
Definition handler_for (ty : string) : option Handler :=
  if bool_decide (ty = "click") then Some ClickListener
  else if bool_decide (ty = "submit") then Some SubmitListener
  else if bool_decide (ty = "input") then Some InputListener
  else if bool_decide (ty = "scroll") then Some ScrollListener
  else if bool_decide (ty = "mousemove") then Some MouseMoveListener
  else if bool_decide (ty = "keydown") then Some KeyDownListener
  else if bool_decide (ty = "visibilitychange") then Some VisibilityListener
  else if bool_decide (ty = "beforeunload") then Some BeforeUnloadListener
  else None.

(** Each time of [ts] is less than [gap] after the one before it; the
    first one is less than [gap] after [t0]. *)
Fixpoint apart (gap t0 : Z) (ts : list (Z * Z)) : Prop :=
  match ts with
  | [] => True
  | (t, _) :: rest => (t0 <= t < t0 + gap) /\ apart gap t rest
  end.

(** A burst of scroll events: at time [t] the page is at offset [top]. *)
Definition scrolls (l : list (Z * Z)) : list Loop.Step :=
  (fun e => Loop.scrolling e.1 e.2) <$> l.

(** What the scroll callback prints when it runs at time [t] on page
    [pg] with [last] in [lastScrollPosition]. *)
Definition scrollFired (t : Z) (pg : Page) (last : jsnum) : list ConsoleCall :=
  if changedSignificantly (scrollPercentageOf pg) last
  then Output.scroll t (scrollTopOf pg) (scrollPercentageOf pg)
         (scrollPercentageOf pg)
  else [].

(** The scroll timer is the only pending timer; it is due at [d]. *)
Definition scroll_pending (w : World) (d : Z) : Prop :=
  exists i, timers w = [mkTimer i d ScrollCallback] /\ scrollTimeout w = Some i.

(** Nothing is pending at time [t], or only the scroll timer, due later. *)
Definition scroll_quiet (w : World) (t : Z) : Prop :=
  listeners w = Loop.installed
  /\ now w <= t
  /\ (timers w = [] \/ exists d, scroll_pending w d /\ t < d).

End More.
(** * Properties *)

(** ** Basic facts *)

Lemma node_at_nil pg : node_at pg [] = None.
Proof. reflexivity. Qed.

Lemma truthy_nonempty s : s ≠ "" -> Str.truthy s = true.
Proof. destruct s; [congruence | reflexivity]. Qed.

Lemma str_or_na (s : string) : str_or s "N/A" = Output.or_na s.
Proof. by destruct s. Qed.

(** The record of an input change, as the callback assembles it. *)
Lemma inputChange_eq (n : Node) :
  Output.inputChange n
  = [ConsoleLog (Tracker.badge "%c⌨️  INPUT CHANGE" "#9C27B0");
     ConsoleTable (Tracker.inputElementData n);
     ConsoleLog [JStr ""]].
Proof.
  unfold Output.inputChange, Output.inputTable, Tracker.inputElementData.
  rewrite !str_or_na. by destruct (decide (type n = "password")) as [->|?];
    [|rewrite bool_decide_eq_false_2 by done].
Qed.

(** Run a script function symbolically: unfold the monad, the host
    interface and the field updates. *)
Ltac run_script :=
  cbv beta iota zeta delta
    [bind ret gets modify lift throw exec result
     Host.consoleLog Host.consoleTable Host.dateNow Host.getPage
     Host.addEventListener Host.setTimeout Host.clearTimeout Host.setGlobal
     fst snd
     now page console listeners timers nextTimerId uncaught inputTimeout
     scrollTimeout lastScrollPosition mouseTimeout lastMousePosition
     globals localStorage network
     set_now set_page set_console set_listeners set_timers set_nextTimerId
     set_uncaught set_inputTimeout set_scrollTimeout set_lastScrollPosition
     set_mouseTimeout set_lastMousePosition set_globals set_localStorage
     set_network].

(** Discharge the hypotheses of [H] one by one, by evaluation. *)
Ltac by_evaluation H :=
  repeat match type of H with
         | ?A -> _ =>
             let h := fresh in
             assert A as h
               by first [ vm_compute; reflexivity
                        | vm_compute; discriminate
                        | cbn; lia ];
             specialize (H h); clear h
         end.

(** ** Locators of an element with an id *)

Section Locators.
Import Tracker.

(** C7. An element with an identifier gets the identifier-based form of
    both locators: the CSS selector is "#" followed by the id and the
    XPath is the id-attribute form, whatever the ancestors are. *)
Theorem C7_locators_prefer_the_id (pg : Page) (element : ref) (n : Node) :
  node_at pg element = Some n ->
  id n ≠ "" ->
  getCSSSelector pg element = Normal ("#" +:+ id n)
  /\ getXPath pg element
     = Normal (Some ("//*[@id=" +:+ Str.dquote +:+ id n +:+ Str.dquote +:+ "]")).
Proof.
  intros Hn Hid. apply truthy_nonempty in Hid. split.
  - unfold getCSSSelector. by rewrite Hn, Hid.
  - destruct element as [|pos up]; [by rewrite node_at_nil in Hn|].
    cbn [getXPath]. by rewrite Hn, Hid.
Qed.

Lemma C7_locators_prefer_the_id_witness :
  getCSSSelector Sample.pg Sample.formRef = Normal "#login"
  /\ getXPath Sample.pg Sample.formRef
     = Normal (Some ("//*[@id=" +:+ Str.dquote +:+ "login" +:+ Str.dquote +:+ "]")).
Proof.
  apply (C7_locators_prefer_the_id Sample.pg Sample.formRef Sample.loginForm).
  - reflexivity.
  - discriminate.
Defined.

End Locators.

(** ** Custom events *)

Section Custom.
Import Tracker.

(** C9. The public entry point prints the name and the payload as they
    are given and returns nothing.  It makes four console calls: the
    label "%c🎯 CUSTOM EVENT: " with the name appended to it, and the
    style of the label; the payload itself; the time stamp; a blank line.
    The payload is not inspected, so a password-named property of the
    payload is printed like any other. *)
Theorem C9_custom_event_is_written_verbatim
    (eventName : string) (eventData : JsValue) (w : World) :
  trackCustomEvent eventName eventData w
  = (Normal tt,
     set_console
       (console w
        ++ [ConsoleLog
              [JStr ("%c🎯 CUSTOM EVENT: " +:+ eventName);
               JStr "background: #673AB7; color: white; padding: 5px 10px; border-radius: 3px; font-weight: bold;"];
            ConsoleLog [JStr "Event Data:"; eventData];
            ConsoleLog [JStr "Timestamp:"; JIsoTime (now w)];
            ConsoleLog [JStr ""]])
       w).
Proof.
  unfold trackCustomEvent. run_script.
  rewrite <- !app_assoc. reflexivity.
Qed.

(** A payload with a password-named property reaches the console as it
    is; the mask of the form listener is not applied here. *)
Example custom_payload_is_not_masked :
  console
    (exec (trackCustomEvent "login" (JObj [("password", JStr "secret")]))
       (Sample.fresh 7 Sample.pg))
  = [ConsoleLog
       [JStr "%c🎯 CUSTOM EVENT: login";
        JStr "background: #673AB7; color: white; padding: 5px 10px; border-radius: 3px; font-weight: bold;"];
     ConsoleLog [JStr "Event Data:"; JObj [("password", JStr "secret")]];
     ConsoleLog [JStr "Timestamp:"; JIsoTime 7];
     ConsoleLog [JStr ""]].
Proof. reflexivity. Qed.

End Custom.

(** ** Dispatch to the installed listeners *)

Section Dispatch.
Import Tracker Loop.

Lemma dispatch_click w e :
  listeners w = installed -> ev_type e = "click" ->
  dispatch e w = report (clickListener e) w.
Proof. intros Hl He. unfold dispatch. rewrite Hl, He. reflexivity. Qed.

Lemma dispatch_submit w e :
  listeners w = installed -> ev_type e = "submit" ->
  dispatch e w = report (submitListener e) w.
Proof. intros Hl He. unfold dispatch. rewrite Hl, He. reflexivity. Qed.

Lemma dispatch_input w e :
  listeners w = installed -> ev_type e = "input" ->
  dispatch e w = report (inputListener e) w.
Proof. intros Hl He. unfold dispatch. rewrite Hl, He. reflexivity. Qed.

Lemma dispatch_scroll w e :
  listeners w = installed -> ev_type e = "scroll" ->
  dispatch e w = report (scrollListener e) w.
Proof. intros Hl He. unfold dispatch. rewrite Hl, He. reflexivity. Qed.

Lemma dispatch_keydown w e :
  listeners w = installed -> ev_type e = "keydown" ->
  dispatch e w = report (keyDownListener e) w.
Proof. intros Hl He. unfold dispatch. rewrite Hl, He. reflexivity. Qed.

(** On a page that has finished loading the script installs the eight
    listeners at once. *)
Lemma script_installs w :
  readyState (page w) ≠ "loading" -> listeners w = [] ->
  listeners (exec script w) = installed.
Proof.
  intros Hr Hl. destruct w; cbn in Hr, Hl. subst.
  unfold script, initializeTracker, trackPageView,
    setupClickTracking, setupFormTracking, setupInputTracking,
    setupScrollTracking, setupMouseTracking, setupKeyboardTracking,
    setupVisibilityTracking, setupNavigationTracking.
  run_script. rewrite bool_decide_eq_false_2 by done.
  run_script. reflexivity.
Qed.

End Dispatch.

(** ** Key presses *)

Section Keys.
Import Tracker Loop.

Lemma keyDown_report w e :
  let w' := report (keyDownListener e) w in
  console w' = console w ++ Output.keyDown (page w) (now w) e
  /\ page w' = page w /\ now w' = now w /\ listeners w' = listeners w.
Proof.
  destruct w.
  unfold report, keyDownListener, Output.keyDown, Host.getNode. run_script.
  destruct (node_at page0 (target e)) as [n|]; run_script.
  - destruct (bool_decide (type n = "password")); run_script.
    + by rewrite app_nil_r.
    + by rewrite <- !app_assoc.
  - by rewrite app_nil_r.
Qed.

(** C6. Key presses are not coalesced: a burst of keydown events adds to
    the console, event by event and in order, what each event gives.  An
    event on an element whose type is not "password" gives one KEYPRESS
    record: the label, the table with the event's key, code and
    ctrl/shift/alt flags and the tag name of the target, and a blank
    line.  An event on a password field gives nothing. *)
Theorem C6_every_keydown_is_recorded (w : World) (events : list Event) :
  listeners w = installed ->
  Forall (fun e => ev_type e = "keydown") events ->
  console (dispatch_all events w)
  = console w ++ flat_map (Output.keyDown (page w) (now w)) events
  /\ (forall (e : Event) (n : Node),
        node_at (page w) (target e) = Some n ->
        Output.keyDown (page w) (now w) e
        = if decide (type n = "password") then []
          else
            [ConsoleLog
               [JStr "%c⌨️  KEYPRESS";
                JStr "background: #795548; color: white; padding: 5px 10px; border-radius: 3px; font-weight: bold;"];
             ConsoleTable
               (JObj [("event", JStr "KEYPRESS");
                      ("timestamp", JIsoTime (now w));
                      ("key", JStr (key e));
                      ("code", JStr (code e));
                      ("ctrlKey", JBool (ctrlKey e));
                      ("shiftKey", JBool (shiftKey e));
                      ("altKey", JBool (altKey e));
                      ("targetElement",
                        match tagName n with
                        | Some tag => JStr tag
                        | None => JUndefined
                        end)]);
             ConsoleLog [JStr ""]]).
Proof.
  intros Hl Hev. split.
  - revert w Hl.
    induction Hev as [|e events He _ IH]; intros w Hl.
    + cbn. by rewrite app_nil_r.
    + cbn [dispatch_all foldl flat_map].
      rewrite dispatch_keydown by done.
      destruct (keyDown_report w e) as (Hc & Hp & Hn & Hl').
      fold (dispatch_all events (report (keyDownListener e) w)).
      rewrite IH by congruence.
      rewrite Hc, Hp, Hn. by rewrite <- app_assoc.
  - intros e n Hn. unfold Output.keyDown. rewrite Hn.
    destruct (decide (type n = "password")) as [Hp|Hp].
    + by rewrite bool_decide_eq_true_2.
    + by rewrite bool_decide_eq_false_2.
Qed.

End Keys.

Lemma C6_every_keydown_is_recorded_witness :
  let record (k c : string) (ctrl shift alt : bool) :=
    [ConsoleLog
       [JStr "%c⌨️  KEYPRESS";
        JStr "background: #795548; color: white; padding: 5px 10px; border-radius: 3px; font-weight: bold;"];
     ConsoleTable
       (JObj [("event", JStr "KEYPRESS"); ("timestamp", JIsoTime 0);
              ("key", JStr k); ("code", JStr c);
              ("ctrlKey", JBool ctrl); ("shiftKey", JBool shift);
              ("altKey", JBool alt); ("targetElement", JStr "INPUT")]);
     ConsoleLog [JStr ""]] in
  console (Loop.dispatch_all Sample.fiveKeys (Sample.started 0 Sample.pg))
  = console (Sample.started 0 Sample.pg)
    ++ record "h" "KeyH" false false false
    ++ record "E" "KeyE" false true false
    ++ record "l" "KeyL" false false false
    ++ record "l" "KeyL" false false false
    ++ record "o" "KeyO" true false true.
Proof.
  intros record.
  destruct (C6_every_keydown_is_recorded (Sample.started 0 Sample.pg)
              Sample.fiveKeys) as [H _].
  - vm_compute. reflexivity.
  - repeat constructor.
  - rewrite H. f_equal.
Defined.

(** Five keydown events on the user-name field give five tables, and a
    keydown on the password field gives none. *)
Example five_keydowns_five_records :
  length (flat_map (Output.keyDown Sample.pg 0) Sample.fiveKeys) = 15%nat
  /\ Output.keyDown Sample.pg 0
       (Loop.keyDownEvent Sample.passRef "x" "KeyX" false false false) = [].
Proof. vm_compute. auto. Qed.

(** ** Scrolling *)

Section Scroll.
Import Tracker Loop.

(** The scroll callback, in one equation.  When the gate opens, the
    closure variable is overwritten first and the direction is then
    computed against the overwritten value: the last argument of
    [Output.scroll] is the percentage of the sample itself. *)
Lemma scrollCallback_eq (w : World) :
  let pct := scrollPercentageOf (page w) in
  scrollCallback w
  = if changedSignificantly pct (lastScrollPosition w)
    then (Normal tt,
          set_console
            (console w ++ Output.scroll (now w) (scrollTopOf (page w)) pct pct)
            (set_lastScrollPosition pct w))
    else (Normal tt, w).
Proof.
  destruct w. unfold scrollCallback. run_script.
  destruct (changedSignificantly _ _); run_script; [|done].
  by rewrite <- !app_assoc.
Qed.

Lemma changedSignificantly_fin (a b : Z) :
  changedSignificantly (Fin a) (Fin b) = true <-> 10 < Z.abs (a - b).
Proof. unfold changedSignificantly. cbn. apply Z.ltb_lt. Qed.

(** The reported direction depends on the sample alone: it is "down"
    exactly when the pixel offset exceeds the sample's own percentage. *)
Lemma direction_ignores_the_previous_sample (t top : Z) (pct : jsnum) :
  Output.scroll t top pct pct
  = [ConsoleLog
       [JStr "%c📜 SCROLL EVENT";
        JStr "background: #00BCD4; color: white; padding: 5px 10px; border-radius: 3px; font-weight: bold;"];
     ConsoleTable
       (JObj [("event", JStr "SCROLL");
              ("timestamp", JIsoTime t);
              ("position", JInt top);
              ("percentage", JStr (Num.to_string pct +:+ "%"));
              ("direction", if Num.gt (Fin top) pct then JStr "down" else JStr "up")]);
     Output.blank].
Proof. reflexivity. Qed.

(** C3 (what the code does at the failing input).  The user scrolls down
    to offset 800 of 1000 (80%), waits, and scrolls back up to offset 300
    (30%).  Both samples are recorded; the second one, an upward scroll,
    is reported with direction "down", because 300 is compared with 30. *)
Theorem C3_scrolling_up_is_reported_down :
  let w0 := Sample.started 0 Sample.pg in
  let w := advance 2000 (run [scrolling 10 800; scrolling 1000 300] w0) in
  console w
  = console w0
    ++ Output.scroll 210 800 (Fin 80) (Fin 80)
    ++ Output.scroll 1200 300 (Fin 30) (Fin 30)
  /\ Output.scroll 1200 300 (Fin 30) (Fin 30)
     = [ConsoleLog
          [JStr "%c📜 SCROLL EVENT";
           JStr "background: #00BCD4; color: white; padding: 5px 10px; border-radius: 3px; font-weight: bold;"];
        ConsoleTable
          (JObj [("event", JStr "SCROLL");
                 ("timestamp", JIsoTime 1200);
                 ("position", JInt 300);
                 ("percentage", JStr "30%");
                 ("direction", JStr "down")]);
        Output.blank].
Proof. vm_compute. auto. Qed.

Lemma recorded_iff (w : World) :
  Output.scrollRecorded w
  <-> changedSignificantly (scrollPercentageOf (page w)) (lastScrollPosition w) = true.
Proof.
  unfold Output.scrollRecorded, exec. rewrite scrollCallback_eq. cbv zeta.
  destruct (changedSignificantly _ _); cbn [snd]; split; try done.
  intros _ H. destruct w; cbn in H.
  apply (f_equal length) in H. rewrite length_app in H. cbn in H. lia.
Qed.

(** C5. The scroll gate.  The percentage of a sample is the one the
    script computes, [Math.round((scrollTop / scrollHeight) * 100)] in
    double precision.  (1) The callback produces a record only when the
    percentage differs by more than 10 from the value kept in
    [lastScrollPosition], and for finite values exactly then; (2) that
    variable is 0 at first and is set to the percentage of a sample
    exactly when the sample is recorded, so it is the percentage of the
    last recorded sample; (3) of two consecutive samples whose percentages
    differ by at most 10, at most one produces a record. *)
Theorem C5_scroll_delta_gate :
  (forall w, Output.scrollRecorded w ->
     changedSignificantly (scrollPercentageOf (page w)) (lastScrollPosition w) = true)
  /\ (forall w a b,
        scrollPercentageOf (page w) = Fin a -> lastScrollPosition w = Fin b ->
        (Output.scrollRecorded w <-> 10 < Z.abs (a - b)))
  /\ (forall w,
        lastScrollPosition (exec scrollCallback w)
        = if changedSignificantly (scrollPercentageOf (page w)) (lastScrollPosition w)
          then scrollPercentageOf (page w) else lastScrollPosition w)
  /\ (forall w, lastScrollPosition (exec setupScrollTracking w) = Fin 0)
  /\ (forall w pg1 pg2 a b,
        scrollPercentageOf pg1 = Fin a ->
        scrollPercentageOf pg2 = Fin b ->
        Z.abs (a - b) <= 10 ->
        let w1 := exec scrollCallback (set_page pg1 w) in
        ~ (Output.scrollRecorded (set_page pg1 w) /\ Output.scrollRecorded (set_page pg2 w1))).
Proof.
  split; [|split; [|split; [|split]]].
  - intros w. apply recorded_iff.
  - intros w a b Ha Hb. rewrite recorded_iff, Ha, Hb.
    apply changedSignificantly_fin.
  - intros w. unfold exec. rewrite scrollCallback_eq. cbv zeta.
    by destruct (changedSignificantly _ _).
  - intros w. reflexivity.
  - intros w pg1 pg2 a b Ha Hb Hab w1 [H1 H2].
    apply recorded_iff in H1, H2. subst w1.
    unfold exec in H2. rewrite scrollCallback_eq in H2. cbv zeta in H2.
    rewrite H1 in H2. destruct w; cbn in *.
    rewrite Ha, Hb in H2. apply changedSignificantly_fin in H2. lia.
Qed.

End Scroll.

(** The percentages are the ones the script computes, in double
    precision.  At offsets 250 and then 145 of 1000 they are 25 and 14: the
    difference is 11 and both samples are recorded. *)
Example samples_at_250_and_145_are_both_recorded :
  let w0 := Sample.started 0 Sample.pg in
  console (Loop.advance 5000
             (Loop.run [Loop.scrolling 10 250; Loop.scrolling 1000 145] w0))
  = console w0
    ++ Output.scroll 210 250 (Fin 25) (Fin 25)
    ++ Output.scroll 1200 145 (Fin 14) (Fin 14)
  /\ Output.scroll 1200 145 (Fin 14) (Fin 14)
     = [ConsoleLog
          [JStr "%c📜 SCROLL EVENT";
           JStr "background: #00BCD4; color: white; padding: 5px 10px; border-radius: 3px; font-weight: bold;"];
        ConsoleTable
          (JObj [("event", JStr "SCROLL");
                 ("timestamp", JIsoTime 1200);
                 ("position", JInt 145);
                 ("percentage", JStr "14%");
                 ("direction", JStr "down")]);
        ConsoleLog [JStr ""]].
Proof. vm_compute. auto. Qed.

Lemma C5_scroll_delta_gate_witness :
  let w := Sample.started 0 Sample.pg in
  let pg1 := with_scroll 500 Sample.pg in
  let pg2 := with_scroll 560 Sample.pg in
  ~ (Output.scrollRecorded (set_page pg1 w)
     /\ Output.scrollRecorded
          (set_page pg2 (exec Tracker.scrollCallback (set_page pg1 w)))).
Proof.
  intros w pg1 pg2.
  apply (proj2 (proj2 (proj2 (proj2 C5_scroll_delta_gate))) w pg1 pg2 50 56).
  - reflexivity.
  - reflexivity.
  - vm_compute. discriminate.
Defined.

(** ** Clicks and locators that do not resolve *)

Section Clicks.
Import Tracker Loop.

(** A node without a parent and without an id (the document node, or the
    root of a detached subtree) makes [getXPath] throw, unless it is the
    body: the function reads [childNodes] of the null parent. *)
Lemma getXPath_throws_at_a_root (pg : Page) (i : nat) (n : Node) :
  node_at pg [i] = Some n -> id n = "" -> [i] ≠ body pg ->
  getXPath pg [i]
  = Throw (TypeError "Cannot read properties of null (reading 'childNodes')").
Proof.
  intros Hn Hid Hb. cbn [getXPath]. rewrite Hn, Hid. cbn [Str.truthy].
  rewrite bool_decide_eq_false_2 by done. reflexivity.
Qed.

(** The loop of [getXPath] finds the element among the children of its
    parent. *)
Lemma siblingIndex_found (siblings : list tree) (tag : option string) :
  forall (i pos index : nat),
    (i <= pos)%nat -> (pos - i < length siblings)%nat ->
    exists k, siblingIndex siblings i pos tag index = Some k.
Proof.
  induction siblings as [|s rest IH]; intros i pos index Hi Hlen.
  - cbn in Hlen. lia.
  - cbn [siblingIndex]. destruct (i =? pos)%nat eqn:Heq; [eauto|].
    apply Nat.eqb_neq in Heq. cbn [length] in Hlen.
    destruct (_ && _); apply IH; lia.
Qed.

(** One unfolding of [getXPath] at a node that has a place among
    siblings. *)
Lemma getXPath_step (pg : Page) (pos : nat) (up : ref) (n : Node) (parent : tree) :
  node_at pg (pos :: up) = Some n -> id n = "" -> pos :: up ≠ body pg ->
  tree_at pg up = Some parent ->
  getXPath pg (pos :: up)
  = match siblingIndex (tree_children parent) 0 pos (tagName n) 0 with
    | None => Normal None
    | Some index =>
        match getXPath pg up with
        | Throw e => Throw e
        | Normal above =>
            match tagName n with
            | None =>
                Throw (TypeError "Cannot read properties of undefined (reading 'toLowerCase')")
            | Some tag =>
                Normal (Some (xpath_to_string above +:+ "/"
                              +:+ Str.toLowerCase tag +:+ "["
                              +:+ pretty (index + 1)%nat +:+ "]"))
            end
        end
    end.
Proof.
  intros Hn Hid Hb Hp. cbn [getXPath]. rewrite Hn, Hid, Hp. cbn [Str.truthy].
  by rewrite bool_decide_eq_false_2.
Qed.

(** So does a child of such a root, for instance the root element
    [html] under the document node: the recursive call on the parent
    throws. *)
Lemma getXPath_throws_below_a_root (pg : Page) (pos i : nat) (n d : Node) :
  node_at pg [pos; i] = Some n -> id n = "" -> [pos; i] ≠ body pg ->
  node_at pg [i] = Some d -> id d = "" -> [i] ≠ body pg ->
  getXPath pg [pos; i]
  = Throw (TypeError "Cannot read properties of null (reading 'childNodes')").
Proof.
  intros Hn Hid Hb Hd Hidd Hbd.
  pose proof (getXPath_throws_at_a_root pg i d Hd Hidd Hbd) as Hroot.
  assert (exists parent, tree_at pg [i] = Some parent
                         /\ (pos < length (tree_children parent))%nat)
    as (parent & Hp & Hlen).
  { unfold node_at, tree_at in *. cbn [rev app subtree] in *.
    destruct (roots pg !! i) as [parent|]; [|done].
    exists parent. split; [done|].
    destruct (tree_children parent !! pos) eqn:Ht; [|done].
    by apply lookup_lt_Some in Ht. }
  rewrite (getXPath_step pg pos [i] n parent) by done.
  destruct (siblingIndex_found (tree_children parent) (tagName n) 0 pos 0)
    as [k ->]; [lia|lia|].
  by rewrite Hroot.
Qed.

(** The sibling path does resolve: [getCSSSelector] guards the null
    parent and stops there. *)
Lemma getCSSSelector_never_throws (pg : Page) (element : ref) (n : Node) :
  node_at pg element = Some n ->
  exists s, getCSSSelector pg element = Normal s.
Proof.
  intros Hn. unfold getCSSSelector. rewrite Hn.
  destruct (Str.truthy (id n)); eauto.
Qed.

(** C4 (what the code does at the failing input).  A click whose target
    is the root element [html] (no id): the CSS selector and the styles
    are computed, then [getXPath] climbs to the document node, reads
    [childNodes] of its null parent and throws.  The listener is aborted:
    nothing is printed for the click and the exception reaches the host.
    The structural path of a detached node fails in the same way, where
    the CSS selector of the same node is computed. *)
Theorem C4_click_on_the_root_element_aborts_the_listener :
  let w := Sample.started 0 Sample.pg in
  let click := clickEvent Sample.htmlRef 10 700 10 700 in
  getCSSSelector Sample.pg Sample.htmlRef = Normal "html"
  /\ getXPath Sample.pg Sample.htmlRef
     = Throw (TypeError "Cannot read properties of null (reading 'childNodes')")
  /\ result (clickListener click) w
     = Throw (TypeError "Cannot read properties of null (reading 'childNodes')")
  /\ console (dispatch click w) = console w
  /\ uncaught (dispatch click w)
     = [TypeError "Cannot read properties of null (reading 'childNodes')"]
  /\ getCSSSelector Sample.pg Sample.orphanSpanRef = Normal "div.orphan > span"
  /\ getXPath Sample.pg Sample.orphanSpanRef
     = Throw (TypeError "Cannot read properties of null (reading 'childNodes')").
Proof. vm_compute. auto 10. Qed.

End Clicks.

(** ** Form submissions *)

Section Forms.
Import Tracker Loop.

Lemma dict_set_lookup key v (own : gmap string JsValue) k :
  k ≠ "__proto__" ->
  dict_set key v own !! k = if decide (key = k) then Some v else own !! k.
Proof.
  intros Hk. unfold dict_set.
  destruct (decide (key = "__proto__")) as [->|_].
  - by rewrite decide_False.
  - apply lookup_insert.
Qed.

(** The loop, started from any object [own]. *)
Lemma collect_lookup entries (own : gmap string JsValue) k :
  k ≠ "__proto__" ->
  foldl (fun formValues '(key, value) =>
           if isPasswordName key
           then dict_set key (JStr MASK) formValues
           else dict_set key value formValues) own entries !! k
  = match Output.lastEntry k entries with
    | Some v => Some (Output.shown k v)
    | None => own !! k
    end.
Proof.
  intros Hk. revert own.
  induction entries as [|[key value] rest IH]; intros own; [done|].
  cbn [foldl Output.lastEntry]. rewrite IH.
  destruct (Output.lastEntry k rest) as [v'|]; [done|].
  unfold Output.shown.
  destruct (decide (key = k)) as [->|Hne].
  - destruct (isPasswordName k); rewrite dict_set_lookup by done;
      by rewrite decide_True.
  - destruct (isPasswordName key); rewrite dict_set_lookup by done;
      by rewrite decide_False.
Qed.

Lemma collectFields_lookup entries k :
  k ≠ "__proto__" ->
  collectFields entries !! k = Output.shown k <$> Output.lastEntry k entries.
Proof.
  intros Hk. unfold collectFields. rewrite collect_lookup by done.
  by destruct (Output.lastEntry k entries).
Qed.

Lemma submitListener_eq (w : World) (event : Event) (n : Node) :
  node_at (page w) (target event) = Some n ->
  tagName n = Some "FORM" ->
  submitListener event w
  = (Normal tt,
     set_console
       (console w
        ++ Output.formSubmit (target event) n (collectFields (formEntries n)))
       w).
Proof.
  intros Hn Ht. destruct w. unfold submitListener, Host.getNode, newFormData.
  run_script. cbn in Hn. rewrite Hn. run_script. rewrite Ht.
  rewrite bool_decide_eq_true_2 by done. run_script.
  by rewrite <- !app_assoc.
Qed.

(** A field named ["__proto__"] leaves no trace in the map. *)
Example proto_field_is_dropped :
  collectFields [("__proto__", JStr "x"); ("a", JStr "1")]
  = {[ "a" := JStr "1" ]}.
Proof. vm_compute. reflexivity. Qed.

(** C1 as stated does not hold for a form that submits two fields under
    one name: both are fields that are not password-named, and the map
    can send the name to one value only.  Here the first field, whose
    value is "a", is shown as "b". *)
Lemma C1_repeated_name_counterexample :
  ~ (forall (w : World) (event : Event) (n : Node) (key : string) (v : JsValue),
       node_at (page w) (target event) = Some n ->
       tagName n = Some "FORM" ->
       (key, v) ∈ formEntries n ->
       exists fields,
         console (exec (submitListener event) w)
         = console w ++ Output.formSubmit (target event) n fields
         /\ fields !! key = Some (if isPasswordName key then JStr MASK else v)).
Proof.
  intros H.
  destruct (H (Sample.fresh 0 Sample.tagsPage)
              (plainEvent "submit" Sample.tagsFormRef)
              Sample.tagsForm "tag" (JStr "a"))
    as (fields & Hc & Hf).
  - reflexivity.
  - reflexivity.
  - cbn. apply list_elem_of_here.
  - unfold exec in Hc. rewrite (submitListener_eq _ _ Sample.tagsForm) in Hc
      by reflexivity.
    cbn [snd console set_console Sample.fresh] in Hc.
    apply app_inv_head in Hc. unfold Output.formSubmit in Hc.
    assert (fields = collectFields (formEntries Sample.tagsForm)) as ->
      by congruence.
    vm_compute in Hf. discriminate.
Qed.

(** C1, amended.  On a submit event of a form the listener prints the
    fields map built from the form's entries.  For every name other than
    ["__proto__"], the map sends a name that contains "password" (in any
    letter case) to the mask and any other name to the value of the last
    entry submitted under that name; names that do not occur are absent.
    The form with entries username = "alice", password = "secret" gives
    the map username = "alice", password = "***MASKED***". *)
Theorem C1_fields_are_masked_by_name
    (w : World) (event : Event) (n : Node) (key : string) :
  node_at (page w) (target event) = Some n ->
  tagName n = Some "FORM" ->
  key ≠ "__proto__" ->
  submitListener event w
  = (Normal tt,
     set_console
       (console w
        ++ Output.formSubmit (target event) n (collectFields (formEntries n)))
       w)
  /\ collectFields (formEntries n) !! key
     = Output.shown key <$> Output.lastEntry key (formEntries n)
  /\ (isPasswordName key = true ->
      is_Some (Output.lastEntry key (formEntries n)) ->
      collectFields (formEntries n) !! key = Some (JStr MASK))
  /\ collectFields [("username", JStr "alice"); ("password", JStr "secret")]
     = {[ "username" := JStr "alice"; "password" := JStr "***MASKED***" ]}.
Proof.
  intros Hn Ht Hk. split; [by apply submitListener_eq|].
  split; [by apply collectFields_lookup|]. split.
  - intros Hp [v Hv]. rewrite collectFields_lookup, Hv by done.
    unfold Output.shown. by rewrite Hp.
  - vm_compute. reflexivity.
Qed.

Lemma C1_fields_are_masked_by_name_witness :
  let w := Sample.started 0 Sample.pg in
  let event := plainEvent "submit" Sample.formRef in
  submitListener event w
  = (Normal tt,
     set_console
       (console w
        ++ Output.formSubmit Sample.formRef Sample.loginForm
             {[ "username" := JStr "alice"; "password" := JStr "***MASKED***" ]})
       w)
  /\ collectFields (formEntries Sample.loginForm) !! "PassWord" = None.
Proof.
  intros w event.
  destruct (C1_fields_are_masked_by_name w event Sample.loginForm "PassWord")
    as (H1 & H2 & _ & H4).
  - vm_compute. reflexivity.
  - reflexivity.
  - discriminate.
  - split.
    + rewrite H1. cbn [formEntries Sample.loginForm target event plainEvent].
      by rewrite H4.
    + rewrite H2. reflexivity.
Defined.

End Forms.

(** ** The timers always run out *)

Section Timers.
Import Tracker Loop.

(** No callback of the script sets or clears a timer. *)
Lemma fire_keeps_timers cb w : timers (report (fire cb) w) = timers w.
Proof.
  destruct w. destruct cb as [e| |e]; cbn [fire]; unfold report.
  - unfold inputCallback, Host.getNode. run_script.
    destruct (node_at page0 (target e)) as [n|]; run_script; [|done].
    by destruct (isFormControl n).
  - unfold scrollCallback. run_script.
    by destruct (changedSignificantly _ _).
  - unfold mouseCallback, Host.getNode. run_script.
    destruct (farther_than_100 _ _); run_script; [|done].
    by destruct (node_at page0 (target e)).
Qed.

Lemma next_due_Some limit ts t :
  next_due limit ts = Some t -> t ∈ ts /\ due t <= limit.
Proof.
  revert t. induction ts as [|t' ts IH]; intros t; [done|].
  cbn [next_due]. destruct (due t' <=? limit) eqn:Hd.
  - apply Z.leb_le in Hd. destruct (next_due limit ts) as [t''|].
    + unfold earlier. destruct (due t'' <? due t'); intros [= <-].
      * destruct (IH t'' eq_refl). split; [by right|done].
      * split; [by left|done].
    + intros [= <-]. split; [by left|done].
  - intros H. destruct (IH t H). split; [by right|done].
Qed.

Lemma run_timers_settles n limit : forall w,
  (length (timers w) <= n)%nat ->
  next_due limit (timers (run_timers n limit w)) = None.
Proof.
  induction n as [|n IH]; intros w Hn.
  - cbn [run_timers]. destruct (timers w); [done|cbn in Hn; lia].
  - cbn [run_timers]. destruct (next_due limit (timers w)) as [t|] eqn:Ht; [|done].
    apply IH. unfold fire_timer. rewrite fire_keeps_timers.
    destruct (next_due_Some _ _ _ Ht) as [Hin _].
    destruct w; cbn [timers set_now set_timers] in *.
    pose proof (length_filter_lt (fun t' : Timer => timer_id t' ≠ timer_id t)
                  timers0 t Hin) as Hlt.
    cbn in Hlt. lia.
Qed.

(** After [advance limit] no timer due at [limit] or before is left: the
    bound on the number of runs in [advance] loses nothing. *)
Lemma advance_settles limit w :
  next_due limit (timers (advance limit w)) = None.
Proof.
  unfold advance.
  change (next_due limit (timers (run_timers (length (timers w)) limit w)) = None).
  by apply run_timers_settles.
Qed.

End Timers.

(** ** Password names *)

Section Names.

Lemma app_String c (a b : string) : String c a +:+ b = String c (a +:+ b).
Proof. reflexivity. Qed.

Lemma app_Empty (b : string) : "" +:+ b = b.
Proof. reflexivity. Qed.

Lemma prefix_app (p s : string) :
  String.prefix p s = true <-> exists post, s = p +:+ post.
Proof.
  revert s. induction p as [|c p IH]; intros s.
  - split; [intros _; by exists s | by destruct s].
  - destruct s as [|c' s]; cbn.
    + split; [done|]. by intros [post ?].
    + destruct (Ascii.ascii_dec c c') as [->|Hne].
      * rewrite IH. split; intros [post Hp]; exists post;
          rewrite app_String in *; congruence.
      * split; [done|]. intros [post Hp]. rewrite app_String in Hp. congruence.
Qed.

Lemma includes_app (needle s : string) :
  Str.includes needle s = true
  <-> exists pre post, s = pre +:+ needle +:+ post.
Proof.
  induction s as [|c s IH]; cbn [Str.includes].
  - rewrite orb_false_r, prefix_app. split.
    + intros [post Hp]. by exists "", post.
    + intros (pre & post & Hp). destruct pre; [by exists post|done].
  - rewrite orb_true_iff, prefix_app, IH. split.
    + intros [[post Hp]|(pre & post & Hp)].
      * by exists "", post.
      * exists (String c pre), post. by rewrite app_String, Hp.
    + intros (pre & post & Hp). destruct pre as [|c' pre].
      * left. by exists post.
      * right. exists pre, post. rewrite app_String in Hp. congruence.
Qed.

Lemma toLowerCase_app (a b : string) :
  Str.toLowerCase (a +:+ b) = Str.toLowerCase a +:+ Str.toLowerCase b.
Proof.
  induction a as [|c a IH]; [done|].
  rewrite app_String. cbn [Str.toLowerCase]. by rewrite IH.
Qed.

Lemma toLowerCase_split (s a b : string) :
  Str.toLowerCase s = a +:+ b ->
  exists s1 s2, s = s1 +:+ s2
                /\ Str.toLowerCase s1 = a /\ Str.toLowerCase s2 = b.
Proof.
  revert s. induction a as [|c a IH]; intros s H.
  - by exists "", s.
  - destruct s as [|c' s]; [done|].
    rewrite app_String in H. cbn [Str.toLowerCase] in H.
    injection H as Hc Hs.
    destruct (IH s Hs) as (s1 & s2 & -> & H1 & H2).
    exists (String c' s1), s2. cbn [Str.toLowerCase]. by rewrite H1, Hc.
Qed.

(** The test of the submit listener holds exactly for the names that
    contain, somewhere, the letters of "password" in any letter case. *)
Lemma isPasswordName_spec (key : string) :
  Tracker.isPasswordName key = true
  <-> exists pre mid post,
        key = pre +:+ mid +:+ post /\ Str.toLowerCase mid = "password".
Proof.
  unfold Tracker.isPasswordName. rewrite includes_app. split.
  - intros (a & b & H).
    destruct (toLowerCase_split _ _ _ H) as (pre & rest & -> & _ & H2).
    destruct (toLowerCase_split _ _ _ H2) as (mid & post & -> & H3 & _).
    by exists pre, mid, post.
  - intros (pre & mid & post & -> & H).
    exists (Str.toLowerCase pre), (Str.toLowerCase post).
    by rewrite !toLowerCase_app, H.
Qed.

Example password_names :
  Tracker.isPasswordName "password" = true
  /\ Tracker.isPasswordName "confirm_PassWord2" = true
  /\ Tracker.isPasswordName "username" = false
  /\ Tracker.isPasswordName "passw0rd" = false.
Proof. vm_compute. auto. Qed.

End Names.

(** ** The page under edits *)

Section Dom.

Lemma subtree_alter_node (f : Node -> Node) (path : list nat) :
  forall (ts : list tree) (path' : list nat),
    tree_node <$> subtree (alter_node f ts path) path'
    = (if decide (path = path') then f else fun n => n)
        <$> (tree_node <$> subtree ts path').
Proof.
  induction path as [|i rest IH]; intros ts path'.
  - cbn [alter_node]. case_decide; [by subst|].
    by destruct (subtree ts path').
  - destruct path' as [|j rest'].
    { by rewrite decide_False. }
    cbn [alter_node subtree].
    destruct (decide (i = j)) as [->|Hij].
    + rewrite list_lookup_alter_eq.
      destruct (ts !! j) as [[n kids]|] eqn:Hj; cbn [fmap option_fmap option_map];
        [|done].
      destruct rest' as [|k rest''].
      * destruct rest as [|i' rest]; cbn.
        -- by rewrite decide_True.
        -- by rewrite decide_False.
      * destruct rest as [|i' rest].
        -- cbn [tree_children tree_node]. rewrite decide_False by done.
           by destruct (subtree kids (k :: rest'')).
        -- cbn [tree_children]. rewrite IH.
           destruct (decide (i' :: rest = k :: rest'')) as [Heq|Hne].
           ++ rewrite Heq. by rewrite decide_True.
           ++ rewrite decide_False; [done|congruence].
    + rewrite list_lookup_alter_ne by done.
      rewrite decide_False by congruence.
      by destruct (tree_node <$> _).
Qed.

Lemma node_at_alter (f : Node -> Node) (pg : Page) (r r' : ref) :
  node_at (alter_at f r pg) r'
  = (if decide (r = r') then f else fun n => n) <$> node_at pg r'.
Proof.
  unfold node_at, tree_at, alter_at. cbn [roots with_roots].
  rewrite subtree_alter_node.
  destruct (decide (r = r')) as [->|Hne].
  - by rewrite decide_True.
  - rewrite decide_False; [done|].
    intros H. apply Hne. apply (f_equal (@rev nat)) in H.
    by rewrite !rev_involutive in H.
Qed.

Lemma set_value_twice v v' n : set_value v (set_value v' n) = set_value v n.
Proof. reflexivity. Qed.

(** Edits change values only: after any edits the node at [r] is the
    original node up to its value. *)
Lemma node_at_edited (pg : Page) (r : ref) (n : Node) es :
  node_at pg r = Some n ->
  exists v, node_at (Loop.edited pg es) r = Some (set_value v n).
Proof.
  intros Hn.
  assert (exists v, node_at pg r = Some (set_value v n)) as Hv.
  { exists (value n). rewrite Hn. by destruct n. }
  clear Hn. revert pg Hv.
  induction es as [|[[t r'] v'] rest IH]; intros pg Hv; [done|].
  cbn [Loop.edited foldl]. apply IH.
  rewrite node_at_alter. destruct Hv as [v Hv]. rewrite Hv.
  destruct (decide (r' = r)); cbn; eauto.
Qed.

(** The control edited last holds the value typed last. *)
Lemma node_at_edited_last (pg : Page) es t r v (n : Node) :
  node_at pg r = Some n ->
  node_at (Loop.edited pg (es ++ [(t, r, v)])) r = Some (set_value v n).
Proof.
  intros Hn. unfold Loop.edited. rewrite foldl_app. cbn [foldl].
  rewrite node_at_alter, decide_True by done.
  destruct (node_at_edited pg r n es Hn) as [v' Hv'].
  unfold Loop.edited in Hv'. by rewrite Hv'.
Qed.

End Dom.

(** ** The input debounce *)

Lemma last_cons_default {A} (x d : A) (l : list A) :
  List.last (x :: l) d = List.last l x.
Proof.
  revert x d. induction l as [|y l IH]; intros x d; [done|].
  change (List.last (y :: l) d = List.last (y :: l) x).
  by rewrite (IH y d), (IH y x).
Qed.

Section Debounce.
Import Tracker Loop.

Lemma filter_own_timer i d cb :
  filter (fun t' : Timer => timer_id t' ≠ i) [mkTimer i d cb] = [].
Proof. cbn. rewrite decide_False; [done|]. cbn. auto. Qed.

(** An edit in a quiet world: whatever was pending is cancelled and one
    timer is set, 500 after the edit; nothing is printed. *)
Lemma step_typing (w : World) (t : Z) (r : ref) (v : string) :
  quiet w t ->
  let w' := step (typing t r v) w in
  listeners w' = installed /\ now w' = t /\ console w' = console w
  /\ page w' = alter_at (set_value v) r (page w)
  /\ pending w' (t + 500) (plainEvent "input" r).
Proof.
  intros (Hl & Hnow & Ht). destruct w; cbn in Hl, Hnow, Ht. subst.
  unfold step, typing, advance.
  cbn [at_time change event apply_change].
  destruct Ht as [->|(i & d & cb & -> & -> & Hd)].
  - cbn [timers length run_timers]. rewrite dispatch_input by reflexivity.
    unfold report, inputListener.
    destruct inputTimeout0; run_script; rewrite Z.max_r by done; cbn;
      repeat split; eexists; split; reflexivity.
  - cbn [timers length run_timers next_due due].
    rewrite (proj2 (Z.leb_gt d t)) by lia.
    rewrite dispatch_input by reflexivity.
    unfold report, inputListener. run_script.
    rewrite filter_own_timer, Z.max_r by done. cbn.
    repeat split. eexists; split; reflexivity.
Qed.

Lemma pending_quiet w d e t :
  listeners w = installed -> now w <= t -> t < d -> pending w d e -> quiet w t.
Proof.
  intros Hl Hn Hd (i & Ht & Hi). repeat split; [done..|].
  right. eauto 10.
Qed.

(** A burst of edits, each less than 500 after the one before it: only
    the timer of the last edit is pending at the end, and nothing has
    been printed. *)
Lemma burst_run rest : forall (w : World) (t : Z) (r : ref) (v : string),
  quiet w t ->
  spaced 500 t rest ->
  let w' := run (edits ((t, r, v) :: rest)) w in
  let '(tN, rN, _) := List.last rest (t, r, v) in
  listeners w' = installed /\ now w' = tN /\ console w' = console w
  /\ page w' = edited (page w) ((t, r, v) :: rest)
  /\ pending w' (tN + 500) (plainEvent "input" rN).
Proof.
  induction rest as [|[[t' r'] v'] rest IH]; intros w t r v Hq Hs.
  - cbn. apply step_typing. done.
  - destruct Hs as [Ht' Hs].
    destruct (step_typing w t r v Hq) as (Hl & Hn & Hc & Hp & Hpend).
    specialize (IH (step (typing t r v) w) t' r' v').
    rewrite last_cons_default.
    cbn [edits map run foldl edited] in *.
    destruct (List.last rest (t', r', v')) as [[tN rN] vN].
    destruct IH as (Hl' & Hn' & Hc' & Hp' & Hpend').
    { apply (pending_quiet _ (t + 500) (plainEvent "input" r)); [done|lia|lia|done]. }
    { done. }
    repeat split; [done|done|congruence| |done].
    by rewrite Hp', Hp.
Qed.

(** Letting the time pass with the input timer pending: nothing happens
    before it is due; once it is due, the callback reads the target as it
    is then and prints at most one record. *)
Lemma advance_pending (w : World) (d : Z) (e : Event) (T : Z) :
  pending w d e ->
  console (advance T w)
  = if d <=? T then console w ++ Output.inputFired (node_at (page w) (target e))
    else console w.
Proof.
  intros (i & Ht & Hi). destruct w; cbn in *. subst.
  unfold advance. cbn [timers length run_timers next_due due].
  destruct (d <=? T); [|reflexivity].
  unfold fire_timer. cbn [callback fire timers due timer_id].
  rewrite filter_own_timer.
  unfold report, inputCallback, Host.getNode. run_script.
  destruct (node_at page0 (target e)) as [n|]; run_script.
  - unfold Output.inputFired. destruct (isFormControl n); run_script.
    + by rewrite inputChange_eq, <- !app_assoc.
    + by rewrite app_nil_r.
  - by rewrite app_nil_r.
Qed.

End Debounce.

Section DebounceLaws.
Import Tracker Loop.

Lemma nonempty_snoc {A} (x : A) (l : list A) :
  exists front, x :: l = front ++ [List.last l x].
Proof.
  exists (removelast (x :: l)).
  rewrite <- (last_cons_default x x l).
  by apply app_removelast_last.
Qed.

(** A burst of edits from a quiet start, each less than 500 after the one
    before it, and then the passing of time until [T]: the only timer is
    the one of the last edit, and the console gets the record of the
    control edited last, with the value typed last, once that timer is due. *)
Lemma burst_console (w : World) (t1 : Z) (r1 : ref) (v1 : string)
    (more : list (Z * ref * string)) (n : Node) (T : Z) :
  listeners w = installed -> timers w = [] -> now w <= t1 ->
  spaced 500 t1 more ->
  let w' := run (edits ((t1, r1, v1) :: more)) w in
  let '(tN, rN, vN) := List.last more (t1, r1, v1) in
  node_at (page w) rN = Some n ->
  pending w' (tN + 500) (plainEvent "input" rN)
  /\ console (advance T w')
     = if tN + 500 <=? T
       then console w ++ Output.inputFired (Some (set_value vN n))
       else console w.
Proof.
  intros Hl Ht Hnow Hs w'.
  assert (quiet w t1) as Hq by (repeat split; auto).
  pose proof (burst_run more w t1 r1 v1 Hq Hs) as Hrun.
  destruct (nonempty_snoc (t1, r1, v1) more) as [front Hfront].
  fold w' in Hrun.
  destruct (List.last more (t1, r1, v1)) as [[tN rN] vN].
  destruct Hrun as (_ & _ & Hc & Hp & Hpend). intros Hn.
  split; [done|].
  rewrite (advance_pending w' _ _ T Hpend), Hc, Hp, Hfront.
  cbn [target plainEvent]. by rewrite (node_at_edited_last _ _ _ _ _ n).
Qed.

Lemma last_on_field (field : ref) (t1 : Z) (v1 : string) more :
  (List.last (on_field field more) (t1, field, v1)).1.2 = field.
Proof.
  revert t1 v1. induction more as [|[t v] more IH]; intros t1 v1; [done|].
  cbn [on_field map]. rewrite last_cons_default. apply IH.
Qed.





(** C10. There is one input timer for the whole page.  In a burst of
    edits of any controls, each less than 500 after the one before it,
    every edit cancels the pending callback of the edit before it, also
    when that one was made to another control: at the end a single timer
    is pending, and the only INPUT CHANGE record is the one of the control
    edited last. *)
Theorem C10_one_timer_for_all_controls
    (w : World) (t1 : Z) (r1 : ref) (v1 : string)
    (more : list (Z * ref * string)) (n : Node) (T : Z) :
  listeners w = installed -> timers w = [] -> now w <= t1 ->
  spaced 500 t1 more ->
  let w' := run (edits ((t1, r1, v1) :: more)) w in
  let '(tN, rN, vN) := List.last more (t1, r1, v1) in
  node_at (page w) rN = Some n ->
  isFormControl n = true ->
  length (timers w') = 1%nat
  /\ pending w' (tN + 500) (plainEvent "input" rN)
  /\ console (advance T w')
     = if tN + 500 <=? T
       then console w ++ Output.inputChange (set_value vN n)
       else console w.
Proof.
  intros Hl Ht Hnow Hs w'.
  pose proof (burst_console w t1 r1 v1 more n T Hl Ht Hnow Hs) as H.
  fold w' in H.
  destruct (List.last more (t1, r1, v1)) as [[tN rN] vN].
  intros Hn Hctl. destruct (H Hn) as [Hpend Hc].
  split; [|split; [done|]].
  - destruct Hpend as (i & -> & _). done.
  - rewrite Hc. cbn [Output.inputFired].
    replace (isFormControl (set_value vN n)) with (isFormControl n) by done.
    by rewrite Hctl.
Qed.

End DebounceLaws.


Lemma C10_one_timer_for_all_controls_witness :
  let w := Sample.started 0 Sample.pg in
  let w' :=
    Loop.run
      (Loop.edits [(10, Sample.userRef, "a"); (200, Sample.cityRef, "P");
                   (400, Sample.userRef, "ab"); (700, Sample.cityRef, "Pa")]) w in
  length (timers w') = 1%nat
  /\ Loop.pending w' (700 + 500) (Loop.plainEvent "input" Sample.cityRef)
  /\ console (Loop.advance 5000 w')
     = console w
       ++ Output.inputChange
            (set_value "Pa" (Sample.control "INPUT" "text" "city" "")).
Proof.
  intros w w'.
  pose proof (C10_one_timer_for_all_controls w 10 Sample.userRef "a"
                [(200, Sample.cityRef, "P"); (400, Sample.userRef, "ab");
                 (700, Sample.cityRef, "Pa")]
                (Sample.control "INPUT" "text" "city" "") 5000) as H.
  by_evaluation H.
  cbv beta iota zeta delta [List.last] in H.
  by_evaluation H.
  change (700 + 500 <=? 5000) with true in H.
  cbv iota in H. destruct H as (H1 & H2 & H3).
  split; [exact H1 | split; [exact H2 | exact H3]].
Defined.

(** ** What the tracker writes to *)

Section Frame.
Import Tracker Loop Output.

Lemma untouched_refl w : untouched w w.
Proof. by repeat split. Qed.

Lemma untouched_eq w w' :
  page w' = page w -> localStorage w' = localStorage w ->
  network w' = network w -> globals w' = globals w ->
  console w' = console w ->
  untouched w w'.
Proof. intros Hp Hs Hn Hg Hc. repeat split; try done; by rewrite ?Hg, ?Hc. Qed.

Lemma untouched_trans w1 w2 w3 :
  untouched w1 w2 -> untouched w2 w3 -> untouched w1 w3.
Proof.
  intros (Hp & Hs & Hn & Hg & Hc) (Hp' & Hs' & Hn' & Hg' & Hc').
  repeat split; try congruence.
  - intros k Hk. by rewrite Hg', Hg.
  - by etrans.
Qed.

Lemma sink_only_ret {A} (a : A) : sink_only (ret a).
Proof. intros w. apply untouched_refl. Qed.

Lemma sink_only_throw {A} e : sink_only (@throw A e).
Proof. intros w. apply untouched_refl. Qed.

Lemma sink_only_gets {A} (f : World -> A) : sink_only (gets f).
Proof. intros w. apply untouched_refl. Qed.

Lemma sink_only_lift {A} (c : Completion A) : sink_only (lift c).
Proof. intros w. apply untouched_refl. Qed.

Lemma sink_only_bind {A B} (m : M A) (k : A -> M B) :
  sink_only m -> (forall a, sink_only (k a)) -> sink_only (bind m k).
Proof.
  intros Hm Hk w. specialize (Hm w). unfold exec, bind in *.
  destruct (m w) as [[a|e] w1]; cbn [snd] in *; [|done].
  eapply untouched_trans; [done|]. apply Hk.
Qed.

Lemma sink_only_modify (f : World -> World) :
  (forall w, untouched w (f w)) -> sink_only (modify f).
Proof. intros Hf w. apply Hf. Qed.

Ltac touch_nothing :=
  intros; apply sink_only_modify; intros w; destruct w;
  repeat split; cbn; try done; try apply prefix_app_r; done.

Lemma sink_only_consoleLog args : sink_only (Host.consoleLog args).
Proof. touch_nothing. Qed.

Lemma sink_only_consoleTable data : sink_only (Host.consoleTable data).
Proof. touch_nothing. Qed.

Lemma sink_only_addEventListener tg ty h c :
  sink_only (Host.addEventListener tg ty h c).
Proof. touch_nothing. Qed.

Lemma sink_only_clearTimeout i : sink_only (Host.clearTimeout i).
Proof. destruct i; [touch_nothing | apply sink_only_ret]. Qed.

Lemma sink_only_setTimeout cb ms : sink_only (Host.setTimeout cb ms).
Proof. intros w. by apply untouched_eq. Qed.

Lemma sink_only_getNode r : sink_only (Host.getNode r).
Proof.
  intros w. unfold exec, Host.getNode, Host.getPage, bind, gets. cbn.
  destruct (node_at (page w) r); apply untouched_refl.
Qed.

Lemma sink_only_export v : sink_only (Host.setGlobal "EventTracker" v).
Proof.
  apply sink_only_modify. intros w; destruct w. repeat split; cbn; try done.
  intros k Hk. by rewrite lookup_insert_ne.
Qed.

Lemma sink_only_set_inputTimeout x : sink_only (modify (set_inputTimeout x)).
Proof. touch_nothing. Qed.

Lemma sink_only_set_scrollTimeout x : sink_only (modify (set_scrollTimeout x)).
Proof. touch_nothing. Qed.

Lemma sink_only_set_lastScrollPosition x :
  sink_only (modify (set_lastScrollPosition x)).
Proof. touch_nothing. Qed.

Lemma sink_only_set_mouseTimeout x : sink_only (modify (set_mouseTimeout x)).
Proof. touch_nothing. Qed.

Lemma sink_only_set_lastMousePosition x :
  sink_only (modify (set_lastMousePosition x)).
Proof. touch_nothing. Qed.

Create HintDb frame.
#[local] Hint Resolve sink_only_ret sink_only_throw sink_only_gets
  sink_only_lift sink_only_consoleLog sink_only_consoleTable
  sink_only_addEventListener sink_only_clearTimeout sink_only_setTimeout
  sink_only_getNode sink_only_export sink_only_set_inputTimeout
  sink_only_set_scrollTimeout sink_only_set_lastScrollPosition
  sink_only_set_mouseTimeout sink_only_set_lastMousePosition : frame.

(** Walk through a script function, statement by statement. *)
Ltac frame :=
  repeat first
    [ assumption
    | solve [unfold Host.dateNow, Host.getPage; auto with frame]
    | match goal with
      | |- sink_only (if ?b then _ else _) => destruct b
      end
    | apply sink_only_bind; [|intros] ].

Lemma sink_only_trackPageView : sink_only trackPageView.
Proof. unfold trackPageView. frame. Qed.

Lemma sink_only_initializeTracker : sink_only initializeTracker.
Proof.
  unfold initializeTracker, setupClickTracking, setupFormTracking,
    setupInputTracking, setupScrollTracking, setupMouseTracking,
    setupKeyboardTracking, setupVisibilityTracking, setupNavigationTracking.
  pose proof sink_only_trackPageView. frame.
Qed.

Lemma sink_only_script : sink_only script.
Proof. unfold script. pose proof sink_only_initializeTracker. frame. Qed.

Lemma sink_only_trackCustomEvent eventName eventData :
  sink_only (trackCustomEvent eventName eventData).
Proof. unfold trackCustomEvent. frame. Qed.

Lemma sink_only_handle h e : sink_only (handle h e).
Proof.
  destruct h; cbn [handle];
    [ apply sink_only_initializeTracker
    | unfold clickListener | unfold submitListener | unfold inputListener
    | unfold scrollListener | unfold mouseMoveListener
    | unfold keyDownListener | unfold visibilityListener
    | unfold beforeUnloadListener ]; frame.
Qed.

Lemma sink_only_fire cb : sink_only (fire cb).
Proof.
  destruct cb; cbn [fire];
    [unfold inputCallback | unfold scrollCallback | unfold mouseCallback];
    frame.
Qed.

Lemma untouched_report m w : sink_only m -> untouched w (report m w).
Proof.
  intros Hm. specialize (Hm w). unfold report, exec in *.
  destruct (m w) as [[[]|e] w1]; cbn [snd] in *; [done|].
  eapply untouched_trans; [done|]. by apply untouched_eq.
Qed.

Lemma untouched_dispatch e w : untouched w (dispatch e w).
Proof.
  unfold dispatch. generalize (listeners w) as regs. intros regs. revert w.
  induction regs as [|reg regs IH]; intros w; [apply untouched_refl|].
  cbn [foldl]. eapply untouched_trans; [|apply IH].
  destruct (bool_decide _); [|apply untouched_refl].
  apply untouched_report, sink_only_handle.
Qed.

Lemma untouched_run_timers n limit w : untouched w (run_timers n limit w).
Proof.
  revert w. induction n as [|n IH]; intros w; [apply untouched_refl|].
  cbn [run_timers]. destruct (next_due limit (timers w)) as [t|];
    [|apply untouched_refl].
  eapply untouched_trans; [|apply IH].
  unfold fire_timer.
  eapply untouched_trans; [|apply untouched_report, sink_only_fire].
  by apply untouched_eq.
Qed.

Lemma untouched_advance limit w : untouched w (advance limit w).
Proof.
  unfold advance. eapply untouched_trans; [apply untouched_run_timers|].
  by apply untouched_eq.
Qed.

(** C8. Every operation of the tracker writes to the console only: the
    script itself, the initialisation, each listener on any event, each
    timer callback and the custom-event entry point leave the page, the
    storage, the network and every global other than [EventTracker] as
    they were, whether they return or throw; so do the dispatch of an
    event to the listeners and the running of the timers. *)
Theorem C8_the_tracker_writes_to_the_console_only :
  sink_only script
  /\ sink_only initializeTracker
  /\ (forall h e, sink_only (handle h e))
  /\ (forall cb, sink_only (fire cb))
  /\ (forall eventName eventData,
        sink_only (trackCustomEvent eventName eventData))
  /\ (forall e w, untouched w (dispatch e w))
  /\ (forall limit w, untouched w (advance limit w)).
Proof.
  split; [apply sink_only_script|].
  split; [apply sink_only_initializeTracker|].
  split; [apply sink_only_handle|].
  split; [apply sink_only_fire|].
  split; [apply sink_only_trackCustomEvent|].
  split; [apply untouched_dispatch | apply untouched_advance].
Qed.

(** The predicate tells scripts apart: the dark-mode toggle of the
    decorative script writes to the page and to the storage. *)
Lemma theme_toggle_is_not_sink_only : ~ sink_only Decor.themeToggleListener.
Proof.
  intros H. destruct (H (Sample.fresh 0 Sample.pg)) as (_ & Hs & _).
  apply (f_equal (fun m => m !! "theme")) in Hs. vm_compute in Hs.
  discriminate.
Qed.

End Frame.

(** * Further properties *)


(** Take a world apart, with fixed names for its fields. *)
Ltac open_world w :=
  destruct w as [w_now w_page w_console w_listeners w_timers w_next
                 w_uncaught w_input w_scroll w_last w_mouse w_lastmouse
                 w_globals w_storage w_network].

(** ** Structural locators, continued *)

Section MoreLocators.
Import Tracker More.

Lemma subtree_snoc (path : list nat) (pos : nat) : forall ts : list tree,
  path ≠ [] ->
  subtree ts (path ++ [pos])
  = match subtree ts path with
    | Some t => tree_children t !! pos
    | None => None
    end.
Proof.
  induction path as [|i rest IH]; intros ts Hne; [done|].
  cbn [app subtree]. destruct (ts !! i) as [t|]; [|by destruct (rest ++ [pos])].
  destruct rest as [|j rest].
  - cbn. by destruct (tree_children t !! pos).
  - rewrite <- IH by done. reflexivity.
Qed.

(** A node that has a place under [up] has a parent there, and the
    place is among the parent's children. *)
Lemma parent_of_node (pg : Page) (pos : nat) (up : ref) (n : Node) :
  up ≠ [] ->
  node_at pg (pos :: up) = Some n ->
  exists parent t,
    tree_at pg up = Some parent
    /\ tree_children parent !! pos = Some t /\ tree_node t = n.
Proof.
  intros Hup Hn. unfold node_at, tree_at in *. cbn [rev] in Hn.
  rewrite subtree_snoc in Hn.
  - destruct (subtree (roots pg) (rev up)) as [parent|]; [|done].
    destruct (tree_children parent !! pos) as [t|] eqn:Ht; [|done].
    exists parent, t. cbn in Hn. by injection Hn as ->.
  - intros H. apply Hup. apply (f_equal (@rev nat)) in H.
    by rewrite rev_involutive in H.
Qed.

(** The loop of [getXPath] in closed form: the index it stops with is
    the number of element siblings of the same tag before the element. *)
Lemma siblingIndex_count (tag : option string) (siblings : list tree) :
  forall (i pos index : nat),
    (i <= pos)%nat -> (pos - i < length siblings)%nat ->
    siblingIndex siblings i pos tag index
    = Some (index + earlier_same_tag tag (pos - i) siblings)%nat.
Proof.
  induction siblings as [|s rest IH]; intros i pos index Hi Hlen.
  - cbn in Hlen. lia.
  - cbn [siblingIndex]. destruct (i =? pos)%nat eqn:Heq.
    + apply Nat.eqb_eq in Heq. subst. rewrite Nat.sub_diag.
      unfold earlier_same_tag. cbn. by rewrite Nat.add_0_r.
    + apply Nat.eqb_neq in Heq. cbn [length] in Hlen.
      replace (pos - i)%nat with (S (pos - S i)) by lia.
      unfold earlier_same_tag. cbn [take]. rewrite filter_cons.
      fold (same_tag tag s). destruct (same_tag tag s) eqn:Hs.
      * rewrite decide_True by done. rewrite IH by lia.
        unfold earlier_same_tag. cbn [length]. f_equal. lia.
      * rewrite decide_False by (by intros ?). rewrite IH by lia. done.
Qed.

Lemma string_app_inv_head (a b c : string) : a +:+ b = a +:+ c -> b = c.
Proof.
  induction a as [|x a IH]; [done|].
  rewrite !app_String. intros [= H]. by apply IH.
Qed.

Lemma string_app_inv_tail1 (a b : string) (x : Ascii.ascii) :
  a +:+ String x "" = b +:+ String x "" -> a = b.
Proof.
  revert b. induction a as [|y a IH]; intros [|z b];
    rewrite ?app_String, ?app_Empty; try done.
  - intros [= -> H]. by destruct b.
  - intros [= -> H]. by destruct a.
  - intros [= -> H]. f_equal. by apply IH.
Qed.

Lemma string_app_assoc (a b c : string) : (a +:+ b) +:+ c = a +:+ (b +:+ c).
Proof. induction a as [|x a IH]; [done|]. by rewrite !app_String, IH. Qed.

Lemma prefix_app_l (p s t : string) :
  String.prefix p s = true -> String.prefix p (s +:+ t) = true.
Proof.
  rewrite !prefix_app. intros [post ->]. exists (post +:+ t).
  apply string_app_assoc.
Qed.

Lemma string_app_nil_r (s : string) : s +:+ "" = s.
Proof. induction s as [|c s IH]; [done|]. by rewrite app_String, IH. Qed.

Lemma prefix_refl (s : string) : String.prefix s s = true.
Proof. apply prefix_app. exists "". by rewrite string_app_nil_r. Qed.

Lemma truthy_empty (s : string) : Str.truthy s = false -> s = "".
Proof. by destruct s. Qed.

Lemma below_is_not_the_anchor (pos : nat) (rest anchor : list nat) :
  pos :: rest ++ anchor ≠ anchor.
Proof.
  intros H. apply (f_equal length) in H. cbn in H.
  rewrite length_app in H. lia.
Qed.

(** The positive side of [getXPath]: below [document.body] the function
    returns a string, which starts at the nearest node of the chain that
    has an id, or at the body when there is none. *)
Lemma getXPath_resolves (pg : Page) (steps : list nat) :
  is_Some (node_at pg (body pg)) ->
  element_chain pg steps (body pg) ->
  exists s, getXPath pg (steps ++ body pg) = Normal (Some s)
            /\ String.prefix (xpath_start pg steps (body pg)) s = true.
Proof.
  intros [b Hb] Hchain.
  assert (body pg ≠ []) as Hbody.
  { intros H. rewrite H in Hb. by rewrite node_at_nil in Hb. }
  induction steps as [|pos rest IH].
  - cbn [app]. unfold xpath_start, nearest_id. cbn [chain_ids].
    unfold id_at. rewrite Hb.
    destruct (body pg) as [|i up] eqn:Hbd; [done|].
    cbn [getXPath]. rewrite Hb. destruct (Str.truthy (id b)) eqn:Hid.
    + eexists. split; [done|].
      rewrite filter_cons, decide_True by (by intros E; rewrite E in Hid).
      cbn [head]. apply prefix_refl.
    + apply truthy_empty in Hid. rewrite Hid.
      rewrite Hbd, bool_decide_eq_true_2 by done. eexists. split; [done|].
      by rewrite filter_cons, decide_False by (by intros ?).
  - destruct Hchain as [(n & Hn & [tag Htag]) Hchain].
    destruct (IH Hchain) as (above & Habove & Hpre). clear IH.
    unfold xpath_start, nearest_id in *. cbn [chain_ids].
    unfold id_at at 1. rewrite Hn.
    cbn [app getXPath]. rewrite Hn. destruct (Str.truthy (id n)) eqn:Hid.
    { eexists. split; [done|].
      rewrite filter_cons, decide_True by (by intros E; rewrite E in Hid).
      cbn [head]. apply prefix_refl. }
    apply truthy_empty in Hid.
    rewrite filter_cons, decide_False by (by intros ?).
    rewrite bool_decide_eq_false_2 by apply below_is_not_the_anchor.
    destruct (parent_of_node pg pos (rest ++ body pg) n) as (parent & t & Hp & Ht & _);
      [by destruct rest|done|].
    rewrite Hp. apply lookup_lt_Some in Ht.
    rewrite siblingIndex_count by lia.
    rewrite Habove, Htag. eexists. split; [done|].
    cbn [xpath_to_string]. by apply prefix_app_l.
Qed.

(** X1. For [document.body] and every element below it (a chain of
    elements down from the body), [getXPath] returns a string.  The
    string starts with the id form of the nearest node that has an id,
    among the element, its ancestors up to the body and the body; when
    none of them has an id it starts with "/html/body". *)
Theorem X1_xpath_resolves_below_body (pg : Page) (steps : list nat) :
  is_Some (node_at pg (body pg)) ->
  element_chain pg steps (body pg) ->
  exists s, getXPath pg (steps ++ body pg) = Normal (Some s)
            /\ String.prefix
                 (match nearest_id pg steps (body pg) with
                  | Some i => "//*[@id=" +:+ Str.dquote +:+ i +:+ Str.dquote +:+ "]"
                  | None => "/html/body"
                  end) s = true.
Proof. apply getXPath_resolves. Qed.

Lemma X1_xpath_resolves_below_body_witness :
  nearest_id Sample.pg [0; 0]%nat Sample.bodyRef = Some "login"
  /\ exists s, getXPath Sample.pg Sample.userRef = Normal (Some s)
               /\ String.prefix
                    ("//*[@id=" +:+ Str.dquote +:+ "login" +:+ Str.dquote +:+ "]")
                    s = true.
Proof.
  split; [reflexivity|].
  apply (X1_xpath_resolves_below_body Sample.pg [0; 0]%nat).
  - by eexists.
  - cbn. repeat split; eexists; (split; [reflexivity | by eexists]).
Defined.

(** X2. Sibling disambiguation.  The step that [getXPath] adds for an
    element without id is its lower-cased tag name with, in brackets,
    one plus the number of element siblings of the same tag name before
    it; nodes of other kinds and other tags in between do not count.  So
    two element siblings of the same tag name get different paths. *)
Theorem X2_xpath_tells_same_tag_siblings_apart
    (pg : Page) (up : ref) (parent : tree) (above : option string)
    (p1 p2 : nat) (n1 n2 : Node) (tag : string) :
  tree_at pg up = Some parent ->
  getXPath pg up = Normal above ->
  (p1 < p2)%nat ->
  node_at pg (p1 :: up) = Some n1 -> node_at pg (p2 :: up) = Some n2 ->
  id n1 = "" -> id n2 = "" ->
  p1 :: up ≠ body pg -> p2 :: up ≠ body pg ->
  nodeType n1 = 1%nat ->
  tagName n1 = Some tag -> tagName n2 = Some tag ->
  let step p :=
    xpath_to_string above +:+ "/" +:+ Str.toLowerCase tag +:+ "["
    +:+ pretty (earlier_same_tag (Some tag) p (tree_children parent) + 1)%nat
    +:+ "]" in
  getXPath pg (p1 :: up) = Normal (Some (step p1))
  /\ getXPath pg (p2 :: up) = Normal (Some (step p2))
  /\ step p1 ≠ step p2.
Proof.
  intros Hp Hup Hlt Hn1 Hn2 Hid1 Hid2 Hb1 Hb2 Hty Ht1 Ht2 step.
  assert (up ≠ []) as Hne.
  { intros ->. by cbn in Hp. }
  destruct (parent_of_node pg p1 up n1 Hne Hn1) as (par1 & t1 & Hp1 & Hc1 & Hnode1).
  destruct (parent_of_node pg p2 up n2 Hne Hn2) as (par2 & t2 & Hp2 & Hc2 & _).
  rewrite Hp in Hp1, Hp2. injection Hp1 as <-. injection Hp2 as <-.
  pose proof (lookup_lt_Some _ _ _ Hc1) as Hl1.
  pose proof (lookup_lt_Some _ _ _ Hc2) as Hl2.
  split; [|split].
  - rewrite (getXPath_step pg p1 up n1 parent) by done.
    rewrite siblingIndex_count by lia. rewrite Hup, Ht1.
    by rewrite Nat.sub_0_r.
  - rewrite (getXPath_step pg p2 up n2 parent) by done.
    rewrite siblingIndex_count by lia. rewrite Hup, Ht2.
    by rewrite Nat.sub_0_r.
  - unfold step. intros H.
    repeat apply string_app_inv_head in H.
    apply string_app_inv_tail1 in H. apply (inj pretty) in H.
    assert (earlier_same_tag (Some tag) p1 (tree_children parent)
            < earlier_same_tag (Some tag) p2 (tree_children parent))%nat; [|lia].
    unfold earlier_same_tag.
    rewrite <- (take_drop p1 (take p2 (tree_children parent))).
    rewrite take_take, Nat.min_l by lia.
    rewrite filter_app, length_app.
    assert (drop p1 (take p2 (tree_children parent)) !! 0%nat = Some t1) as Hd.
    { rewrite lookup_drop, Nat.add_0_r, lookup_take_lt by lia. done. }
    destruct (drop p1 (take p2 (tree_children parent))) as [|t rest]; [done|].
    cbn in Hd. injection Hd as ->.
    rewrite filter_cons, decide_True; [cbn [length]; lia|].
    unfold same_tag. rewrite Hnode1, Hty, Ht1. cbn.
    by rewrite bool_decide_eq_true_2.
Qed.

Lemma X2_xpath_tells_same_tag_siblings_apart_witness :
  getXPath Sample.pg [1; 1; 1; 0; 0]%nat = Normal (Some "/html/body/div[1]/p[1]")
  /\ getXPath Sample.pg [2; 1; 1; 0; 0]%nat = Normal (Some "/html/body/div[1]/p[2]")
  /\ "/html/body/div[1]/p[1]" ≠ "/html/body/div[1]/p[2]".
Proof.
  pose proof (X2_xpath_tells_same_tag_siblings_apart Sample.pg Sample.divRef
                (Tree (Sample.element "DIV" "" "card  main")
                   [Tree (Sample.text "hello") [];
                    Tree (Sample.element "P" "" "") [];
                    Tree (Sample.element "P" "" "") []])
                (Some "/html/body/div[1]") 1 2
                (Sample.element "P" "" "") (Sample.element "P" "" "") "P") as H.
  by_evaluation H. exact H.
Defined.

End MoreLocators.

Section MoreSelectors.
Import Tracker More.




End MoreSelectors.

(** ** Strings and their code units *)

Section Characters.

Lemma code_byte (n : N) : (n < 256)%N -> Str.code (Str.byte n) = n.
Proof. apply Ascii.N_ascii_embedding. Qed.

Lemma low6_byte (n : N) : (n < 64)%N -> Str.low6 (Str.byte (128 + n)) = n.
Proof.
  intros Hn. unfold Str.low6. rewrite code_byte by lia.
  replace (128 + n)%N with (n + 2 * 64)%N by lia.
  rewrite N.Div0.mod_add. by apply N.mod_small.
Qed.

(** Decoding the bytes of one code unit gives the code unit back. *)
Lemma utf16_unit (u : N) (s : string) :
  (u < 65536)%N ->
  Str.utf16 (Str.encode_unit u +:+ s) = u :: Str.utf16 s.
Proof.
  intros Hu. unfold Str.encode_unit.
  destruct (N.ltb_spec u 128) as [H1|H1].
  { rewrite app_String, app_Empty. cbn [Str.utf16].
    rewrite code_byte by lia. by rewrite (proj2 (N.ltb_lt u 192)) by lia. }
  pose proof (N.div_mod u 64 ltac:(lia)) as D1.
  pose proof (N.mod_lt u 64 ltac:(lia)) as M1.
  destruct (N.ltb_spec u 2048) as [H2|H2].
  { rewrite !app_String, app_Empty. cbn [Str.utf16].
    assert (u / 64 < 32)%N as Hq by (apply N.Div0.div_lt_upper_bound; lia).
    rewrite code_byte by lia.
    rewrite (proj2 (N.ltb_ge (192 + u / 64) 192)) by lia.
    rewrite (proj2 (N.ltb_lt (192 + u / 64) 224)) by lia.
    rewrite low6_byte by done. f_equal. lia. }
  rewrite !app_String, app_Empty. cbn [Str.utf16].
  pose proof (N.div_mod (u / 64) 64 ltac:(lia)) as D2.
  pose proof (N.mod_lt (u / 64) 64 ltac:(lia)) as M2.
  assert (u / 4096 = u / 64 / 64)%N as Hdd
    by (by rewrite N.Div0.div_div).
  assert (u / 4096 < 16)%N as Hq by (apply N.Div0.div_lt_upper_bound; lia).
  rewrite code_byte by lia.
  rewrite (proj2 (N.ltb_ge (224 + u / 4096) 192)) by lia.
  rewrite (proj2 (N.ltb_ge (224 + u / 4096) 224)) by lia.
  rewrite (proj2 (N.ltb_lt (224 + u / 4096) 240)) by lia.
  rewrite !low6_byte by done. f_equal. lia.
Qed.

(** Decoding the four bytes of a surrogate pair gives the pair back. *)
Lemma utf16_pair (h l : N) (s : string) :
  Str.is_high h = true -> Str.is_low l = true ->
  Str.utf16 (Str.encode_pair h l +:+ s) = h :: l :: Str.utf16 s.
Proof.
  unfold Str.is_high, Str.is_low.
  intros [Hh1 Hh2]%andb_true_iff [Hl1 Hl2]%andb_true_iff.
  apply N.leb_le in Hh1, Hl1. apply N.ltb_lt in Hh2, Hl2.
  unfold Str.encode_pair.
  remember (65536 + (h - 55296) * 1024 + (l - 56320))%N as p eqn:Ep.
  rewrite !app_String, app_Empty. cbn [Str.utf16].
  replace (p / 4096)%N with (p / 64 / 64)%N by (by rewrite N.Div0.div_div).
  replace (p / 262144)%N with (p / 64 / 64 / 64)%N
    by (by rewrite !N.Div0.div_div).
  pose proof (N.div_mod p 64 ltac:(lia)) as D1.
  pose proof (N.mod_lt p 64 ltac:(lia)) as M1.
  pose proof (N.div_mod (p / 64) 64 ltac:(lia)) as D2.
  pose proof (N.mod_lt (p / 64) 64 ltac:(lia)) as M2.
  pose proof (N.div_mod (p / 64 / 64) 64 ltac:(lia)) as D3.
  pose proof (N.mod_lt (p / 64 / 64) 64 ltac:(lia)) as M3.
  remember (p mod 64)%N as r1 eqn:Er1. remember (p / 64)%N as q1 eqn:Eq1.
  remember (q1 mod 64)%N as r2 eqn:Er2. remember (q1 / 64)%N as q2 eqn:Eq2.
  remember (q2 mod 64)%N as r3 eqn:Er3. remember (q2 / 64)%N as q3 eqn:Eq3.
  clear Er1 Eq1 Er2 Eq2 Er3 Eq3.
  rewrite code_byte by lia.
  rewrite (proj2 (N.ltb_ge (240 + q3) 192)) by lia.
  rewrite (proj2 (N.ltb_ge (240 + q3) 224)) by lia.
  rewrite (proj2 (N.ltb_ge (240 + q3) 240)) by lia.
  rewrite !low6_byte by done.
  replace ((240 + q3 - 240) * 262144 + r3 * 4096 + r2 * 64 + r1)%N with p by lia.
  replace (p - 65536)%N with ((l - 56320) + (h - 55296) * 1024)%N by lia.
  rewrite N.div_add, N.Div0.mod_add by lia.
  rewrite N.div_small, N.mod_small by lia.
  f_equal; [lia|]. f_equal. lia.
Qed.

(** A string has the code units it was made of. *)
Lemma utf16_utf8 (us : list N) : More.units us -> Str.utf16 (Str.utf8 us) = us.
Proof.
  intros Hus.
  enough (Str.utf16 (Str.utf8 us) = us
          /\ forall u, (u < 65536)%N ->
               Str.utf16 (Str.utf8 (u :: us)) = u :: us) as [H _] by done.
  induction Hus as [|v rest Hv Hrest [IH1 IH2]].
  - split; [done|]. intros u Hu. cbn [Str.utf8].
    rewrite <- (string_app_nil_r (Str.encode_unit u)).
    by rewrite utf16_unit.
  - split; [by apply IH2|]. intros u Hu.
    change (Str.utf8 (u :: v :: rest))
      with (if Str.is_high u && Str.is_low v
            then Str.encode_pair u v +:+ Str.utf8 rest
            else Str.encode_unit u +:+ Str.utf8 (v :: rest)).
    destruct (Str.is_high u && Str.is_low v) eqn:Hpair.
    + apply andb_true_iff in Hpair as [Hh Hl].
      by rewrite utf16_pair, IH1.
    + by rewrite utf16_unit, IH2.
Qed.

Lemma utf8_nonempty (us : list N) : us ≠ [] -> Str.truthy (Str.utf8 us) = true.
Proof.
  destruct us as [|u rest]; [done|]. intros _.
  assert (forall s, Str.truthy (Str.encode_unit u +:+ s) = true) as Hunit.
  { intros s. unfold Str.encode_unit.
    by destruct (u <? 128)%N, (u <? 2048)%N. }
  destruct rest as [|v rest].
  - cbn [Str.utf8]. rewrite <- (string_app_nil_r (Str.encode_unit u)). apply Hunit.
  - change (Str.utf8 (u :: v :: rest))
      with (if Str.is_high u && Str.is_low v
            then Str.encode_pair u v +:+ Str.utf8 rest
            else Str.encode_unit u +:+ Str.utf8 (v :: rest)).
    by destruct (Str.is_high u && Str.is_low v).
Qed.

(** The test of [trim] and [\s] is membership in the list of the
    white-space characters. *)
Lemma is_white_spec (u : N) : Str.is_white u = true <-> u ∈ More.white_space.
Proof.
  unfold Str.is_white, More.white_space.
  rewrite !elem_of_cons, elem_of_nil.
  rewrite !orb_true_iff, !andb_true_iff, !N.eqb_eq, !N.leb_le. lia.
Qed.

Lemma is_white_false (u : N) : u ∉ More.white_space -> Str.is_white u = false.
Proof.
  intros H. destruct (Str.is_white u) eqn:E; [|done].
  by apply is_white_spec in E.
Qed.

Lemma white_units (us : list N) : More.white us -> More.units us.
Proof.
  intros H. eapply Forall_impl; [exact H|].
  intros u Hu. unfold More.white_space in Hu.
  rewrite !elem_of_cons, elem_of_nil in Hu. lia.
Qed.

(** [substring] on a string given by its code units. *)
Lemma substring_units (k : nat) (us : list N) :
  More.units us -> Str.substring 0 k (Str.utf8 us) = Str.utf8 (take k us).
Proof.
  intros Hus. unfold Str.substring. rewrite utf16_utf8 by done.
  by rewrite Nat.max_0_l, Nat.min_0_l, Nat.sub_0_r.
Qed.

End Characters.

(** ** Class names in the selector *)

Section ClassNames.
Import Tracker More.

Lemma trimStart_white (lead us : list N) :
  white lead -> Str.trimStart (lead ++ us) = Str.trimStart us.
Proof.
  induction 1 as [|u lead Hu _ IH]; [done|].
  cbn [app Str.trimStart]. by rewrite (proj2 (is_white_spec u)).
Qed.

Lemma trimStart_word (w us : list N) :
  word w -> Str.trimStart (w ++ us) = w ++ us.
Proof.
  intros (Hne & _ & Hw). destruct w as [|u w]; [done|].
  apply Forall_cons in Hw as [Hu _].
  cbn [app Str.trimStart]. by rewrite is_white_false.
Qed.

Lemma white_rev (us : list N) : white us -> white (rev us).
Proof. apply List.Forall_rev. Qed.

Lemma word_rev (w : list N) : word w -> word (rev w).
Proof.
  intros (Hne & Hu & Hw). split; [|split].
  - intros H. apply Hne. apply (f_equal (@rev N)) in H.
    by rewrite rev_involutive in H.
  - by apply List.Forall_rev.
  - by apply List.Forall_rev.
Qed.

(** The last class name of a spread. *)
Lemma spread_ends_with_a_word (w : list N) (rest : list (list N * list N)) :
  word w -> Forall (fun gw => word gw.2) rest ->
  exists front last, spread w rest = front ++ last /\ word last.
Proof.
  revert w. induction rest as [|[g w'] rest IH]; intros w Hw Hrest.
  - exists [], w. done.
  - apply Forall_cons in Hrest as [Hw' Hrest].
    destruct (IH w' Hw' Hrest) as (front & last & Heq & Hlast).
    exists (w ++ g ++ front), last. split; [|done].
    cbn [spread]. by rewrite Heq, <- !app_assoc.
Qed.

(** [trim] takes the white space before and after the class names away. *)
Lemma trim_spread (lead trail w : list N) (rest : list (list N * list N)) :
  white lead -> white trail ->
  word w -> Forall (fun gw => word gw.2) rest ->
  rev (Str.trimStart (rev (Str.trimStart (lead ++ spread w rest ++ trail))))
  = spread w rest.
Proof.
  intros Hlead Htrail Hw Hrest.
  rewrite trimStart_white by done.
  assert (Str.trimStart (spread w rest ++ trail) = spread w rest ++ trail) as ->.
  { destruct rest as [|[g w'] rest]; cbn [spread].
    - by apply trimStart_word.
    - rewrite <- !app_assoc. by apply trimStart_word. }
  destruct (spread_ends_with_a_word w rest Hw Hrest) as (front & last & -> & Hlast).
  rewrite !rev_app_distr.
  rewrite trimStart_white by (by apply white_rev).
  rewrite trimStart_word by (by apply word_rev).
  by rewrite rev_app_distr, !rev_involutive.
Qed.

Lemma split_word (w us cur : list N) (gp : bool) :
  word w ->
  Str.split_ws_from (w ++ us) cur gp = Str.split_ws_from us (cur ++ w) false.
Proof.
  intros (Hne & _ & Hw). revert cur gp.
  induction w as [|u w IH]; intros cur gp; [done|].
  apply Forall_cons in Hw as [Hu Hw].
  cbn [app Str.split_ws_from]. rewrite is_white_false by done.
  destruct w as [|u' w].
  - done.
  - rewrite IH by done. by rewrite <- app_assoc.
Qed.

Lemma split_space (g us cur : list N) :
  white g ->
  Str.split_ws_from (g ++ us) cur true = Str.split_ws_from us cur true.
Proof.
  induction 1 as [|u g Hu _ IH]; [done|].
  cbn [app Str.split_ws_from]. by rewrite (proj2 (is_white_spec u)).
Qed.

Lemma split_gap (g us cur : list N) :
  gap g ->
  Str.split_ws_from (g ++ us) cur false = cur :: Str.split_ws_from us [] true.
Proof.
  intros [Hne Hg]. destruct g as [|u g]; [done|].
  apply Forall_cons in Hg as [Hu Hg].
  cbn [app Str.split_ws_from]. rewrite (proj2 (is_white_spec u)) by done.
  by rewrite split_space.
Qed.

(** [split(/\s+/)] gives the class names back. *)
Lemma split_spread (w : list N) (rest : list (list N * list N)) (gp : bool) :
  word w -> Forall (fun gw => gap gw.1 /\ word gw.2) rest ->
  Str.split_ws_from (spread w rest) [] gp = w :: (snd <$> rest).
Proof.
  revert w gp. induction rest as [|[g w'] rest IH]; intros w gp Hw Hrest.
  - cbn [spread]. rewrite <- (app_nil_r w) at 1.
    by rewrite split_word.
  - apply Forall_cons in Hrest as [[Hg Hw'] Hrest].
    cbn [spread]. rewrite split_word by done. cbn [app].
    rewrite split_gap by done. by rewrite IH.
Qed.

Lemma spread_units (w : list N) (rest : list (list N * list N)) :
  word w -> Forall (fun gw => gap gw.1 /\ word gw.2) rest ->
  units (spread w rest).
Proof.
  revert w. induction rest as [|[g w'] rest IH]; intros w Hw Hrest.
  - apply Hw.
  - apply Forall_cons in Hrest as [[[_ Hg] Hw'] Hrest]. cbn [spread].
    apply Forall_app. split; [apply Hw|].
    apply Forall_app. split; [by apply white_units|by apply IH].
Qed.

(** X4. The class part of a selector step.  For a class attribute made
    of class names with white space before, between and after them, any
    of the white-space characters of JavaScript (the no-break space and
    the other Unicode spaces among them), the step is the lower-cased
    node name followed by a dot and the class names joined by dots; the
    white space leaves no trace.  The attribute and the class names are
    given by their UTF-16 code units. *)
Theorem X4_selector_step_joins_the_class_names
    (n : Node) (lead trail w : list N) (rest : list (list N * list N)) :
  className n = JStr (Str.utf8 (lead ++ spread w rest ++ trail)) ->
  white lead -> white trail ->
  word w -> Forall (fun gw => gap gw.1 /\ word gw.2) rest ->
  selectorOf n
  = Str.toLowerCase (nodeName n) +:+ "."
    +:+ Str.join "." (Str.utf8 <$> (w :: (snd <$> rest))).
Proof.
  intros Hc Hlead Htrail Hw Hrest. unfold selectorOf. rewrite Hc.
  assert (units (spread w rest)) as Hsp by (by apply spread_units).
  rewrite utf8_nonempty.
  2:{ destruct Hw as [Hne _]. destruct lead; [|done]. cbn [app].
      destruct rest as [|[g w'] rest]; cbn [spread]; by destruct w. }
  unfold Str.trim, Str.split_ws.
  rewrite (utf16_utf8 (lead ++ spread w rest ++ trail)).
  2:{ apply Forall_app. split; [by apply white_units|].
      apply Forall_app. split; [done|by apply white_units]. }
  rewrite trim_spread; [|done|done|done|].
  2:{ eapply Forall_impl; [done|]. by intros ? [? ?]. }
  by rewrite utf16_utf8, split_spread.
Qed.

Lemma X4_selector_step_joins_the_class_names_witness :
  selectorOf (Sample.element "DIV" "" (Str.utf8 [32; 97; 160; 8195; 98; 99; 9]%N))
  = "div.a.bc".
Proof.
  apply (X4_selector_step_joins_the_class_names
           (Sample.element "DIV" "" (Str.utf8 [32; 97; 160; 8195; 98; 99; 9]%N))
           [32]%N [9]%N [97]%N [([160; 8195]%N, [98; 99]%N)]).
  - reflexivity.
  - unfold white. apply (bool_decide_unpack _). vm_compute. reflexivity.
  - unfold white. apply (bool_decide_unpack _). vm_compute. reflexivity.
  - unfold word, units. apply (bool_decide_unpack _). vm_compute. reflexivity.
  - unfold gap, word, white, units. apply (bool_decide_unpack _).
    vm_compute. reflexivity.
Defined.

Lemma trimStart_ascii_space (c : string) :
  all_space c = true -> Str.trimStart (Str.utf16 c) = [].
Proof.
  induction c as [|a c IH]; [done|].
  cbn [all_space]. intros [Ha Hc]%andb_true_iff.
  unfold ascii_space in Ha. cbn [Str.utf16]. unfold Str.code.
  set (x := Ascii.N_of_ascii a) in *.
  apply orb_true_iff in Ha.
  rewrite andb_true_iff, N.eqb_eq, !N.leb_le in Ha.
  rewrite (proj2 (N.ltb_lt x 192)) by lia.
  cbn [Str.trimStart].
  assert (Str.is_white x = true) as ->; [|by apply IH].
  apply is_white_spec. unfold white_space.
  rewrite !elem_of_cons, elem_of_nil. lia.
Qed.

(** X5. A class attribute that holds white space only is a non-empty
    string, so the class part is added, with nothing after the dot: the
    step is the node name followed by a bare dot. *)
Theorem X5_blank_class_gives_a_bare_dot (n : Node) (c : string) :
  className n = JStr c -> c ≠ "" -> all_space c = true ->
  selectorOf n = Str.toLowerCase (nodeName n) +:+ ".".
Proof.
  intros Hc Hne Hsp. unfold selectorOf. rewrite Hc.
  rewrite truthy_nonempty by done.
  unfold Str.trim. rewrite (trimStart_ascii_space c) by done.
  reflexivity.
Qed.

Lemma X5_blank_class_gives_a_bare_dot_witness :
  selectorOf (Sample.element "DIV" "" "  ") = "div.".
Proof.
  apply (X5_blank_class_gives_a_bare_dot (Sample.element "DIV" "" "  ") "  ").
  - reflexivity.
  - discriminate.
  - reflexivity.
Defined.

End ClassNames.

(** ** The click record *)

Section MoreClicks.
Import Tracker Loop More.

Lemma clickListener_eq (w : World) (event : Event) (n : Node) :
  node_at (page w) (target event) = Some n ->
  clickListener event w
  = match getCSSSelector (page w) (target event) with
    | Throw e => (Throw e, w)
    | Normal css =>
        match getRelevantStyles (page w) (target event) with
        | Throw e => (Throw e, w)
        | Normal styles =>
            match getXPath (page w) (target event) with
            | Throw e => (Throw e, w)
            | Normal xpath =>
                (Normal tt,
                 set_console
                   (console w ++ clickRecord (now w) event n css styles xpath) w)
            end
        end
    end.
Proof.
  intros Hn. open_world w. cbn in Hn.
  unfold clickListener, Host.getNode. run_script. rewrite Hn. run_script.
  destruct (getCSSSelector w_page (target event)); [|done].
  destruct (getRelevantStyles w_page (target event)); [|done].
  destruct (getXPath w_page (target event)); [|done].
  run_script. by rewrite <- !app_assoc.
Qed.

(** X6. A click record is printed whole or not at all.  The listener
    computes the CSS selector, the styles and the XPath before its first
    console call: when the three are computed it prints the nine calls of
    the record, with the descriptor, the coordinates and the locators of
    the target; when one of them throws it leaves the host exactly as it
    was. *)
Theorem X6_click_record_is_all_or_nothing
    (w : World) (event : Event) (n : Node) :
  node_at (page w) (target event) = Some n ->
  exec (clickListener event) w
  = set_console (console w ++ clickOutput (page w) (now w) event n) w
  /\ (clickOutput (page w) (now w) event n = [] ->
      exec (clickListener event) w = w).
Proof.
  intros Hn. unfold exec, clickOutput. rewrite (clickListener_eq w event n Hn).
  destruct (getCSSSelector (page w) (target event)) as [css|e1];
    destruct (getRelevantStyles (page w) (target event)) as [styles|e2];
    destruct (getXPath (page w) (target event)) as [xpath|e3];
    cbn [snd]; (split; [|done]);
    try (open_world w; cbn; by rewrite app_nil_r).
  done.
Qed.

Lemma X6_click_record_is_all_or_nothing_witness :
  let w := Sample.fresh 5 Sample.pg in
  let click := clickEvent Sample.secondParRef 1 2 3 4 in
  exec (clickListener click) w
  = set_console
      (clickRecord 5 click (Sample.element "P" "" "")
         "html > body > div.card.main > p"
         (JObj [("display", JStr ""); ("position", JStr "");
                ("backgroundColor", JStr ""); ("color", JStr "");
                ("fontSize", JStr ""); ("fontWeight", JStr "");
                ("border", JStr ""); ("padding", JStr "");
                ("margin", JStr ""); ("width", JStr ""); ("height", JStr "")])
         (Some "/html/body/div[1]/p[2]")) w.
Proof.
  intros w click.
  destruct (X6_click_record_is_all_or_nothing w click (Sample.element "P" "" ""))
    as [H _].
  - reflexivity.
  - rewrite H. reflexivity.
Defined.

(** X7. The text of the clicked element in the record.  The third
    console call of a click record is the table of the descriptor.  A
    non-empty text is shown there as its first 50 UTF-16 code units
    followed by three dots, and the dots are added to a shorter text as
    well; an empty text is shown as N/A. *)
Theorem X7_click_text_is_cut_at_50
    (w : World) (event : Event) (n : Node)
    (css : string) (styles : JsValue) (xpath : option string) :
  node_at (page w) (target event) = Some n ->
  getCSSSelector (page w) (target event) = Normal css ->
  getRelevantStyles (page w) (target event) = Normal styles ->
  getXPath (page w) (target event) = Normal xpath ->
  let descriptor shown :=
    ConsoleTable
      (JObj [("tagName", tag_value n);
             ("id", str_or (id n) "N/A");
             ("className", js_or (className n) (JStr "N/A"));
             ("textContent", JStr shown);
             ("value", str_or (value n) "N/A");
             ("type", str_or (type n) "N/A");
             ("name", str_or (name n) "N/A")]) in
  let third := console (exec (clickListener event) w)
                 !! (length (console w) + 2)%nat in
  (textContent n = "" -> third = Some (descriptor "N/A"))
  /\ (forall us : list N,
        units us -> us ≠ [] -> textContent n = Str.utf8 us ->
        third = Some (descriptor (Str.utf8 (take 50 us) +:+ "..."))).
Proof.
  intros Hn Hcss Hst Hxp descriptor third.
  assert (third = Some (ConsoleTable (clickElementData n))) as ->.
  { unfold third, exec. rewrite (clickListener_eq w event n Hn), Hcss, Hst, Hxp.
    cbn [snd]. open_world w. cbn [console set_console].
    rewrite lookup_app_r by lia.
    by replace (length w_console + 2 - length w_console)%nat with 2%nat by lia. }
  unfold clickElementData, descriptor. split.
  - by intros ->.
  - intros us Hus Hne ->.
    by rewrite utf8_nonempty, substring_units.
Qed.

Lemma X7_click_text_is_cut_at_50_witness :
  let para :=
    mkNode 1 "P" (Some "P") "" (JStr "") (Str.utf8 (repeat 233%N 60))
      "" "" "" "" "" [] ∅ in
  let pg :=
    with_roots
      [Tree Sample.documentNode
         [Tree (Sample.element "HTML" "" "")
            [Tree (Sample.element "HEAD" "" "") [];
             Tree (Sample.element "BODY" "" "") [Tree para []]]]]
      Sample.pg in
  let click := clickEvent [0; 1; 0; 0]%nat 1 2 3 4 in
  console (exec (clickListener click) (Sample.fresh 0 pg))
    !! (length (console (Sample.fresh 0 pg)) + 2)%nat
  = Some (ConsoleTable
            (JObj [("tagName", tag_value para);
                   ("id", str_or (id para) "N/A");
                   ("className", js_or (className para) (JStr "N/A"));
                   ("textContent",
                     JStr (Str.utf8 (take 50 (repeat 233%N 60)) +:+ "..."));
                   ("value", str_or (value para) "N/A");
                   ("type", str_or (type para) "N/A");
                   ("name", str_or (name para) "N/A")]))
  /\ String.length (Str.utf8 (take 50 (repeat 233%N 60))) = 100%nat.
Proof.
  intros para pg click.
  pose proof (X7_click_text_is_cut_at_50 (Sample.fresh 0 pg) click para
                "html > body > p"
                (JObj [("display", JStr ""); ("position", JStr "");
                       ("backgroundColor", JStr ""); ("color", JStr "");
                       ("fontSize", JStr ""); ("fontWeight", JStr "");
                       ("border", JStr ""); ("padding", JStr "");
                       ("margin", JStr ""); ("width", JStr "");
                       ("height", JStr "")])
                (Some "/html/body/p[1]")) as H.
  by_evaluation H. cbv zeta in H. destruct H as [_ H].
  specialize (H (repeat 233%N 60)).
  assert (units (repeat 233%N 60)) as h1
    by (unfold units; apply (bool_decide_unpack _); vm_compute; reflexivity).
  assert (repeat 233%N 60 ≠ []) as h2 by discriminate.
  assert (textContent para = Str.utf8 (repeat 233%N 60)) as h3
    by (vm_compute; reflexivity).
  specialize (H h1 h2 h3). clear h1 h2 h3.
  split; [exact H|vm_compute; reflexivity].
Defined.

End MoreClicks.

(** ** Attaching the tracker *)

Section Attach.
Import Tracker Loop More.

Ltac unfold_script :=
  unfold script, initializeTracker, trackPageView,
    setupClickTracking, setupFormTracking, setupInputTracking,
    setupScrollTracking, setupMouseTracking, setupKeyboardTracking,
    setupVisibilityTracking, setupNavigationTracking.

Lemma initializeTracker_run (w : World) :
  initializeTracker w
  = (Normal tt,
     set_lastMousePosition (0, 0)
       (set_mouseTimeout None
          (set_lastScrollPosition (Fin 0)
             (set_scrollTimeout None
                (set_inputTimeout None
                   (set_listeners (listeners w ++ installed)
                      (set_console
                         (console w ++ greeting (now w) (page w)
                          ++ pageView (now w) (page w)) w))))))).
Proof.
  open_world w. unfold_script. run_script.
  rewrite <- !app_assoc. reflexivity.
Qed.

(** X8. Attaching to a document that has finished loading.  The script
    initialises at once: it prints the greeting, one page-view record and
    the ready note, in this order; it registers the eight listeners of
    the categories, after the listeners the page already had; it resets
    the closure variables and stores the [EventTracker] object.  No timer
    is set. *)
Theorem X8_attach_initialises_at_once (w : World) :
  readyState (page w) ≠ "loading" ->
  let w' := exec script w in
  result script w = Normal tt
  /\ console w'
     = console w ++ greeting (now w) (page w) ++ pageView (now w) (page w)
       ++ readyNote
  /\ listeners w' = listeners w ++ installed
  /\ globals w' = <["EventTracker" := exportedTracker]> (globals w)
  /\ timers w' = timers w
  /\ inputTimeout w' = None /\ scrollTimeout w' = None /\ mouseTimeout w' = None
  /\ lastScrollPosition w' = Fin 0 /\ lastMousePosition w' = (0, 0).
Proof.
  intros Hr. open_world w. cbn in Hr. unfold_script. run_script.
  rewrite bool_decide_eq_false_2 by done. run_script.
  rewrite <- !app_assoc. by repeat split.
Qed.

Lemma X8_attach_initialises_at_once_witness :
  let w := Sample.fresh 3 Sample.pg in
  console (exec script w)
  = greeting 3 Sample.pg ++ pageView 3 Sample.pg ++ readyNote
  /\ listeners (exec script w) = installed.
Proof.
  intros w.
  destruct (X8_attach_initialises_at_once w) as (_ & Hc & Hl & _).
  - discriminate.
  - split; [exact Hc | exact Hl].
Defined.

Lemma script_while_loading (w : World) :
  readyState (page w) = "loading" ->
  script w
  = (Normal tt,
     set_console (console w ++ readyNote)
       (set_globals (<["EventTracker" := exportedTracker]> (globals w))
          (set_listeners (listeners w ++ [whenReady]) w))).
Proof.
  intros Hr. open_world w. cbn in Hr. unfold script. run_script.
  rewrite bool_decide_eq_true_2 by done. run_script.
  by rewrite <- !app_assoc.
Qed.

Lemma report_initializeTracker (w : World) :
  console (report initializeTracker w)
  = console w ++ greeting (now w) (page w) ++ pageView (now w) (page w)
  /\ listeners (report initializeTracker w) = listeners w ++ installed.
Proof. unfold report. by rewrite initializeTracker_run. Qed.

(** X9. Attaching to a document that is still loading.  The script
    prints the ready note only and registers [initializeTracker] for
    DOMContentLoaded; the [EventTracker] object is stored already, with
    [initialized] true.  Until that event comes, no event of another type
    has any effect (on a page without other listeners); when it comes, the
    greeting and the page-view record are printed and the eight listeners
    are registered. *)
Theorem X9_attach_waits_for_the_document (w : World) :
  readyState (page w) = "loading" ->
  listeners w = [] ->
  let w' := exec script w in
  console w' = console w ++ readyNote
  /\ listeners w' = [whenReady]
  /\ globals w' = <["EventTracker" := exportedTracker]> (globals w)
  /\ (forall e, ev_type e ≠ "DOMContentLoaded" -> dispatch e w' = w')
  /\ (forall e, ev_type e = "DOMContentLoaded" ->
        console (dispatch e w')
        = console w' ++ greeting (now w) (page w) ++ pageView (now w) (page w)
        /\ listeners (dispatch e w') = whenReady :: installed).
Proof.
  intros Hr Hl w'. subst w'. unfold exec.
  rewrite (script_while_loading w Hr). cbn [snd].
  set (w' := set_console _ _).
  assert (listeners w' = [whenReady]) as Hl' by (subst w'; cbn; by rewrite Hl).
  split; [done|]. split; [done|]. split; [done|]. split.
  - intros e He. unfold dispatch. rewrite Hl'. cbn [foldl reg_type whenReady].
    by rewrite bool_decide_eq_false_2.
  - intros e He. unfold dispatch. rewrite Hl'.
    cbn [foldl reg_type reg_handler whenReady handle].
    rewrite bool_decide_eq_true_2 by done.
    destruct (report_initializeTracker w') as [Hc Hli].
    rewrite Hc, Hli, Hl'. done.
Qed.

Lemma X9_attach_waits_for_the_document_witness :
  let loading :=
    mkPage Sample.dom Sample.bodyRef "loading" false "https://example.org/" "/"
      "Example" "" "UA" 800 600 1920 1080 0 0 1600 0 in
  let w' := exec script (Sample.fresh 3 loading) in
  console w' = readyNote
  /\ dispatch (plainEvent "click" Sample.divRef) w' = w'
  /\ listeners (dispatch (plainEvent "DOMContentLoaded" Sample.documentRef) w')
     = whenReady :: installed.
Proof.
  intros loading w'.
  destruct (X9_attach_waits_for_the_document (Sample.fresh 3 loading))
    as (Hc & _ & _ & Hno & Hyes).
  - reflexivity.
  - reflexivity.
  - split; [exact Hc|]. split.
    + apply Hno. discriminate.
    + apply Hyes. reflexivity.
Defined.

End Attach.

(** ** Form fields, continued *)

Section MoreForms.
Import Tracker Loop More.

Lemma lastEntry_Some key v entries :
  (key, v) ∈ entries -> is_Some (Output.lastEntry key entries).
Proof.
  induction entries as [|[k v'] rest IH]; [by intros ?%elem_of_nil|].
  intros [Heq|Hin]%elem_of_cons; cbn [Output.lastEntry].
  - injection Heq as <- <-. destruct (Output.lastEntry key rest); [by eexists|].
    rewrite decide_True by done. by eexists.
  - destruct (IH Hin) as [x ->]. by eexists.
Qed.

Lemma lastEntry_names key entries :
  is_Some (Output.lastEntry key entries) <-> key ∈ names entries.
Proof.
  unfold names. induction entries as [|[k v] rest IH]; cbn [Output.lastEntry fmap list_fmap].
  - split; [by intros [? ?]|by intros ?%elem_of_nil].
  - rewrite elem_of_cons, <- IH. cbn [fst].
    destruct (Output.lastEntry key rest) as [x|].
    + split; [intros _; right|]; by eexists.
    + destruct (decide (k = key)) as [->|Hne].
      * split; [by left|by eexists].
      * split; [by intros [? ?]|]. intros [->|[? ?]]; done.
Qed.

(** X10. The masking law in words.  A field whose name has the letters
    of "password" somewhere in it, in any mix of upper and lower case, is
    printed as the mask by the submit listener, whatever its value is. *)
Theorem X10_password_named_fields_are_masked
    (w : World) (event : Event) (n : Node) (pre mid post : string) (v : JsValue) :
  node_at (page w) (target event) = Some n ->
  tagName n = Some "FORM" ->
  Str.toLowerCase mid = "password" ->
  (pre +:+ mid +:+ post, v) ∈ formEntries n ->
  submitListener event w
  = (Normal tt,
     set_console
       (console w
        ++ Output.formSubmit (target event) n (collectFields (formEntries n)))
       w)
  /\ collectFields (formEntries n) !! (pre +:+ mid +:+ post) = Some (JStr MASK).
Proof.
  intros Hn Htag Hmid Hin. split; [by apply submitListener_eq|].
  assert (isPasswordName (pre +:+ mid +:+ post) = true) as Hpw.
  { apply isPasswordName_spec. by exists pre, mid, post. }
  rewrite collectFields_lookup.
  - destruct (lastEntry_Some _ _ _ Hin) as [x ->]. cbn.
    unfold Output.shown. by rewrite Hpw.
  - intros Heq. rewrite Heq in Hpw. by vm_compute in Hpw.
Qed.

Lemma X10_password_named_fields_are_masked_witness :
  collectFields (formEntries Sample.loginForm) !! "password" = Some (JStr MASK).
Proof.
  destruct (X10_password_named_fields_are_masked (Sample.fresh 0 Sample.pg)
              (plainEvent "submit" Sample.formRef) Sample.loginForm
              "" "password" "" (JStr "secret")) as [_ H].
  - reflexivity.
  - reflexivity.
  - reflexivity.
  - cbn. apply list_elem_of_further, list_elem_of_here.
  - exact H.
Defined.

Lemma collect_no_proto entries : forall own : gmap string JsValue,
  own !! "__proto__" = None ->
  foldl (fun formValues '(key, value) =>
           if isPasswordName key
           then dict_set key (JStr MASK) formValues
           else dict_set key value formValues) own entries !! "__proto__" = None.
Proof.
  induction entries as [|[key value] rest IH]; intros own Hown; [done|].
  cbn [foldl]. apply IH. unfold dict_set.
  destruct (isPasswordName key); destruct (decide (key = "__proto__")); try done;
    by rewrite lookup_insert_ne.
Qed.

(** X11. The names of the fields map.  The map the submit listener
    prints has an entry for exactly the names of the form's entries, other
    than ["__proto__"]: no name is invented, and no other name is lost,
    however often a name is repeated. *)
Theorem X11_fields_map_has_the_names_of_the_form
    (entries : list (string * JsValue)) :
  dom (collectFields entries) = list_to_set (names entries) ∖ {["__proto__"]}.
Proof.
  apply set_eq. intros key.
  rewrite elem_of_dom, elem_of_difference, elem_of_list_to_set, elem_of_singleton.
  destruct (decide (key = "__proto__")) as [->|Hne].
  - unfold collectFields. rewrite collect_no_proto by done.
    split; [by intros [? ?]|by intros [_ ?]].
  - rewrite collectFields_lookup by done. rewrite <- lastEntry_names.
    rewrite fmap_is_Some. split; [by intros ?; split | by intros [? _]].
Qed.




End MoreForms.

(** ** Passwords typed into a control *)

Section MoreInput.
Import Tracker Loop More.

Lemma last_fmap {A B} (f : A -> B) (l : list A) (d : A) :
  List.last (f <$> l) (f d) = f (List.last l d).
Proof.
  revert d. induction l as [|x l IH]; intros d; [done|].
  cbn [fmap list_fmap]. rewrite !last_cons_default. apply IH.
Qed.

Lemma spaced_times (field : ref) (m : list (Z * string * string)) : forall t0,
  spaced 500 t0 (first_run field m) <-> spaced 500 t0 (second_run field m).
Proof.
  induction m as [|[[t v] v'] m IH]; intros t0; [done|].
  cbn [first_run second_run fmap list_fmap spaced fst snd].
  unfold first_run, second_run in IH. by rewrite IH.
Qed.

(** X13. The INPUT CHANGE records do not show what is typed into a
    password control.  Two bursts of input events on one control of type
    password, made at the same times with different values, leave the
    same console behind, at every later time.  (This is about the input
    listener alone: a click on the control prints its value.) *)
Theorem X13_input_records_hide_typed_passwords
    (w : World) (field : ref) (n : Node)
    (t1 : Z) (v1 v1' : string) (m : list (Z * string * string)) (T : Z) :
  listeners w = installed -> timers w = [] -> now w <= t1 ->
  node_at (page w) field = Some n ->
  type n = "password" ->
  spaced 500 t1 (first_run field m) ->
  console (advance T (run (edits ((t1, field, v1) :: first_run field m)) w))
  = console (advance T (run (edits ((t1, field, v1') :: second_run field m)) w)).
Proof.
  intros Hl Ht Hnow Hn Hty Hs.
  pose proof (burst_console w t1 field v1 (first_run field m) n T Hl Ht Hnow Hs) as H1.
  pose proof (burst_console w t1 field v1' (second_run field m) n T Hl Ht Hnow
                (proj1 (spaced_times field m t1) Hs)) as H2.
  cbv zeta in H1, H2. unfold first_run, second_run in *.
  change (t1, field, v1) with ((fun e : Z * string * string => (e.1.1, field, e.1.2)) (t1, v1, v1')) in H1.
  change (t1, field, v1') with ((fun e : Z * string * string => (e.1.1, field, e.2)) (t1, v1, v1')) in H2.
  rewrite last_fmap in H1, H2.
  destruct (List.last m (t1, v1, v1')) as [[tN vN] vN'].
  cbn [fst snd] in H1, H2.
  destruct (H1 Hn) as [_ ->]. destruct (H2 Hn) as [_ ->].
  destruct (tN + 500 <=? T); [|done]. f_equal.
  unfold Output.inputFired, isFormControl, Output.inputChange, Output.inputTable,
    Output.tag_of.
  cbn [tagName type set_value id name value]. rewrite Hty. reflexivity.
Qed.

Lemma X13_input_records_hide_typed_passwords_witness :
  let w := Sample.started 0 Sample.pg in
  console
    (advance 5000
       (run (edits [(10, Sample.passRef, "h"); (100, Sample.passRef, "hu")]) w))
  = console
      (advance 5000
         (run (edits [(10, Sample.passRef, "x"); (100, Sample.passRef, "xyz")]) w)).
Proof.
  intros w.
  pose proof (X13_input_records_hide_typed_passwords w Sample.passRef
                (Sample.control "INPUT" "password" "password" "secret")
                10 "h" "x" [(100, "hu", "xyz")] 5000) as H.
  by_evaluation H. exact H.
Defined.

End MoreInput.

(** ** Leaving the page *)

Section Unload.
Import Tracker Loop More.

(** X14. The page-exit record.  On the unload signal the listener
    prints one record whose time on the page is a whole number of
    seconds, the one nearest to the time since navigation started: it is
    off by half a second at most, and a half is rounded up. *)
Theorem X14_time_on_page_is_rounded_to_seconds (w : World) (e : Event) :
  exists seconds,
    beforeUnloadListener e w
    = (Normal tt,
       set_console (console w ++ pageExit (now w) seconds (page w)) w)
    /\ 1000 * seconds - 500
       <= now w - navigationStart (page w)
       < 1000 * seconds + 500.
Proof.
  exists (Num.round_div_1000 (now w - navigationStart (page w))). split.
  - open_world w. unfold beforeUnloadListener. run_script.
    by rewrite <- !app_assoc.
  - unfold Num.round_div_1000.
    pose proof (Z.div_mod (2 * (now w - navigationStart (page w)) + 1000) 2000).
    pose proof (Z.mod_pos_bound (2 * (now w - navigationStart (page w)) + 1000) 2000).
    lia.
Qed.

End Unload.

(** ** The scroll percentage *)

Section Percentage.
Import Tracker Loop More.

(** The percentages of some offsets on a page with 1000 pixels to
    scroll.  The quotient is rounded before it is multiplied: at 145 the
    product is just below 14.5 and the percentage is 14. *)
Example percentage_in_double_precision :
  Num.percentage 500 1000 = Fin 50
  /\ Num.percentage 145 1000 = Fin 14
  /\ Num.percentage 285 1000 = Fin 28
  /\ Num.percentage 565 1000 = Fin 56
  /\ Num.percentage 575 1000 = Fin 57
  /\ Num.percentage 5 1000 = Fin 1
  /\ Num.percentage 1 3 = Fin 33
  /\ Num.percentage 7 0 = PInf
  /\ Num.percentage 0 0 = NaN.
Proof. vm_compute. repeat split. Qed.

(** X16. A page that cannot scroll.  When the document is exactly as
    high as the window and the offset is 0, the percentage is 0/0, not a
    number, and the callback never prints a record nor changes anything,
    whatever the last recorded percentage is. *)
Theorem X16_no_record_on_a_page_that_cannot_scroll (w : World) :
  docScrollHeight (page w) = innerHeight (page w) ->
  scrollTopOf (page w) = 0 ->
  scrollPercentageOf (page w) = NaN
  /\ scrollCallback w = (Normal tt, w).
Proof.
  intros Hh Htop.
  assert (scrollPercentageOf (page w) = NaN) as Hnan.
  { unfold scrollPercentageOf, Num.percentage.
    by rewrite Htop, Hh, Z.sub_diag. }
  split; [done|].
  rewrite scrollCallback_eq. cbv zeta. rewrite Hnan.
  unfold changedSignificantly. by destruct (lastScrollPosition w).
Qed.

Lemma X16_no_record_on_a_page_that_cannot_scroll_witness :
  let flat :=
    mkPage Sample.dom Sample.bodyRef "complete" false "https://example.org/" "/"
      "Example" "" "UA" 800 600 1920 1080 0 0 600 0 in
  scrollCallback (Sample.fresh 0 flat) = (Normal tt, Sample.fresh 0 flat).
Proof.
  intros flat.
  destruct (X16_no_record_on_a_page_that_cannot_scroll (Sample.fresh 0 flat))
    as [_ H].
  - reflexivity.
  - reflexivity.
  - exact H.
Defined.

End Percentage.

(** ** Mouse movement *)

Section Mouse.
Import Tracker Loop More.

(** The mouse callback, in one equation.  The last position is
    overwritten before the target of the event is read. *)
Lemma mouseCallback_eq (w : World) (event : Event) :
  mouseCallback event w
  = if 10000 <? dist2 (clientX event, clientY event) (lastMousePosition w)
    then
      match node_at (page w) (target event) with
      | Some n =>
          (Normal tt,
           set_console (console w ++ mouseMove (now w) event n)
             (set_lastMousePosition (clientX event, clientY event) w))
      | None =>
          (Throw (TypeError "Cannot read properties of null"),
           set_lastMousePosition (clientX event, clientY event) w)
      end
    else (Normal tt, w).
Proof.
  open_world w. unfold mouseCallback, Host.getNode, farther_than_100, dist2.
  run_script. destruct (10000 <? _); [|done]. run_script.
  destruct (node_at w_page (target event)); run_script; [|done].
  by rewrite <- !app_assoc.
Qed.

Lemma mouseRecorded_far (event : Event) (w : World) :
  mouseRecorded event w ->
  10000 < dist2 (clientX event, clientY event) (lastMousePosition w).
Proof.
  unfold mouseRecorded, exec. rewrite mouseCallback_eq.
  destruct (10000 <? _) eqn:Hd; [by intros _; apply Z.ltb_lt|].
  cbn [snd]. done.
Qed.

(** X17. The mouse gate.  The callback prints a record only when the
    pointer is more than 100 pixels away from the last recorded position,
    and then that position becomes the pointer's; the position is (0, 0)
    at first.  So of two consecutive samples that are at most 100 pixels
    apart, at most one is recorded. *)
Theorem X17_mouse_samples_are_100_pixels_apart (w : World) (e1 e2 : Event) :
  dist2 (clientX e2, clientY e2) (clientX e1, clientY e1) <= 10000 ->
  (mouseRecorded e1 w ->
   10000 < dist2 (clientX e1, clientY e1) (lastMousePosition w)
   /\ lastMousePosition (exec (mouseCallback e1) w) = (clientX e1, clientY e1))
  /\ (~ mouseRecorded e1 w -> is_Some (node_at (page w) (target e1)) ->
      exec (mouseCallback e1) w = w)
  /\ ~ (mouseRecorded e1 w /\ mouseRecorded e2 (exec (mouseCallback e1) w))
  /\ (forall w0, lastMousePosition (exec setupMouseTracking w0) = (0, 0)).
Proof.
  intros Hclose.
  assert (mouseRecorded e1 w ->
          lastMousePosition (exec (mouseCallback e1) w) = (clientX e1, clientY e1))
    as Hlast.
  { intros Hrec. pose proof (mouseRecorded_far _ _ Hrec) as Hfar.
    apply Z.ltb_lt in Hfar. unfold exec. rewrite mouseCallback_eq, Hfar.
    by destruct (node_at (page w) (target e1)). }
  split; [|split; [|split]].
  - intros Hrec. split; [by apply mouseRecorded_far|by apply Hlast].
  - intros Hno [n Hn]. unfold mouseRecorded, exec in *.
    rewrite mouseCallback_eq, Hn in *.
    destruct (10000 <? _); [|done]. exfalso. apply Hno. cbn [snd].
    open_world w. cbn [console set_console set_lastMousePosition].
    intros H. apply (f_equal length) in H. rewrite length_app in H.
    cbn in H. lia.
  - intros [H1 H2]. apply mouseRecorded_far in H2.
    rewrite (Hlast H1) in H2. lia.
  - intros w0. reflexivity.
Qed.

Lemma X17_mouse_samples_are_100_pixels_apart_witness :
  let w := Sample.started 0 Sample.pg in
  let e1 := mkEvent "mousemove" Sample.divRef 300 400 0 0 "" "" false false false in
  let e2 := mkEvent "mousemove" Sample.divRef 360 480 0 0 "" "" false false false in
  ~ (mouseRecorded e1 w /\ mouseRecorded e2 (exec (mouseCallback e1) w)).
Proof.
  intros w e1 e2.
  destruct (X17_mouse_samples_are_100_pixels_apart w e1 e2) as (_ & _ & H & _).
  - vm_compute. discriminate.
  - exact H.
Defined.

End Mouse.

(** ** The timers of the three debounced categories *)

Section Schedule.
Import Tracker Loop More.

Lemma same_schedule_refl w : same_schedule w w.
Proof. by repeat split. Qed.

Lemma same_schedule_trans w1 w2 w3 :
  same_schedule w1 w2 -> same_schedule w2 w3 -> same_schedule w1 w3.
Proof.
  intros (? & ? & ? & ? & ? & ?) (? & ? & ? & ? & ? & ?).
  repeat split; congruence.
Qed.

Lemma keeps_ret {A} (a : A) : keeps_schedule (ret a).
Proof. intros w. apply same_schedule_refl. Qed.

Lemma keeps_throw {A} e : keeps_schedule (@throw A e).
Proof. intros w. apply same_schedule_refl. Qed.

Lemma keeps_gets {A} (f : World -> A) : keeps_schedule (gets f).
Proof. intros w. apply same_schedule_refl. Qed.

Lemma keeps_lift {A} (c : Completion A) : keeps_schedule (lift c).
Proof. intros w. apply same_schedule_refl. Qed.

Lemma keeps_bind {A B} (m : M A) (k : A -> M B) :
  keeps_schedule m -> (forall a, keeps_schedule (k a)) ->
  keeps_schedule (bind m k).
Proof.
  intros Hm Hk w. specialize (Hm w). unfold exec, bind in *.
  destruct (m w) as [[a|e] w1]; cbn [snd] in *; [|done].
  eapply same_schedule_trans; [done|]. apply Hk.
Qed.

Lemma keeps_consoleLog args : keeps_schedule (Host.consoleLog args).
Proof. intros w. by repeat split. Qed.

Lemma keeps_consoleTable data : keeps_schedule (Host.consoleTable data).
Proof. intros w. by repeat split. Qed.

Lemma keeps_getNode r : keeps_schedule (Host.getNode r).
Proof.
  intros w. unfold exec, Host.getNode, Host.getPage, bind, gets. cbn.
  destruct (node_at (page w) r); apply same_schedule_refl.
Qed.

Lemma keeps_set_lastScrollPosition x :
  keeps_schedule (modify (set_lastScrollPosition x)).
Proof. intros w. by repeat split. Qed.

Lemma keeps_set_lastMousePosition x :
  keeps_schedule (modify (set_lastMousePosition x)).
Proof. intros w. by repeat split. Qed.

Create HintDb schedule.
#[local] Hint Resolve keeps_ret keeps_throw keeps_gets keeps_lift
  keeps_consoleLog keeps_consoleTable keeps_getNode
  keeps_set_lastScrollPosition keeps_set_lastMousePosition : schedule.

Ltac keeps :=
  repeat first
    [ solve [unfold Host.dateNow, Host.getPage; auto with schedule]
    | match goal with
      | |- keeps_schedule (if ?b then _ else _) => destruct b
      end
    | apply keeps_bind; [|intros] ].

(** The listeners without a timer, and the three callbacks, leave the
    listeners and the timers as they are. *)
Lemma keeps_plain_handlers h e :
  h ≠ InitializeTracker -> h ≠ InputListener -> h ≠ ScrollListener ->
  h ≠ MouseMoveListener ->
  keeps_schedule (handle h e).
Proof.
  intros H1 H2 H3 H4. destruct h; try done; cbn [handle].
  - unfold clickListener. keeps.
  - unfold submitListener. keeps.
  - unfold keyDownListener. keeps.
Qed.

Lemma keeps_fire cb : keeps_schedule (fire cb).
Proof.
  destruct cb; cbn [fire];
    [unfold inputCallback | unfold scrollCallback | unfold mouseCallback];
    keeps.
Qed.

Lemma same_schedule_report m w :
  keeps_schedule m -> same_schedule w (report m w).
Proof.
  intros Hm. specialize (Hm w). unfold report, exec in *.
  destruct (m w) as [[[]|e] w1]; cbn [snd] in *; [done|].
  eapply same_schedule_trans; [done|]. by repeat split.
Qed.

Lemma slot_of_same cb w w' :
  same_schedule w w' -> slot_of cb w' = slot_of cb w.
Proof. intros (_ & _ & _ & ? & ? & ?). by destruct cb. Qed.

Lemma tidy_same w w' : same_schedule w w' -> tidy w -> tidy w'.
Proof.
  intros Hs (Hl & Hslot & Hnd & Hlt & Hdis).
  pose proof (fun cb => slot_of_same cb w w' Hs) as Hso.
  destruct Hs as (Hl' & Ht' & Hn' & _).
  unfold tidy. rewrite Hl', Ht', Hn'. repeat split; try done.
  - intros t Ht. rewrite Hso. by apply Hslot.
  - intros cb i. rewrite Hso. apply Hlt.
  - intros cb1 cb2 i. rewrite !Hso. apply Hdis.
Qed.

Lemma slot_of_category cb1 cb2 w :
  category cb1 = category cb2 -> slot_of cb1 w = slot_of cb2 w.
Proof. by destruct cb1, cb2. Qed.

(** Setting a timer anew in one category: the timer the category's
    variable names is cleared, a timer with a fresh id is added and the
    variable names it. *)
Lemma tidy_rearmed (w w' : World) (cb : Callback) (d : Z) :
  tidy w ->
  listeners w' = listeners w ->
  timers w'
  = filter (fun t => Some (timer_id t) ≠ slot_of cb w) (timers w)
    ++ [mkTimer (nextTimerId w) d cb] ->
  nextTimerId w' = S (nextTimerId w) ->
  slot_of cb w' = Some (nextTimerId w) ->
  (forall cb', category cb' ≠ category cb -> slot_of cb' w' = slot_of cb' w) ->
  tidy w'.
Proof.
  intros (Hl & Hslot & Hnd & Hlt & Hdis) Hl' Ht' Hn' Hnew Hother.
  assert (forall cb', category cb' = category cb ->
                      slot_of cb' w' = Some (nextTimerId w)) as Hsame.
  { intros cb' Hc. by rewrite (slot_of_category cb' cb). }
  assert (forall t, t ∈ timers w -> (timer_id t < nextTimerId w)%nat) as Hold.
  { intros t Ht. eapply Hlt. by apply Hslot. }
  unfold tidy. rewrite Hl', Ht', Hn'. repeat split; try done.
  - intros t [[Hp Ht]%list_elem_of_filter | ->%list_elem_of_singleton]%elem_of_app.
    + destruct (decide (category (callback t) = category cb)) as [Hc|Hc].
      * exfalso. apply Hp. rewrite <- (slot_of_category _ _ w Hc).
        symmetry. by apply Hslot.
      * rewrite Hother by done. by apply Hslot.
    + done.
  - rewrite fmap_app. apply NoDup_app. split; [|split].
    + eapply sublist_NoDup; [exact Hnd|]. apply fmap_sublist, sublist_filter.
    + intros i (t & Hi & [_ Ht]%list_elem_of_filter)%list_elem_of_fmap
        Hn%list_elem_of_singleton.
      cbn in Hn. specialize (Hold t Ht). lia.
    + apply NoDup_singleton.
  - intros cb' i Hi.
    destruct (decide (category cb' = category cb)) as [Hc|Hc].
    + rewrite Hsame in Hi by done. injection Hi as <-. lia.
    + rewrite Hother in Hi by done. specialize (Hlt cb' i Hi). lia.
  - intros cb1 cb2 i H1 H2.
    destruct (decide (category cb1 = category cb)) as [Hc1|Hc1],
             (decide (category cb2 = category cb)) as [Hc2|Hc2].
    + congruence.
    + rewrite Hsame in H1 by done. rewrite Hother in H2 by done.
      injection H1 as <-. specialize (Hlt cb2 _ H2). lia.
    + rewrite Hsame in H2 by done. rewrite Hother in H1 by done.
      injection H2 as <-. specialize (Hlt cb1 _ H1). lia.
    + rewrite Hother in H1, H2 by done. by eapply Hdis.
Qed.

Lemma filter_cleared (old : option nat) (ts : list Timer) :
  match old with
  | None => ts
  | Some i => filter (fun t => timer_id t ≠ i) ts
  end
  = filter (fun t => Some (timer_id t) ≠ old) ts.
Proof.
  destruct old as [i|].
  - apply list_filter_iff. intros t. split; [congruence|].
    intros H Heq. apply H. by rewrite Heq.
  - symmetry. induction ts as [|t ts IH]; [done|].
    rewrite filter_cons, decide_True by done. by rewrite IH.
Qed.

(** The three listeners with a timer, each in one equation. *)
Lemma inputListener_eq (w : World) (e : Event) :
  report (inputListener e) w
  = set_inputTimeout (Some (nextTimerId w))
      (set_nextTimerId (S (nextTimerId w))
         (set_timers
            (filter (fun t => Some (timer_id t) ≠ inputTimeout w) (timers w)
             ++ [mkTimer (nextTimerId w) (now w + 500) (InputCallback e)]) w)).
Proof.
  open_world w. unfold report, inputListener. cbn [inputTimeout timers nextTimerId now].
  rewrite <- filter_cleared. by destruct w_input.
Qed.

Lemma scrollListener_eq (w : World) (e : Event) :
  report (scrollListener e) w
  = set_scrollTimeout (Some (nextTimerId w))
      (set_nextTimerId (S (nextTimerId w))
         (set_timers
            (filter (fun t => Some (timer_id t) ≠ scrollTimeout w) (timers w)
             ++ [mkTimer (nextTimerId w) (now w + 200) ScrollCallback]) w)).
Proof.
  open_world w. unfold report, scrollListener. cbn [scrollTimeout timers nextTimerId now].
  rewrite <- filter_cleared. by destruct w_scroll.
Qed.

Lemma mouseMoveListener_eq (w : World) (e : Event) :
  report (mouseMoveListener e) w
  = set_mouseTimeout (Some (nextTimerId w))
      (set_nextTimerId (S (nextTimerId w))
         (set_timers
            (filter (fun t => Some (timer_id t) ≠ mouseTimeout w) (timers w)
             ++ [mkTimer (nextTimerId w) (now w + 1000) (MouseCallback e)]) w)).
Proof.
  open_world w. unfold report, mouseMoveListener. cbn [mouseTimeout timers nextTimerId now].
  rewrite <- filter_cleared. by destruct w_mouse.
Qed.

Lemma plain_keeps_schedule (w : World) (h : Handler) (e : Event) :
  h ≠ InitializeTracker -> h ≠ InputListener -> h ≠ ScrollListener ->
  h ≠ MouseMoveListener ->
  same_schedule w (report (handle h e) w).
Proof. intros. by apply same_schedule_report, keeps_plain_handlers. Qed.

Lemma tidy_handle (w : World) (h : Handler) (e : Event) :
  tidy w -> h ≠ InitializeTracker -> tidy (report (handle h e) w).
Proof.
  intros Hw Hh.
  destruct h; try done;
    try (eapply tidy_same; [|exact Hw]; by apply plain_keeps_schedule);
    cbn [handle].
  - rewrite inputListener_eq.
    eapply (tidy_rearmed w _ (InputCallback e)); try done.
    intros cb' Hc. by destruct cb'.
  - rewrite scrollListener_eq.
    eapply (tidy_rearmed w _ ScrollCallback); try done.
    intros cb' Hc. by destruct cb'.
  - rewrite mouseMoveListener_eq.
    eapply (tidy_rearmed w _ (MouseCallback e)); try done.
    intros cb' Hc. by destruct cb'.
Qed.

(** Dispatch to the eight installed listeners: the one registered for
    the type of the event runs, if there is one. *)
Lemma dispatch_installed (w : World) (e : Event) :
  listeners w = installed ->
  dispatch e w
  = match handler_for (ev_type e) with
    | Some h => report (handle h e) w
    | None => w
    end.
Proof.
  intros Hl. unfold dispatch, handler_for. rewrite Hl.
  generalize (ev_type e). intros ty.
  cbn [installed foldl reg_type reg_handler].
  repeat (case_bool_decide; simplify_eq; try done).
Qed.

Lemma handler_for_not_init ty h : handler_for ty = Some h -> h ≠ InitializeTracker.
Proof.
  unfold handler_for. repeat case_bool_decide; by intros [= <-].
Qed.

Lemma handler_for_armed ty :
  (handler_for ty = Some InputListener -> ty = "input")
  /\ (handler_for ty = Some ScrollListener -> ty = "scroll")
  /\ (handler_for ty = Some MouseMoveListener -> ty = "mousemove").
Proof.
  unfold handler_for. repeat case_bool_decide; repeat split; by intros [=].
Qed.

Lemma tidy_dispatch (w : World) (e : Event) : tidy w -> tidy (dispatch e w).
Proof.
  intros Hw. rewrite dispatch_installed by apply Hw.
  destruct (handler_for (ev_type e)) as [h|] eqn:Hh; [|done].
  apply tidy_handle; [done|]. by eapply handler_for_not_init.
Qed.

Lemma tidy_fire_timer (w : World) (t : Timer) : tidy w -> tidy (fire_timer t w).
Proof.
  intros (Hl & Hslot & Hnd & Hlt & Hdis). unfold fire_timer.
  eapply tidy_same; [apply same_schedule_report, keeps_fire|].
  unfold tidy. open_world w. cbn in *.
  split; [done|]. split; [|split; [|split]].
  - intros t' [_ Ht']%list_elem_of_filter.
    specialize (Hslot t' Ht'). by destruct (callback t').
  - eapply sublist_NoDup; [exact Hnd|]. apply fmap_sublist, sublist_filter.
  - intros cb i Hi. apply (Hlt cb). by destruct cb.
  - intros cb1 cb2 i H1 H2. apply (Hdis cb1 cb2 i); [by destruct cb1|by destruct cb2].
Qed.

Lemma tidy_run_timers n limit : forall w, tidy w -> tidy (run_timers n limit w).
Proof.
  induction n as [|n IH]; intros w Hw; [done|].
  cbn [run_timers]. destruct (next_due limit (timers w)); [|done].
  by apply IH, tidy_fire_timer.
Qed.

Lemma tidy_advance limit w : tidy w -> tidy (advance limit w).
Proof.
  intros Hw. unfold advance.
  eapply tidy_same; [|by apply tidy_run_timers].
  by repeat split.
Qed.

Lemma tidy_step s w : tidy w -> tidy (step s w).
Proof.
  intros Hw. unfold step. apply tidy_dispatch.
  eapply tidy_same; [|by apply tidy_advance].
  by repeat split.
Qed.

Lemma tidy_run steps : forall w, tidy w -> tidy (run steps w).
Proof.
  induction steps as [|s steps IH]; intros w Hw; [done|].
  cbn [run foldl]. apply IH. by apply tidy_step.
Qed.

Lemma script_when_loaded (w : World) :
  readyState (page w) ≠ "loading" ->
  script w
  = (Normal tt,
     set_console
       (console w ++ greeting (now w) (page w) ++ pageView (now w) (page w)
        ++ readyNote)
       (set_globals (<["EventTracker" := exportedTracker]> (globals w))
          (set_lastMousePosition (0, 0)
             (set_mouseTimeout None
                (set_lastScrollPosition (Fin 0)
                   (set_scrollTimeout None
                      (set_inputTimeout None
                         (set_listeners (listeners w ++ installed) w)))))))).
Proof.
  intros Hr. open_world w. cbn in Hr.
  unfold script, initializeTracker, trackPageView,
    setupClickTracking, setupFormTracking, setupInputTracking,
    setupScrollTracking, setupMouseTracking, setupKeyboardTracking,
    setupVisibilityTracking, setupNavigationTracking.
  run_script. rewrite bool_decide_eq_false_2 by done. run_script.
  by rewrite <- !app_assoc.
Qed.

(** Right after the script has run on a loaded page with no listeners
    and no timers, the timers are in order. *)
Lemma tidy_attached (w : World) :
  readyState (page w) ≠ "loading" -> listeners w = [] -> timers w = [] ->
  tidy (exec script w).
Proof.
  intros Hr Hl Ht. unfold exec. rewrite script_when_loaded by done.
  cbn [snd]. open_world w. cbn in Hl, Ht. subst. unfold tidy. cbn.
  repeat split; try done.
  - by intros t ?%elem_of_nil.
  - apply NoDup_nil_2.
  - intros cb i. by destruct cb.
  - intros cb1 cb2 i. by destruct cb1.
Qed.

Lemma NoDup_fmap_eq {A B} (f : A -> B) (l : list A) (x y : A) :
  NoDup (f <$> l) -> x ∈ l -> y ∈ l -> f x = f y -> x = y.
Proof.
  induction l as [|a l IH]; [by intros _ ?%elem_of_nil|].
  cbn [fmap list_fmap]. intros [Hna Hnd]%NoDup_cons.
  intros [->|Hx]%elem_of_cons [->|Hy]%elem_of_cons Hf; [done| | |by apply IH].
  - exfalso. apply Hna. rewrite Hf. by apply list_elem_of_fmap_2.
  - exfalso. apply Hna. rewrite <- Hf. by apply list_elem_of_fmap_2.
Qed.

(** X18. One timer for each category, at most.  After any sequence of
    user events on a page where the tracker was attached, every pending
    timer is the one named by the closure variable of its category
    ([inputTimeout], [scrollTimeout] or [mouseTimeout]); so no two pending
    timers belong to the same category, and at most three are pending. *)
Theorem X18_one_pending_timer_per_category
    (w0 : World) (steps : list Step) :
  readyState (page w0) ≠ "loading" -> listeners w0 = [] -> timers w0 = [] ->
  let w := run steps (exec script w0) in
  (forall t, t ∈ timers w -> slot_of (callback t) w = Some (timer_id t))
  /\ (forall t1 t2, t1 ∈ timers w -> t2 ∈ timers w ->
        category (callback t1) = category (callback t2) -> t1 = t2)
  /\ (length (timers w) <= 3)%nat.
Proof.
  intros Hr Hl Ht w.
  assert (tidy w) as (_ & Hslot & Hnd & _ & _).
  { by apply tidy_run, tidy_attached. }
  assert (forall t1 t2, t1 ∈ timers w -> t2 ∈ timers w ->
            category (callback t1) = category (callback t2) -> t1 = t2) as Hone.
  { intros t1 t2 H1 H2 Hc. apply (NoDup_fmap_eq timer_id (timers w)); try done.
    pose proof (Hslot t1 H1) as E1. pose proof (Hslot t2 H2) as E2.
    rewrite (slot_of_category _ _ w Hc) in E1. congruence. }
  split; [done|]. split; [done|].
  assert (NoDup (timers w)) as Hnd' by (by eapply NoDup_fmap_1).
  assert ((fun t => category (callback t)) <$> timers w
          ⊆+ ["input"; "scroll"; "mousemove"]) as Hsub.
  { apply NoDup_submseteq.
    - apply NoDup_fmap_2_strong; [|done].
      intros t1 t2 H1 H2 Hc. by apply Hone.
    - intros c (t & -> & _)%list_elem_of_fmap.
      destruct (callback t); cbn [category]; set_solver. }
  apply submseteq_length in Hsub. by rewrite length_fmap in Hsub.
Qed.

Lemma X18_one_pending_timer_per_category_witness :
  let w :=
    run [typing 10 Sample.userRef "a"; scrolling 20 500;
         typing 30 Sample.cityRef "b"; scrolling 40 600]
      (exec script (Sample.fresh 0 Sample.pg)) in
  (length (timers w) <= 3)%nat.
Proof.
  intros w.
  destruct (X18_one_pending_timer_per_category (Sample.fresh 0 Sample.pg)
              [typing 10 Sample.userRef "a"; scrolling 20 500;
               typing 30 Sample.cityRef "b"; scrolling 40 600])
    as (_ & _ & H).
  - discriminate.
  - reflexivity.
  - reflexivity.
  - exact H.
Defined.

(** X19. The categories do not disturb each other.  On a page where
    the tracker was attached, after any sequence of user events, the
    dispatch of an event leaves every pending timer of another category
    pending: an input event clears the input timer only, a scroll event
    the scroll timer only, a mouse move the mouse timer only, and an event
    of any other type clears nothing. *)
Theorem X19_an_event_clears_its_own_timer_only
    (w0 : World) (steps : list Step) (e : Event) (t : Timer) :
  readyState (page w0) ≠ "loading" -> listeners w0 = [] -> timers w0 = [] ->
  let w := run steps (exec script w0) in
  t ∈ timers w ->
  category (callback t) ≠ ev_type e ->
  t ∈ timers (dispatch e w).
Proof.
  intros Hr Hl Ht w Hin Hcat.
  assert (tidy w) as Hw by (by apply tidy_run, tidy_attached).
  pose proof Hw as (Hli & Hslot & _ & _ & Hdis).
  rewrite dispatch_installed by done.
  destruct (handler_for (ev_type e)) as [h|] eqn:Hh; [|done].
  assert (forall cb, category cb = ev_type e ->
            t ∈ filter (fun t' => Some (timer_id t') ≠ slot_of cb w) (timers w))
    as Hkeep.
  { intros cb Hc. apply list_elem_of_filter. split; [|done].
    intros Heq. apply Hcat. rewrite <- Hc.
    eapply Hdis; [by apply Hslot|by symmetry]. }
  pose proof (handler_for_not_init _ _ Hh) as Hni.
  destruct (handler_for_armed (ev_type e)) as (Hi & Hs & Hm).
  destruct h; try done;
    try (by destruct (plain_keeps_schedule w _ e Hni) as (_ & -> & _));
    cbn [handle].
  - rewrite inputListener_eq. cbn [timers set_inputTimeout set_nextTimerId
      set_timers]. apply elem_of_app. left.
    apply (Hkeep (InputCallback e)). symmetry. by apply Hi.
  - rewrite scrollListener_eq. cbn [timers set_scrollTimeout set_nextTimerId
      set_timers]. apply elem_of_app. left.
    apply (Hkeep ScrollCallback). symmetry. by apply Hs.
  - rewrite mouseMoveListener_eq. cbn [timers set_mouseTimeout set_nextTimerId
      set_timers]. apply elem_of_app. left.
    apply (Hkeep (MouseCallback e)). symmetry. by apply Hm.
Qed.

Lemma X19_an_event_clears_its_own_timer_only_witness :
  let w := run [scrolling 20 500] (exec script (Sample.fresh 0 Sample.pg)) in
  mkTimer 0 220 ScrollCallback
  ∈ timers (dispatch (plainEvent "input" Sample.userRef) w).
Proof.
  intros w.
  apply (X19_an_event_clears_its_own_timer_only (Sample.fresh 0 Sample.pg)
           [scrolling 20 500] (plainEvent "input" Sample.userRef)
           (mkTimer 0 220 ScrollCallback)).
  - discriminate.
  - reflexivity.
  - reflexivity.
  - vm_compute. apply list_elem_of_here.
  - discriminate.
Defined.

End Schedule.

(** ** Scrolling is sampled after 200 ms of rest *)

Section ScrollDebounce.
Import Tracker Loop More.

Lemma scrollTopOf_with_scroll (top : Z) (pg : Page) :
  scrollTopOf (with_scroll top pg) = top.
Proof.
  unfold scrollTopOf, with_scroll. cbn. by destruct (top =? 0) eqn:E.
Qed.

Lemma scrollPercentageOf_with_scroll (top : Z) (pg : Page) :
  scrollPercentageOf (with_scroll top pg)
  = Num.percentage top (docScrollHeight pg - innerHeight pg).
Proof.
  unfold scrollPercentageOf. by rewrite scrollTopOf_with_scroll.
Qed.

(** A scroll event in a quiet world: the pending scroll timer is
    cancelled and one is set, 200 after the event; nothing is printed. *)
Lemma step_scrolling (w : World) (t top : Z) :
  scroll_quiet w t ->
  let w' := step (scrolling t top) w in
  listeners w' = installed /\ now w' = t /\ console w' = console w
  /\ page w' = with_scroll top (page w)
  /\ lastScrollPosition w' = lastScrollPosition w
  /\ scroll_pending w' (t + 200).
Proof.
  intros (Hl & Hnow & Ht). unfold scroll_pending in *.
  open_world w. cbn in Hl, Hnow, Ht. subst.
  unfold step, scrolling, advance.
  cbn [at_time change event apply_change].
  destruct Ht as [->|(d & (i & -> & ->) & Hd)].
  - cbn [timers length run_timers]. rewrite dispatch_scroll by reflexivity.
    unfold report, scrollListener.
    destruct w_scroll; run_script; rewrite Z.max_r by done; cbn;
      repeat split; eexists; split; reflexivity.
  - cbn [timers length run_timers next_due due].
    rewrite (proj2 (Z.leb_gt d t)) by lia.
    rewrite dispatch_scroll by reflexivity.
    unfold report, scrollListener. run_script.
    rewrite filter_own_timer, Z.max_r by done. cbn.
    repeat split. eexists; split; reflexivity.
Qed.

(** A burst of scroll events, each less than 200 after the one before
    it: only the timer of the last event is pending at the end, and
    nothing has been printed. *)
Lemma scroll_burst_run rest : forall (w : World) (t top : Z),
  scroll_quiet w t ->
  apart 200 t rest ->
  let w' := run (scrolls ((t, top) :: rest)) w in
  listeners w' = installed
  /\ now w' = (List.last rest (t, top)).1
  /\ console w' = console w
  /\ page w' = with_scroll (List.last rest (t, top)).2 (page w)
  /\ lastScrollPosition w' = lastScrollPosition w
  /\ scroll_pending w' ((List.last rest (t, top)).1 + 200).
Proof.
  induction rest as [|[t' top'] rest IH]; intros w t top Hq Hs.
  - cbn. by apply step_scrolling.
  - destruct Hs as [Ht' Hs].
    destruct (step_scrolling w t top Hq) as (Hl & Hn & Hc & Hp & Hlast & Hpend).
    specialize (IH (step (scrolling t top) w) t' top').
    rewrite last_cons_default.
    cbn [scrolls fmap list_fmap run foldl fst snd] in *.
    destruct IH as (Hl' & Hn' & Hc' & Hp' & Hlast' & Hpend').
    { repeat split; [done|lia|]. right. exists (t + 200). split; [done|lia]. }
    { done. }
    repeat split; [done|done|congruence| |congruence|done].
    by rewrite Hp', Hp.
Qed.

(** Letting the time pass with the scroll timer pending: nothing
    happens before it is due; when it is due the callback runs at that
    time and records the position the page has then, if the gate opens. *)
Lemma advance_scroll_pending (w : World) (d T : Z) :
  scroll_pending w d -> now w <= d ->
  console (advance T w)
  = if d <=? T
    then console w ++ scrollFired d (page w) (lastScrollPosition w)
    else console w.
Proof.
  intros (i & Ht & Hi) Hnow. open_world w. cbn in *. subst.
  unfold advance. cbn [timers length run_timers next_due due].
  destruct (d <=? T); [|reflexivity].
  unfold fire_timer. cbn [callback fire timers due timer_id].
  rewrite filter_own_timer. unfold report.
  rewrite scrollCallback_eq. cbn [page lastScrollPosition set_now set_timers
    now console]. unfold scrollFired.
  rewrite Z.max_r by done.
  destruct (changedSignificantly _ _); cbn; [done|by rewrite app_nil_r].
Qed.

(** X20. Scrolling is debounced.  From a start with no pending timer,
    scroll events that come less than 200 after one another print
    nothing; 200 after the last of them the callback runs once and
    samples the offset the page has then, the one of the last event.  The
    sample is recorded when its percentage, computed in double precision
    as the script does, differs by more than 10 from
    [lastScrollPosition], and then carries that time, that offset and
    that percentage; the offsets passed on the way are never reported. *)
Theorem X20_scrolling_is_sampled_after_200_of_rest
    (w : World) (t1 top1 : Z) (more : list (Z * Z)) (T : Z) :
  listeners w = installed -> timers w = [] -> now w <= t1 ->
  apart 200 t1 more ->
  let w' := run (scrolls ((t1, top1) :: more)) w in
  let tN := (List.last more (t1, top1)).1 in
  let topN := (List.last more (t1, top1)).2 in
  let pct := Num.percentage topN (docScrollHeight (page w) - innerHeight (page w)) in
  console w' = console w
  /\ console (advance T w')
     = if tN + 200 <=? T
       then console w
            ++ (if changedSignificantly pct (lastScrollPosition w)
                then Output.scroll (tN + 200) topN pct pct
                else [])
       else console w.
Proof.
  intros Hl Ht Hnow Hs w' tN topN pct.
  assert (scroll_quiet w t1) as Hq by (repeat split; auto).
  destruct (scroll_burst_run more w t1 top1 Hq Hs)
    as (_ & Hn & Hc & Hp & Hlast & Hpend).
  fold w' tN topN in Hn, Hc, Hp, Hlast, Hpend.
  split; [done|].
  rewrite (advance_scroll_pending w' (tN + 200) T Hpend) by lia.
  unfold scrollFired.
  by rewrite Hc, Hp, Hlast, scrollPercentageOf_with_scroll,
    scrollTopOf_with_scroll.
Qed.

Lemma X20_scrolling_is_sampled_after_200_of_rest_witness :
  let w := Sample.started 0 Sample.pg in
  let w' := run (scrolls [(10, 100); (150, 700); (300, 145)]) w in
  console w' = console w
  /\ console (advance 600 w')
     = console w ++ Output.scroll 500 145 (Fin 14) (Fin 14).
Proof.
  intros w w'.
  pose proof (X20_scrolling_is_sampled_after_200_of_rest
                w 10 100 [(150, 700); (300, 145)] 600) as H.
  by_evaluation H.
  cbv zeta in H. destruct H as [H1 H2]. split; [exact H1|].
  assert ((List.last [(150, 700); (300, 145)] (10, 100)).1 = 300) as E1
    by reflexivity.
  assert ((List.last [(150, 700); (300, 145)] (10, 100)).2 = 145) as E2
    by reflexivity.
  assert ((300 + 200 <=? 600) = true) as E3 by reflexivity.
  assert (300 + 200 = 500) as E4 by reflexivity.
  assert (Num.percentage 145
            (docScrollHeight (page w) - innerHeight (page w)) = Fin 14) as E5
    by (vm_compute; reflexivity).
  assert (changedSignificantly (Fin 14) (lastScrollPosition w) = true) as E6
    by (vm_compute; reflexivity).
  rewrite E1, E2, E3, E4, E5, E6 in H2. exact H2.
Defined.

End ScrollDebounce.
